(** * Monitor action of the Integration controller

    A shallow embedding of [pkg/controller/integration/monitor.go]: the
    Integration status is threaded explicitly through every function that
    receives the [*v1.Integration] pointer, the calls that leave the file
    (object store client, digest, probe proxy, trait pipeline, controller
    variants) are operations of the [Client] record and of the [Workloads]
    and [Collaborators] classes, and a nil dereference is the [Panic]
    outcome. Go's [int] is taken to be 64 bits wide; counts of pods are
    natural numbers. Timestamps of conditions are not part of the model. *)

From Stdlib Require Import ZArith Ascii String List Bool Lia.
From stdpp Require Import base decidable option list strings gmap pretty.

Local Open Scope string_scope.
Local Open Scope list_scope.
Local Open Scope Z_scope.

(** ** Go errors *)

(** The error values built in monitor.go ([fmt.Errorf] call sites), the two
    sentinel classes the probe loop tells apart ([context.DeadlineExceeded],
    an API status error with its reason), [strconv]'s [*NumError] and an
    opaque error for everything a collaborator may return. [%w] wrapping is
    kept as a constructor argument so that [errors.Is] can unwrap it. *)
Inductive error : Type :=
| ErrNoKitSet (name : string)
| ErrKitNotFound (namespace name : string) (cause : error)
| ErrTypeAssertion (kind : string)
| ErrUnsupportedController (name : string)
| ErrUnableToRetrieveController (name : string)
| ErrContainerNotFound (namespace name : string)
| ErrNum (fn num reason : string)
| DeadlineExceeded
| StatusError (reason message : string)
| ErrWrapped (message : string) (cause : error)
| ErrOther (message : string).

(** ** strconv.Quote *)

Definition hexDigit (n : nat) : ascii :=
  ascii_of_nat (if (n <? 10)%nat then 48 + n else 87 + n).

(** The escape of one byte in a double-quoted Go string literal: the quote
    and the backslash are escaped, the control characters have their letter
    or their two lower-case hexadecimal digits, every other byte of the ASCII
    range stands for itself. A byte above 0x7f is taken to be part of the
    UTF-8 encoding of a printable rune, which stands for itself as well. *)
Definition quoteByte (c : ascii) : string :=
  let n := nat_of_ascii c in
  let escaped (letter : string) : string := String "092"%char letter in
  if (n =? 34)%nat then escaped (String c EmptyString)
  else if (n =? 92)%nat then escaped (String c EmptyString)
  else if (n =? 7)%nat then escaped "a"
  else if (n =? 8)%nat then escaped "b"
  else if (n =? 12)%nat then escaped "f"
  else if (n =? 10)%nat then escaped "n"
  else if (n =? 13)%nat then escaped "r"
  else if (n =? 9)%nat then escaped "t"
  else if (n =? 11)%nat then escaped "v"
  else if (n <? 32)%nat || (n =? 127)%nat
  then escaped (String "x" (String (hexDigit (n / 16)) (String (hexDigit (n mod 16)) EmptyString)))
  else String c EmptyString.

Fixpoint quoteBytes (s : string) : string :=
  match s with
  | EmptyString => EmptyString
  | String c rest => quoteByte c +:+ quoteBytes rest
  end.

(** [strconv.Quote(s)]. *)
Definition Quote (s : string) : string :=
  String "034"%char (quoteBytes s +:+ String "034"%char EmptyString).

(** [err.Error()]. The failed type assertions of [newController] print the
    object with [%v]; the assertion fails on the nil that
    [getUpdatedController] returns when it finds no object of the type, and
    nil prints as [<nil>]. *)
Fixpoint Error (e : error) : string :=
  match e with
  | ErrNoKitSet name => "no kit set on integration " +:+ name
  | ErrKitNotFound ns name cause =>
      "unable to find integration kit " +:+ ns +:+ "/" +:+ name +:+ ": " +:+ Error cause
  | ErrTypeAssertion kind => "type assertion failed, not a " +:+ kind +:+ ": <nil>"
  | ErrUnsupportedController name => "unsupported controller for integration " +:+ name
  | ErrUnableToRetrieveController name =>
      "unable to retrieve controller for integration " +:+ name
  | ErrContainerNotFound ns name =>
      "integration container not found in Pod " +:+ ns +:+ "/" +:+ name
  | ErrNum fn num reason =>
      "strconv." +:+ fn +:+ ": parsing " +:+ Quote num +:+ ": " +:+ reason
  | DeadlineExceeded => "context deadline exceeded"
  | StatusError _ message => message
  | ErrWrapped message cause => message +:+ ": " +:+ Error cause
  | ErrOther message => message
  end.

(** [errors.Is(err, context.DeadlineExceeded)]: walks the [%w] chain. *)
Fixpoint isDeadlineExceeded (e : error) : bool :=
  match e with
  | DeadlineExceeded => true
  | ErrKitNotFound _ _ cause | ErrWrapped _ cause => isDeadlineExceeded cause
  | _ => false
  end.

(** [k8serrors.IsServiceUnavailable(err)]: the reason of the API status
    error found in the chain is [ServiceUnavailable] (HTTP 503). *)
Fixpoint IsServiceUnavailable (e : error) : bool :=
  match e with
  | StatusError reason _ => bool_decide (reason = "ServiceUnavailable")
  | ErrKitNotFound _ _ cause | ErrWrapped _ cause => IsServiceUnavailable cause
  | _ => false
  end.

(** A Go call returning [(T, error)] of which the caller uses [T] only when
    the error is nil. *)
Inductive result (A : Type) : Type :=
| Ok (a : A)
| Err (e : error).
Arguments Ok {A} a.
Arguments Err {A} e.

(** ** strconv.Atoi *)

Definition maxInt : Z := 2 ^ 63 - 1.
Definition minInt : Z := - 2 ^ 63.

Definition digitValue (c : ascii) : option Z :=
  let n := Z.of_nat (nat_of_ascii c) in
  if (48 <=? n) && (n <=? 57) then Some (n - 48) else None.

Definition maxUint64 : Z := 2 ^ 64 - 1.

(** What the loop of [strconv.ParseUint] makes of the digits. *)
Inductive parsed : Type :=
| SyntaxError
| RangeError
| Parsed (n : Z).

(** The loop of [strconv.ParseUint] in base 10, from left to right: a byte
    that is no decimal digit is a syntax error, and a value that leaves the
    unsigned 64-bit range is a range error; the first of the two that the
    loop meets decides. *)
Fixpoint parseDigits (s : string) (acc : Z) : parsed :=
  match s with
  | EmptyString => Parsed acc
  | String c rest =>
      match digitValue c with
      | None => SyntaxError
      | Some d =>
          if acc * 10 + d >? maxUint64 then RangeError
          else parseDigits rest (acc * 10 + d)
      end
  end.

(** [strconv.Atoi] on a 64-bit [int]: an optional sign, then at least one
    decimal digit and nothing else; a value outside the [int] range is a
    range error. The error names the whole string. *)
Definition Atoi (s : string) : result Z :=
  let '(neg, body) :=
    match s with
    | String "-"%char rest => (true, rest)
    | String "+"%char rest => (false, rest)
    | _ => (false, s)
    end in
  match body with
  | EmptyString => Err (ErrNum "Atoi" s "invalid syntax")
  | _ =>
      match parseDigits body 0 with
      | SyntaxError => Err (ErrNum "Atoi" s "invalid syntax")
      | RangeError => Err (ErrNum "Atoi" s "value out of range")
      | Parsed n =>
          let v := if neg then - n else n in
          if (minInt <=? v) && (v <=? maxInt) then Ok v
          else Err (ErrNum "Atoi" s "value out of range")
      end
  end.

(** ** Kubernetes core types (k8s.io/api/core/v1), the fields monitor.go reads *)

Module corev1.

(** [corev1.ConditionStatus]; [ConditionUnset] is the zero value of the Go
    string type. *)
Inductive ConditionStatus : Type :=
| ConditionUnset
| ConditionTrue
| ConditionFalse
| ConditionUnknown.

#[global] Instance ConditionStatus_eq_dec : EqDecision ConditionStatus.
Proof. solve_decision. Defined.

(** [corev1.PodConditionType]; [PodConditionTypeUnset] is the zero value. *)
Inductive PodConditionType : Type :=
| PodConditionTypeUnset
| ContainersReady
| PodInitialized
| PodReady
| PodScheduled.

#[global] Instance PodConditionType_eq_dec : EqDecision PodConditionType.
Proof. solve_decision. Defined.

(** [corev1.PodPhase], the value of the [status.phase] field selector. *)
Inductive PodPhase : Type :=
| PodPending
| PodRunning
| PodSucceeded
| PodFailed
| PodUnknown.

Module PodCondition.
Record t : Type := mk {
  Type_ : PodConditionType;
  Status : ConditionStatus;
  Reason : string;
  Message : string
}.
(** The zero value, as left by [make([]v1.PodCondition, n)]. *)
Definition zero : t := mk PodConditionTypeUnset ConditionUnset "" "".
Definition setMessage (m : string) (c : t) : t :=
  mk (Type_ c) (Status c) (Reason c) m.
End PodCondition.

Module ContainerStateWaiting.
Record t : Type := mk { Reason : string; Message : string }.
End ContainerStateWaiting.

Module ContainerStateTerminated.
Record t : Type := mk { ExitCode : Z; Reason : string; Message : string }.
End ContainerStateTerminated.

Module ContainerState.
Record t : Type := mk {
  Waiting : option ContainerStateWaiting.t;
  Running : bool;
  Terminated : option ContainerStateTerminated.t
}.
End ContainerState.

Module ContainerStatus.
Record t : Type := mk { Name : string; State : ContainerState.t }.
End ContainerStatus.

Module HTTPGetAction.
Record t : Type := mk { Path : string; Port : Z }.
End HTTPGetAction.

Module Probe.
Record t : Type := mk { HTTPGet : option HTTPGetAction.t }.
End Probe.

Module Container.
Record t : Type := mk { Name : string; ReadinessProbe : option Probe.t }.
End Container.

Module PodSpec.
Record t : Type := mk { Containers : list Container.t }.
End PodSpec.

Module PodStatus.
Record t : Type := mk {
  Conditions : list PodCondition.t;
  InitContainerStatuses : list ContainerStatus.t;
  ContainerStatuses : list ContainerStatus.t
}.
End PodStatus.

(** [corev1.Pod]; [Name], [Namespace] and [DeletionTimestamp] are the
    promoted fields of the embedded [ObjectMeta]. Of the deletion timestamp
    only its presence is read. *)
Module Pod.
Record t : Type := mk {
  Name : string;
  Namespace : string;
  DeletionTimestamp : option Z;
  Spec : PodSpec.t;
  Status : PodStatus.t
}.
End Pod.

End corev1.

(** ** Camel K API types (pkg/apis/camel/v1), the fields monitor.go reads *)

Module v1.

(** [v1.IntegrationPhase]. *)
Inductive IntegrationPhase : Type :=
| IntegrationPhaseNone
| IntegrationPhaseWaitingForPlatform
| IntegrationPhaseInitialization
| IntegrationPhaseBuildingKit
| IntegrationPhaseDeploying
| IntegrationPhaseRunning
| IntegrationPhaseError.

#[global] Instance IntegrationPhase_eq_dec : EqDecision IntegrationPhase.
Proof. solve_decision. Defined.

(** [v1.IntegrationKitPhase]. *)
Inductive IntegrationKitPhase : Type :=
| IntegrationKitPhaseNone
| IntegrationKitPhaseInitialization
| IntegrationKitPhaseWaitingForPlatform
| IntegrationKitPhaseBuildSubmitted
| IntegrationKitPhaseBuildRunning
| IntegrationKitPhaseReady
| IntegrationKitPhaseError.

#[global] Instance IntegrationKitPhase_eq_dec : EqDecision IntegrationKitPhase.
Proof. solve_decision. Defined.

(** [v1.IntegrationConditionType]. *)
Inductive IntegrationConditionType : Type :=
| IntegrationConditionReady
| IntegrationConditionKitAvailable
| IntegrationConditionDeploymentAvailable
| IntegrationConditionKnativeServiceAvailable
| IntegrationConditionCronJobAvailable
| IntegrationConditionOther (name : string).

#[global] Instance IntegrationConditionType_eq_dec : EqDecision IntegrationConditionType.
Proof. solve_decision. Defined.

(** Modelled from the spec: the reason constants of the v1 package, which
    are declared elsewhere ("a distinguishing reason (error vs.
    not-yet-ready)", "an initialization-failed reason", "a monitoring
    unavailable reason"). The condition's [Reason] is a Go string; the named
    constants are taken to be pairwise distinct and different from the empty
    string, which is [ReasonUnset]. *)
Inductive ConditionReason : Type :=
| ReasonUnset
| IntegrationConditionErrorReason
| IntegrationConditionRuntimeNotReadyReason
| IntegrationConditionInitializationFailedReason
| IntegrationConditionMonitoringPodsAvailableReason
| ReasonOther (text : string).

#[global] Instance ConditionReason_eq_dec : EqDecision ConditionReason.
Proof. solve_decision. Defined.

(** [v1.HealthCheckStatus]. *)
Inductive HealthCheckStatus : Type :=
| HealthCheckStatusUp
| HealthCheckStatusDown
| HealthCheckStatusOther (text : string).

#[global] Instance HealthCheckStatus_eq_dec : EqDecision HealthCheckStatus.
Proof. solve_decision. Defined.

(** The label carrying the integration name; its value shows in the
    guidance message of [monitorPods]. *)
Definition IntegrationLabel : string := "camel.apache.org/integration".

(** Modelled from the spec: the key of the kit's "numeric priority" label;
    the constant is declared in the v1 package. *)
Definition IntegrationKitPriorityLabel : string := "camel.apache.org/kit.priority".

Module HealthCheckResponse.
Record t : Type := mk { Name : string; Status : HealthCheckStatus; Data : string }.
End HealthCheckResponse.

Module HealthCheck.
Record t : Type := mk { Status : HealthCheckStatus; Checks : list HealthCheckResponse.t }.
End HealthCheck.

(** [v1.PodCondition]: the per-pod detail of a condition. *)
Module PodCondition.
Record t : Type := mk {
  Name : string;
  Condition : corev1.PodCondition.t;
  Health : list HealthCheckResponse.t
}.
Definition zero : t := mk "" corev1.PodCondition.zero [].
Definition setName (n : string) (p : t) : t := mk n (Condition p) (Health p).
Definition setCondition (c : corev1.PodCondition.t) (p : t) : t := mk (Name p) c (Health p).
Definition setHealth (h : list HealthCheckResponse.t) (p : t) : t := mk (Name p) (Condition p) h.
End PodCondition.

Module IntegrationCondition.
Record t : Type := mk {
  Type_ : IntegrationConditionType;
  Status : corev1.ConditionStatus;
  Reason : ConditionReason;
  Message : string;
  Pods : list PodCondition.t
}.
End IntegrationCondition.

Module ObjectReference.
Record t : Type := mk { Namespace : string; Name : string }.
End ObjectReference.

Module MountTrait.
Record t : Type := mk {
  HotReload : option bool;
  Configs : list string;
  Resources : list string
}.
End MountTrait.

Module Traits.
Record t : Type := mk { Mount : option MountTrait.t }.
End Traits.

(** Of the spec only the traits are read here; the rest of it is the opaque
    [Content] the digest is computed over. *)
Module IntegrationSpec.
Record t : Type := mk { Traits : Traits.t; Content : string }.
End IntegrationSpec.

Module IntegrationStatus.
Record t : Type := mk {
  Phase : IntegrationPhase;
  Digest : string;
  Replicas : option Z;
  Selector : string;
  Conditions : list IntegrationCondition.t;
  IntegrationKit : option ObjectReference.t
}.
Definition setPhase (p : IntegrationPhase) (s : t) : t :=
  mk p (Digest s) (Replicas s) (Selector s) (Conditions s) (IntegrationKit s).
Definition setDigest (d : string) (s : t) : t :=
  mk (Phase s) d (Replicas s) (Selector s) (Conditions s) (IntegrationKit s).
Definition setReplicas (r : option Z) (s : t) : t :=
  mk (Phase s) (Digest s) r (Selector s) (Conditions s) (IntegrationKit s).
Definition setSelector (l : string) (s : t) : t :=
  mk (Phase s) (Digest s) (Replicas s) l (Conditions s) (IntegrationKit s).
Definition setConditionList (c : list IntegrationCondition.t) (s : t) : t :=
  mk (Phase s) (Digest s) (Replicas s) (Selector s) c (IntegrationKit s).
Definition setIntegrationKit (k : option ObjectReference.t) (s : t) : t :=
  mk (Phase s) (Digest s) (Replicas s) (Selector s) (Conditions s) k.
End IntegrationStatus.

Module Integration.
Record t : Type := mk {
  Name : string;
  Namespace : string;
  Annotations : gmap string string;
  Spec : IntegrationSpec.t;
  Status : IntegrationStatus.t
}.
Definition setStatus (s : IntegrationStatus.t) (i : t) : t :=
  mk (Name i) (Namespace i) (Annotations i) (Spec i) s.
Definition mapStatus (f : IntegrationStatus.t -> IntegrationStatus.t) (i : t) : t :=
  setStatus (f (Status i)) i.
End Integration.

Module IntegrationKitStatus.
Record t : Type := mk { Phase : IntegrationKitPhase }.
End IntegrationKitStatus.

Module IntegrationKit.
Record t : Type := mk {
  Name : string;
  Namespace : string;
  Labels : gmap string string;
  Annotations : gmap string string;
  Status : IntegrationKitStatus.t
}.
End IntegrationKit.

End v1.

Abbreviation Pod := corev1.Pod.t.
Abbreviation Integration := v1.Integration.t.
Abbreviation IntegrationKit := v1.IntegrationKit.t.
Abbreviation IntegrationCondition := v1.IntegrationCondition.t.

(** ** Helpers of the API and utility packages *)

(** Modelled from the spec: [kubernetes.GetPodCondition] (pkg/util/kubernetes,
    outside monitor.go), the lookup of a pod's condition by type ("a
    PodScheduled=false condition", "not already reporting PodReady=true").
    It returns the first condition of the type, as the loop of
    [probeReadiness] over [pod.Status.Conditions] does, and nil when the pod
    has none. *)
Definition GetPodCondition (pod : Pod) (condType : corev1.PodConditionType)
  : option corev1.PodCondition.t :=
  find (fun c => bool_decide (corev1.PodCondition.Type_ c = condType))
       (corev1.PodStatus.Conditions (corev1.Pod.Status pod)).

(** Modelled from the spec: [IntegrationStatus.GetCondition] (v1 package,
    outside monitor.go): the condition of the given type, nil when there is none. *)
Definition GetCondition (status : v1.IntegrationStatus.t) (condType : v1.IntegrationConditionType)
  : option IntegrationCondition :=
  find (fun c => bool_decide (v1.IntegrationCondition.Type_ c = condType))
       (v1.IntegrationStatus.Conditions status).

(** Modelled from the spec: [IntegrationStatus.SetConditions] (v1 package,
    outside monitor.go): "each reconciliation pass may overwrite specific condition
    types but must not lose unrelated ones". The condition replaces the one
    of its type; the others are kept, in their order. *)
Definition SetConditions (condition : IntegrationCondition) (status : v1.IntegrationStatus.t)
  : v1.IntegrationStatus.t :=
  v1.IntegrationStatus.setConditionList
    (filter (fun c => v1.IntegrationCondition.Type_ c <> v1.IntegrationCondition.Type_ condition)
            (v1.IntegrationStatus.Conditions status) ++ [condition])
    status.

(** Modelled from the spec: [Integration.SetReadyCondition] (v1 package,
    outside monitor.go): sets the ready condition with a status, reason and
    message, without per-pod details. *)
Definition SetReadyCondition (status : corev1.ConditionStatus) (reason : v1.ConditionReason)
    (message : string) (integration : Integration) : Integration :=
  v1.Integration.mapStatus
    (SetConditions (v1.IntegrationCondition.mk v1.IntegrationConditionReady status reason message []))
    integration.

(** Modelled from the spec: [Integration.SetReadyConditionError] (v1 package,
    outside monitor.go): the ready condition becomes false, with the error reason
    and "the condition message copied from the offending status". *)
Definition SetReadyConditionError (message : string) (integration : Integration) : Integration :=
  SetReadyCondition corev1.ConditionFalse v1.IntegrationConditionErrorReason message integration.

(** Modelled from the spec: [Integration.IsConditionTrue] (v1 package, outside
    monitor.go): 'which "available" condition is currently true on the
    Integration'. *)
Definition IsConditionTrue (integration : Integration) (condType : v1.IntegrationConditionType) : bool :=
  match GetCondition (v1.Integration.Status integration) condType with
  | Some cond => bool_decide (v1.IntegrationCondition.Status cond = corev1.ConditionTrue)
  | None => false
  end.

(** Modelled from the spec: [Integration.Initialize] (v1 package, outside
    monitor.go): "reset Integration to its initial state". The status is replaced by
    a fresh one in the initialization phase. *)
Definition Initialize (integration : Integration) : Integration :=
  v1.Integration.setStatus
    (v1.IntegrationStatus.mk v1.IntegrationPhaseInitialization "" None "" [] None)
    integration.

(** Modelled from the spec: [Integration.SetIntegrationKit] (v1 package,
    outside monitor.go): "switch the Integration's kit reference", or clear it when
    the kit is nil. *)
Definition SetIntegrationKit (kit : option IntegrationKit) (integration : Integration) : Integration :=
  v1.Integration.mapStatus
    (v1.IntegrationStatus.setIntegrationKit
       (match kit with
        | Some k => Some (v1.ObjectReference.mk (v1.IntegrationKit.Namespace k) (v1.IntegrationKit.Name k))
        | None => None
        end))
    integration.

(** Modelled from the spec: the annotation getters of the v1 package (outside
    monitor.go) for "the operator identity, the integration-profile name, or the
    integration-profile namespace annotation": the annotation's value, the
    empty string when it is absent. *)
Definition OperatorIDAnnotation : string := "camel.apache.org/operator.id".
Definition IntegrationProfileAnnotation : string := "camel.apache.org/integration-profile.id".
Definition IntegrationProfileNamespaceAnnotation : string :=
  "camel.apache.org/integration-profile.namespace".

Definition getAnnotation (annotations : gmap string string) (key : string) : string :=
  default "" (annotations !! key).

(** [m[key]] on a Go [map[string]string]: the empty string when absent. *)
Definition mapIndex (m : gmap string string) (key : string) : string :=
  default "" (m !! key).

(** [int32(n)]: the conversion wraps around. *)
Definition int32 (n : Z) : Z := (n + 2 ^ 31) mod 2 ^ 32 - 2 ^ 31.

(** ** Label selectors (k8s.io/apimachinery/pkg/labels) *)

Inductive Operator : Type :=
| GreaterThan
| LessThan
| Equals.

Record Requirement : Type := mkRequirement {
  key : string;
  operator : Operator;
  strValues : list string
}.

(** The validation of label keys and values
    (k8s.io/apimachinery/pkg/util/validation). *)
Definition isLowerAlphaNumeric (c : ascii) : bool :=
  let n := nat_of_ascii c in
  ((48 <=? n) && (n <=? 57) || (97 <=? n) && (n <=? 122))%nat.

Definition isAlphaNumeric (c : ascii) : bool :=
  let n := nat_of_ascii c in
  isLowerAlphaNumeric c || ((65 <=? n) && (n <=? 90))%nat.

(** The parts of [s] between the occurrences of [sep] ([strings.Split]). *)
Fixpoint splitOn (sep : ascii) (s : string) : list string :=
  match s with
  | EmptyString => [EmptyString]
  | String c rest =>
      if Ascii.eqb c sep then EmptyString :: splitOn sep rest
      else
        match splitOn sep rest with
        | part :: parts => String c part :: parts
        | [] => [String c EmptyString]
        end
  end.

(** [s] starts and ends with a byte satisfying [edge] and holds only bytes
    satisfying [inner]: a match of [edge(inner*edge)?] when [edge] implies
    [inner]. *)
Definition framed (edge inner : ascii -> bool) (s : string) : bool :=
  match list_ascii_of_string s with
  | [] => false
  | first :: rest =>
      edge first && forallb inner rest && edge (List.last rest first)
  end.

(** The regular expression of a qualified name: an alphanumeric, or two
    alphanumerics around any number of alphanumerics, dashes, underscores and
    dots. *)
Definition matchesQualifiedName (s : string) : bool :=
  framed isAlphaNumeric
    (fun c => isAlphaNumeric c
              || Ascii.eqb c "-"%char || Ascii.eqb c "_"%char || Ascii.eqb c "."%char) s.

(** [IsDNS1123Subdomain]: at most 253 bytes, labels of lower-case
    alphanumerics and dashes that start and end with an alphanumeric,
    separated by dots. *)
Definition IsDNS1123Subdomain (s : string) : bool :=
  (String.length s <=? 253)%nat
  && forallb (framed isLowerAlphaNumeric
                (fun c => isLowerAlphaNumeric c || Ascii.eqb c "-"%char))
       (splitOn "."%char s).

(** [IsQualifiedName]: a name of at most 63 bytes, with an optional DNS
    subdomain prefix and a slash before it. *)
Definition IsQualifiedName (s : string) : bool :=
  let name_ok (name : string) : bool :=
    (String.length name <=? 63)%nat && matchesQualifiedName name in
  match splitOn "/"%char s with
  | [name] => name_ok name
  | [prefix; name] => IsDNS1123Subdomain prefix && name_ok name
  | _ => false
  end.

(** [IsValidLabelValue]: at most 63 bytes, empty or a qualified name. *)
Definition IsValidLabelValue (s : string) : bool :=
  (String.length s <=? 63)%nat
  && (match s with EmptyString => true | _ => matchesQualifiedName s end).

(** [labels.NewRequirement]: the key must be a qualified name, there must be
    exactly one value for each of the three operators, for [GreaterThan] and
    [LessThan] the value must parse as a 64-bit integer, and every value must
    be a valid label value. The checks are all made and their failures
    returned as one aggregate, which is an opaque error here: its text is not
    part of the model. *)
Definition NewRequirement (k : string) (op : Operator) (vals : list string) : result Requirement :=
  let integers :=
    match op with
    | GreaterThan | LessThan =>
        forallb (fun v => match Atoi v with Ok _ => true | Err _ => false end) vals
    | Equals => true
    end in
  if IsQualifiedName k && (length vals =? 1)%nat && integers && forallb IsValidLabelValue vals
  then Ok (mkRequirement k op vals)
  else Err (ErrOther "invalid label selector requirement").

(** ** Outcomes and the state threaded through a pass *)

(** What a call leaves behind: it panics (a nil pointer is dereferenced), or
    it returns [a] and the Integration the caller's pointer now refers to. *)
Inductive outcome (A : Type) : Type :=
| Panic
| Done (a : A) (integration : Integration).
Arguments Panic {A}.
Arguments Done {A} a integration.

(** A function that receives the [*v1.Integration] pointer. *)
Definition M (A : Type) : Type := Integration -> outcome A.

Definition ret {A : Type} (a : A) : M A := fun i => Done a i.

Definition bind {A B : Type} (m : M A) (k : A -> M B) : M B :=
  fun i =>
    match m i with
    | Panic => Panic
    | Done a i' => k a i'
    end.

(** A non-panicking step given as a pure function on the Integration. *)
Definition lift {A : Type} (f : Integration -> A * Integration) : M A :=
  fun i => let '(a, i') := f i in Done a i'.

(** An in-place update of the Integration. *)
Definition update (f : Integration -> Integration) : M unit :=
  fun i => Done tt (f i).

(** Reading through the pointer. *)
Definition read : M Integration := fun i => Done i i.

Definition panic {A : Type} : M A := fun _ => Panic.

Notation "'let*' x ':=' m 'in' k" := (bind m (fun x => k))
  (at level 10, x pattern, m at level 100, k at level 200).

(** The [*v1.Integration] a function returns: nil, or the pointer it was
    given. *)
Inductive returned : Type :=
| ReturnsNil
| ReturnsIntegration.

Definition setPhase (phase : v1.IntegrationPhase) : Integration -> Integration :=
  v1.Integration.mapStatus (v1.IntegrationStatus.setPhase phase).

(** ** Collaborators *)

(** The [controller] interface. The implementations keep the Integration
    pointer (see [newController]), so the two operations that report on the
    ready condition are given the Integration and return it. *)
Record controller : Type := mkController {
  checkReadyCondition : Integration -> (bool * option error) * Integration;
  getPodSpec : corev1.PodSpec.t;
  updateReadyCondition : nat -> Integration -> bool * Integration;
  hasTemplateIntegrationLabel : bool;
  getControllerName : string
}.

(** The parsed form of a mount configuration ([utilResource.Config]). *)
Inductive StorageType : Type :=
| StorageTypeConfigmap
| StorageTypeSecret
| StorageTypeOther.

Record Config : Type := mkConfig {
  ConfigStorageType : StorageType;
  ConfigName : string
}.

Inductive ResourceKind : Type :=
| KindConfigMap
| KindSecret.

(** The object store client and the calls made through it. *)
Record Client : Type := mkClient {
  (** [kubernetes.GetIntegrationKit(ctx, client, name, namespace)] *)
  GetIntegrationKit : string -> string -> result IntegrationKit;
  (** [client.List] of the pods of a namespace carrying the integration
      label with the given value, in the given [status.phase] *)
  ListPods : string -> string -> corev1.PodPhase -> result (list Pod);
  (** [kubernetes.LookupResourceVersion] of the named ConfigMap or Secret *)
  LookupResourceVersion : ResourceKind -> string -> string -> string;
  (** [proxyGetHTTPProbe]: the body and the error of the proxied GET *)
  proxyGetHTTPProbe : corev1.Probe.t -> Pod -> corev1.Container.t -> string * option error;
  (** [lookupKitsForIntegration] with one selector option *)
  lookupKitsForIntegration : Integration -> Requirement -> result (list IntegrationKit)
}.

(** Modelled from the spec: the three controller variants
    ([deploymentController], [knativeServiceController],
    [cronJobController]) are declared in other files: "each variant wraps the
    concrete object retrieved from the ResourceCollection by type match and
    exposes" the operations of [controller]. The concrete workload types are
    left abstract. *)
Class Workloads : Type := {
  Deployment : Type;
  KnativeService : Type;
  CronJob : Type;
  deploymentController : Deployment -> controller;
  knativeServiceController : KnativeService -> controller;
  cronJobController : CronJob -> Client -> controller
}.

(** An object of the resource collection, by its Go type. *)
Inductive Object `{Workloads} : Type :=
| DeploymentObject (obj : Deployment)
| KnativeServiceObject (obj : KnativeService)
| CronJobObject (obj : CronJob)
| OtherObject (kind : string).

Inductive ObjectType : Type :=
| TypeDeployment
| TypeKnativeService
| TypeCronJob
| TypeOther (kind : string).

#[global] Instance ObjectType_eq_dec : EqDecision ObjectType.
Proof. solve_decision. Defined.

(** [reflect.TypeOf(object)]. *)
Definition TypeOf `{Workloads} (object : Object) : ObjectType :=
  match object with
  | DeploymentObject _ => TypeDeployment
  | KnativeServiceObject _ => TypeKnativeService
  | CronJobObject _ => TypeCronJob
  | OtherObject kind => TypeOther kind
  end.

(** [trait.Environment], as far as monitor.go reads it: the resources built by
    the trait pipeline and the name of the integration container
    ([GetIntegrationContainerName]). *)
Record Environment `{Workloads} : Type := mkEnvironment {
  Resources : list Object;
  GetIntegrationContainerName : string
}.

(** Modelled from the spec: [Collection.GetController] (pkg/util/kubernetes,
    outside monitor.go): the collection is an "ordered sequence of desired output
    objects ... queried by type predicate to retrieve the controller object";
    nil when no object passes the filter. *)
Definition GetController `{Workloads} (resources : list Object) (filter : Object -> bool)
  : option Object :=
  find filter resources.

(** The functions of other packages a pass calls. *)
Class Collaborators `{Workloads} : Type := {
  (** [digest.ComputeForIntegration(integration, configmaps, secrets)] *)
  ComputeForIntegration : Integration -> list string -> list string -> result string;
  (** [utilResource.ParseConfig] *)
  ParseConfig : string -> result Config;
  (** [NewHealthCheck]: the health report parsed from a response body *)
  NewHealthCheck : string -> result v1.HealthCheck.t;
  (** [trait.Apply(ctx, client, integration, kit)], as [Handle] calls it: it
      builds the Environment of the pass or fails, "without mutating
      Integration status" *)
  Apply : Client -> Integration -> IntegrationKit -> result Environment
}.

(** ** monitor.go *)

Section Monitor.
Context `{Collaborators}.

(** [monitorAction.CanHandle]. *)
Definition CanHandle (integration : Integration) : bool :=
  let phase := v1.IntegrationStatus.Phase (v1.Integration.Status integration) in
  bool_decide (phase = v1.IntegrationPhaseDeploying)
  || bool_decide (phase = v1.IntegrationPhaseRunning)
  || bool_decide (phase = v1.IntegrationPhaseError).

Definition isInInitializationFailed (status : v1.IntegrationStatus.t) : bool :=
  if negb (bool_decide (v1.IntegrationStatus.Phase status = v1.IntegrationPhaseError)) then false
  else
    match GetCondition status v1.IntegrationConditionReady with
    | Some cond =>
        if bool_decide (v1.IntegrationCondition.Status cond = corev1.ConditionFalse)
           && bool_decide (v1.IntegrationCondition.Reason cond
                           = v1.IntegrationConditionInitializationFailedReason)
        then true else false
    | None => false
    end.

Definition isInIntegrationKitFailed (status : v1.IntegrationStatus.t) : bool :=
  match GetCondition status v1.IntegrationConditionKitAvailable with
  | Some cond =>
      if bool_decide (v1.IntegrationCondition.Status cond = corev1.ConditionFalse)
         && negb (bool_decide (v1.IntegrationStatus.Phase status = v1.IntegrationPhaseError))
      then true else false
  | None => false
  end.

(** One iteration of the loop of
    [getIntegrationSecretAndConfigmapResourceVersions] over the merged mount
    configurations; the accumulator is [(secrets, configmaps)]. *)
Definition lookupMountedResource (client : Client) (integration : Integration)
    (acc : list string * list string) (c : string) : list string * list string :=
  let '(secrets, configmaps) := acc in
  match ParseConfig c with
  | Ok conf =>
      match ConfigStorageType conf with
      | StorageTypeConfigmap =>
          (secrets,
           configmaps ++ [LookupResourceVersion client KindConfigMap
                            (v1.Integration.Namespace integration) (ConfigName conf)])
      | StorageTypeSecret =>
          (secrets ++ [LookupResourceVersion client KindSecret
                         (v1.Integration.Namespace integration) (ConfigName conf)],
           configmaps)
      | StorageTypeOther => (secrets, configmaps)
      end
  | Err _ => (secrets, configmaps)
  end.

(** Returns [(secrets, configmaps)]. *)
Definition getIntegrationSecretAndConfigmapResourceVersions (client : Client)
    (integration : Integration) : list string * list string :=
  match v1.Traits.Mount (v1.IntegrationSpec.Traits (v1.Integration.Spec integration)) with
  | Some mount =>
      if default false (v1.MountTrait.HotReload mount) then
        let mergedResources := v1.MountTrait.Configs mount ++ v1.MountTrait.Resources mount in
        fold_left (lookupMountedResource client integration) mergedResources ([], [])
      else ([], [])
  | None => ([], [])
  end.

Definition isIntegrationKitResetRequired (integration : Integration) (kit : option IntegrationKit)
  : bool :=
  match kit with
  | None => false
  | Some kit =>
      let ofIntegration := getAnnotation (v1.Integration.Annotations integration) in
      let ofKit := getAnnotation (v1.IntegrationKit.Annotations kit) in
      if negb (bool_decide (ofIntegration OperatorIDAnnotation = ""))
         && negb (bool_decide (ofIntegration OperatorIDAnnotation = ofKit OperatorIDAnnotation))
      then true
      else if negb (bool_decide (ofIntegration IntegrationProfileAnnotation = ""))
              && negb (bool_decide (ofIntegration IntegrationProfileAnnotation
                                    = ofKit IntegrationProfileAnnotation))
      then true
      else if negb (bool_decide (ofIntegration IntegrationProfileNamespaceAnnotation = ""))
              && negb (bool_decide (ofIntegration IntegrationProfileNamespaceAnnotation
                                    = ofKit IntegrationProfileNamespaceAnnotation))
      then true
      else false
  end.

Definition checkDigestAndRebuild (client : Client) (kit : option IntegrationKit)
  : M (returned * option error) :=
  let* integration := read in
  let '(secrets, configmaps) :=
    getIntegrationSecretAndConfigmapResourceVersions client integration in
  match ComputeForIntegration integration configmaps secrets with
  | Err err => ret (ReturnsNil, Some err)
  | Ok hash =>
      if negb (bool_decide (hash = v1.IntegrationStatus.Digest (v1.Integration.Status integration)))
      then
        let* _ := (if isIntegrationKitResetRequired integration kit
                   then update (SetIntegrationKit None) else ret tt) in
        let* _ := update Initialize in
        let* _ := update (v1.Integration.mapStatus (v1.IntegrationStatus.setDigest hash)) in
        ret (ReturnsIntegration, None)
      else ret (ReturnsNil, None)
  end.

(** [getUpdatedController]: the object of the collection that has the Go
    type of [obj]. *)
Definition getUpdatedController (env : Environment) (obj : ObjectType) : option Object :=
  GetController (Resources env) (fun object => bool_decide (obj = TypeOf object)).

(** [newController]. Each case of the switch yields the object it found and
    the controller built from it, or the error of the failed type assertion;
    the nil check on the object follows the switch. *)
Definition newController (client : Client) (env : Environment) (integration : Integration)
  : result controller :=
  let name := v1.Integration.Name integration in
  let '(obj, built) :=
    if IsConditionTrue integration v1.IntegrationConditionDeploymentAvailable then
      let obj := getUpdatedController env TypeDeployment in
      (obj, match obj with
            | Some (DeploymentObject deploy) => Ok (deploymentController deploy)
            | _ => Err (ErrTypeAssertion "Deployment")
            end)
    else if IsConditionTrue integration v1.IntegrationConditionKnativeServiceAvailable then
      let obj := getUpdatedController env TypeKnativeService in
      (obj, match obj with
            | Some (KnativeServiceObject svc) => Ok (knativeServiceController svc)
            | _ => Err (ErrTypeAssertion "Knative Service")
            end)
    else if IsConditionTrue integration v1.IntegrationConditionCronJobAvailable then
      let obj := getUpdatedController env TypeCronJob in
      (obj, match obj with
            | Some (CronJobObject cj) => Ok (cronJobController cj client)
            | _ => Err (ErrTypeAssertion "CronJob")
            end)
    else (None, Err (ErrUnsupportedController name)) in
  match built with
  | Err err => Err err
  | Ok controller =>
      match obj with
      | None => Err (ErrUnableToRetrieveController name)
      | Some _ => Ok controller
      end
  end.

(** The three statements of every fatal hit of [arePodsFailingStatuses]
    before its [return true]. *)
Definition markFailing (message : string) (integration : Integration) : Integration :=
  SetReadyConditionError message (setPhase v1.IntegrationPhaseError integration).

(** [append(InitContainerStatuses..., ContainerStatuses...)]. *)
Definition containerStatuses (pod : Pod) : list corev1.ContainerStatus.t :=
  corev1.PodStatus.InitContainerStatuses (corev1.Pod.Status pod)
  ++ corev1.PodStatus.ContainerStatuses (corev1.Pod.Status pod).

(** First loop: the scheduled condition of the pending pods. [Some i] is a
    [return true] that leaves the Integration [i]. *)
Fixpoint checkScheduled (integration : Integration) (pendingPods : list Pod) : option Integration :=
  match pendingPods with
  | [] => None
  | pod :: rest =>
      match GetPodCondition pod corev1.PodScheduled with
      | Some scheduled =>
          if bool_decide (corev1.PodCondition.Status scheduled = corev1.ConditionFalse)
             && bool_decide (corev1.PodCondition.Reason scheduled = "Unschedulable")
          then Some (markFailing (corev1.PodCondition.Message scheduled) integration)
          else checkScheduled integration rest
      | None => checkScheduled integration rest
      end
  end.

(** Inner loop of the second loop: the images are pulled. *)
Fixpoint checkImagesPulled (integration : Integration) (containers : list corev1.ContainerStatus.t)
  : option Integration :=
  match containers with
  | [] => None
  | container :: rest =>
      match corev1.ContainerState.Waiting (corev1.ContainerStatus.State container) with
      | Some waiting =>
          if bool_decide (corev1.ContainerStateWaiting.Reason waiting = "ImagePullBackOff")
          then Some (markFailing (corev1.ContainerStateWaiting.Message waiting) integration)
          else checkImagesPulled integration rest
      | None => checkImagesPulled integration rest
      end
  end.

(** Second loop: the container statuses of the pending pods. *)
Fixpoint checkPendingContainers (integration : Integration) (pendingPods : list Pod)
  : option Integration :=
  match pendingPods with
  | [] => None
  | pod :: rest =>
      match checkImagesPulled integration (containerStatuses pod) with
      | Some failing => Some failing
      | None => checkPendingContainers integration rest
      end
  end.

(** Inner loop of the third loop: the container state. *)
Fixpoint checkContainerState (integration : Integration) (containers : list corev1.ContainerStatus.t)
  : option Integration :=
  match containers with
  | [] => None
  | container :: rest =>
      let state := corev1.ContainerStatus.State container in
      let crashLooping :=
        match corev1.ContainerState.Waiting state with
        | Some waiting =>
            if bool_decide (corev1.ContainerStateWaiting.Reason waiting = "CrashLoopBackOff")
            then Some (corev1.ContainerStateWaiting.Message waiting) else None
        | None => None
        end in
      match crashLooping with
      | Some message => Some (markFailing message integration)
      | None =>
          match corev1.ContainerState.Terminated state with
          | Some terminated =>
              if bool_decide (corev1.ContainerStateTerminated.Reason terminated = "Error")
              then Some (markFailing (corev1.ContainerStateTerminated.Message terminated) integration)
              else checkContainerState integration rest
          | None => checkContainerState integration rest
          end
      end
  end.

(** Third loop: the container statuses of the running pods that are not
    being deleted. *)
Fixpoint checkRunningContainers (integration : Integration) (runningPods : list Pod)
  : option Integration :=
  match runningPods with
  | [] => None
  | pod :: rest =>
      match corev1.Pod.DeletionTimestamp pod with
      | Some _ => checkRunningContainers integration rest
      | None =>
          match checkContainerState integration (containerStatuses pod) with
          | Some failing => Some failing
          | None => checkRunningContainers integration rest
          end
      end
  end.

Definition arePodsFailingStatuses (integration : Integration)
    (pendingPods runningPods : list Pod) : bool * Integration :=
  match checkScheduled integration pendingPods with
  | Some failing => (true, failing)
  | None =>
      match checkPendingContainers integration pendingPods with
      | Some failing => (true, failing)
      | None =>
          match checkRunningContainers integration runningPods with
          | Some failing => (true, failing)
          | None => (false, integration)
          end
      end
  end.

Definition getIntegrationContainer (environment : Environment) (pod : Pod)
  : option corev1.Container.t :=
  let name := GetIntegrationContainerName environment in
  find (fun container => bool_decide (corev1.Container.Name container = name))
       (corev1.PodSpec.Containers (corev1.Pod.Spec pod)).

(** The local variables of [probeReadiness] that its loop updates; [Pods]
    is [readyCondition.Pods]. *)
Record probeState : Type := mkProbeState {
  Pods : list v1.PodCondition.t;
  readyPods : nat;
  unreadyPods : nat;
  runtimeReady : bool;
  runtimeFailed : bool
}.

(** How an iteration of the loop of [probeReadiness] ends: it goes on to the
    next pod ([continue] or the end of the body), the function returns
    [(readyPods, false, err)], or a nil pointer is dereferenced. *)
Inductive probeStep : Type :=
| Continue (st : probeState)
| Return (ready : nat) (err : error)
| NilDereference.

Definition setPodMessage (message : string) (p : v1.PodCondition.t) : v1.PodCondition.t :=
  v1.PodCondition.setCondition
    (corev1.PodCondition.setMessage message (v1.PodCondition.Condition p)) p.

(** The loop over [health.Checks]. *)
Fixpoint recordChecks (i : nat) (checks : list v1.HealthCheckResponse.t) (st : probeState)
  : probeState :=
  match checks with
  | [] => st
  | check :: rest =>
      if bool_decide (v1.HealthCheckResponse.Status check = v1.HealthCheckStatusUp)
      then recordChecks i rest st
      else
        recordChecks i rest
          (mkProbeState
             (alter (fun p => v1.PodCondition.setHealth (v1.PodCondition.Health p ++ [check]) p)
                    i (Pods st))
             (readyPods st) (unreadyPods st) false true)
  end.

Definition podPath (pod : Pod) : string :=
  corev1.Pod.Namespace pod +:+ "/" +:+ corev1.Pod.Name pod.

(** The body of the loop of [probeReadiness] for [pods[i]]. *)
Definition probePod (client : Client) (environment : Environment) (i : nat) (pod : Pod)
    (st : probeState) : probeStep :=
  let named := alter (v1.PodCondition.setName (corev1.Pod.Name pod)) i (Pods st) in
  let copied :=
    match find (fun c => bool_decide (corev1.PodCondition.Type_ c = corev1.PodReady))
               (corev1.PodStatus.Conditions (corev1.Pod.Status pod)) with
    | Some c => alter (v1.PodCondition.setCondition c) i named
    | None => named
    end in
  match GetPodCondition pod corev1.PodReady with
  | None => NilDereference
  | Some ready =>
      if bool_decide (corev1.PodCondition.Status ready = corev1.ConditionTrue) then
        Continue (mkProbeState copied (S (readyPods st)) (unreadyPods st)
                    (runtimeReady st) (runtimeFailed st))
      else
        let st := mkProbeState copied (readyPods st) (S (unreadyPods st))
                    (runtimeReady st) (runtimeFailed st) in
        match getIntegrationContainer environment pod with
        | None =>
            Return (readyPods st)
              (ErrContainerNotFound (corev1.Pod.Namespace pod) (corev1.Pod.Name pod))
        | Some container =>
            match corev1.Container.ReadinessProbe container with
            | Some probe =>
                match corev1.Probe.HTTPGet probe with
                | Some _ =>
                    let '(body, err) := proxyGetHTTPProbe client probe pod container in
                    match err with
                    | None => Continue st
                    | Some err =>
                        if isDeadlineExceeded err then
                          Continue
                            (mkProbeState
                               (alter (setPodMessage
                                         ("readiness probe timed out for Pod " +:+ podPath pod))
                                      i (Pods st))
                               (readyPods st) (unreadyPods st) false (runtimeFailed st))
                        else if negb (IsServiceUnavailable err) then
                          Continue
                            (mkProbeState
                               (alter (setPodMessage
                                         ("readiness probe failed for Pod " +:+ podPath pod
                                          +:+ ": " +:+ Error err))
                                      i (Pods st))
                               (readyPods st) (unreadyPods st) false (runtimeFailed st))
                        else
                          match NewHealthCheck body with
                          | Err err => Return (readyPods st) err
                          | Ok health => Continue (recordChecks i (v1.HealthCheck.Checks health) st)
                          end
                    end
                | None => Continue st
                end
            | None => Continue st
            end
        end
  end.

(** [for i := range pods], from index [i] on. *)
Fixpoint probeLoop (client : Client) (environment : Environment) (i : nat) (pods : list Pod)
    (st : probeState) : probeStep :=
  match pods with
  | [] => Continue st
  | pod :: rest =>
      match probePod client environment i pod st with
      | Continue st' => probeLoop client environment (S i) rest st'
      | stop => stop
      end
  end.

(** ["%d/%d pods are not ready"]. *)
Definition notReadyMessage (unready ready : nat) : string :=
  pretty unready +:+ "/" +:+ pretty (unready + ready)%nat +:+ " pods are not ready".

(** [probeReadiness]: returns [(readyPods, probeReadinessOk, err)]. *)
Definition probeReadiness (client : Client) (environment : Environment) (pods : list Pod)
  : M (nat * bool * option error) :=
  let readyCondition :=
    v1.IntegrationCondition.mk v1.IntegrationConditionReady corev1.ConditionTrue v1.ReasonUnset ""
      (replicate (length pods) v1.PodCondition.zero) in
  match probeLoop client environment 0 pods
          (mkProbeState (v1.IntegrationCondition.Pods readyCondition) 0 0 true false) with
  | NilDereference => panic
  | Return ready err => ret (ready, false, Some err)
  | Continue st =>
      let readyCondition :=
        v1.IntegrationCondition.mk v1.IntegrationConditionReady corev1.ConditionTrue
          v1.ReasonUnset "" (Pods st) in
      let message := notReadyMessage (unreadyPods st) (readyPods st) in
      let probeReadinessOk := true in
      let* (probeReadinessOk, readyCondition) :=
        (if runtimeFailed st then
           let readyCondition :=
             v1.IntegrationCondition.mk (v1.IntegrationCondition.Type_ readyCondition)
               corev1.ConditionFalse v1.IntegrationConditionErrorReason message
               (v1.IntegrationCondition.Pods readyCondition) in
           let* _ := update (v1.Integration.mapStatus (SetConditions readyCondition)) in
           ret (false, readyCondition)
         else ret (probeReadinessOk, readyCondition)) in
      let* (probeReadinessOk, readyCondition) :=
        (if negb (runtimeReady st) then
           let readyCondition :=
             v1.IntegrationCondition.mk (v1.IntegrationCondition.Type_ readyCondition)
               corev1.ConditionFalse v1.IntegrationConditionRuntimeNotReadyReason message
               (v1.IntegrationCondition.Pods readyCondition) in
           let* _ := update (v1.Integration.mapStatus (SetConditions readyCondition)) in
           ret (false, readyCondition)
         else ret (probeReadinessOk, readyCondition)) in
      ret (readyPods st, probeReadinessOk, None)
  end.

(** The priority label of a kit as [findHighestPriorityReadyKit] reads it. *)
Definition priorityOf (k : IntegrationKit) : result Z :=
  Atoi (mapIndex (v1.IntegrationKit.Labels k) v1.IntegrationKitPriorityLabel).

(** The loop of [findHighestPriorityReadyKit]; [kit] and [priority] are its
    two local variables. *)
Fixpoint findHighestPriorityLoop (kits : list IntegrationKit) (kit : option IntegrationKit)
    (priority : Z) : option IntegrationKit * option error :=
  match kits with
  | [] => (kit, None)
  | k :: rest =>
      if negb (bool_decide (v1.IntegrationKitStatus.Phase (v1.IntegrationKit.Status k)
                            = v1.IntegrationKitPhaseReady))
      then findHighestPriorityLoop rest kit priority
      else
        match priorityOf k with
        | Err err => (None, Some err)
        | Ok p =>
            if p >? priority then findHighestPriorityLoop rest (Some k) p
            else findHighestPriorityLoop rest kit priority
        end
  end.

Definition findHighestPriorityReadyKit (kits : list IntegrationKit)
  : option IntegrationKit * option error :=
  if (length kits =? 0)%nat then (None, None)
  else findHighestPriorityLoop kits None 0.

Definition updateIntegrationPhaseAndReadyCondition (client : Client) (controller : controller)
    (environment : Environment) (pendingPods runningPods : list Pod) : M (option error) :=
  let* (done, err) := lift (checkReadyCondition controller) in
  if done || bool_decide (err <> None) then
    let* _ := probeReadiness client environment runningPods in
    ret err
  else
    let* failing := lift (fun integration =>
                            arePodsFailingStatuses integration pendingPods runningPods) in
    if failing then ret None
    else
      let* (ready, probeOk, err) := probeReadiness client environment runningPods in
      match err with
      | Some err => ret (Some err)
      | None =>
          if negb probeOk then
            let* _ := update (setPhase v1.IntegrationPhaseError) in
            ret None
          else
            let* done := lift (updateReadyCondition controller ready) in
            if done then
              let* _ := update (setPhase v1.IntegrationPhaseRunning) in
              ret None
            else ret None
      end.

(** The counting loop of [monitorPods] over the running pods. *)
Fixpoint countNonTerminating (runningPods : list Pod) : Z :=
  match runningPods with
  | [] => 0
  | pod :: rest =>
      match corev1.Pod.DeletionTimestamp pod with
      | Some _ => countNonTerminating rest
      | None => countNonTerminating rest + 1
      end
  end.

(** The guidance message of the missing label. *)
Definition missingLabelMessage (name controllerName : string) : string :=
  "Could not find `camel.apache.org/integration: " +:+ name +:+ "` label in the "
  +:+ controllerName
  +:+ " template. Make sure to include this label in the template for Pod monitoring purposes.".

Definition monitorPods (client : Client) (environment : Environment)
  : M (returned * option error) :=
  let* integration := read in
  match newController client environment integration with
  | Err err => ret (ReturnsNil, Some err)
  | Ok controller =>
      if negb (hasTemplateIntegrationLabel controller) then
        let* _ := update (v1.Integration.mapStatus
                            (SetConditions
                               (v1.IntegrationCondition.mk v1.IntegrationConditionReady
                                  corev1.ConditionFalse
                                  v1.IntegrationConditionMonitoringPodsAvailableReason
                                  (missingLabelMessage (v1.Integration.Name integration)
                                     (getControllerName controller))
                                  []))) in
        ret (ReturnsIntegration, None)
      else
        let* _ := update (v1.Integration.mapStatus
                            (v1.IntegrationStatus.setSelector
                               (v1.IntegrationLabel +:+ "=" +:+ v1.Integration.Name integration))) in
        match ListPods client (v1.Integration.Namespace integration)
                (v1.Integration.Name integration) corev1.PodPending with
        | Err err => ret (ReturnsNil, Some err)
        | Ok pendingPods =>
            match ListPods client (v1.Integration.Namespace integration)
                    (v1.Integration.Name integration) corev1.PodRunning with
            | Err err => ret (ReturnsNil, Some err)
            | Ok runningPods =>
                let nonTerminatingPods := countNonTerminating runningPods in
                let podCount := int32 (Z.of_nat (length pendingPods) + nonTerminatingPods) in
                let* _ := update (v1.Integration.mapStatus
                                    (v1.IntegrationStatus.setReplicas (Some podCount))) in
                let* integration := read in
                let* _ := (if bool_decide (v1.IntegrationStatus.Phase (v1.Integration.Status integration)
                                           = v1.IntegrationPhaseDeploying)
                           then update (setPhase v1.IntegrationPhaseRunning) else ret tt) in
                let* err := updateIntegrationPhaseAndReadyCondition client controller environment
                              pendingPods runningPods in
                match err with
                | Some err => ret (ReturnsNil, Some err)
                | None => ret (ReturnsIntegration, None)
                end
            end
        end
  end.

(** [monitorAction.Handle]. *)
Definition Handle (client : Client) : M (returned * option error) :=
  let* integration := read in
  if isInInitializationFailed (v1.Integration.Status integration) then
    checkDigestAndRebuild client None
  else
    match v1.IntegrationStatus.IntegrationKit (v1.Integration.Status integration) with
    | None => ret (ReturnsNil, Some (ErrNoKitSet (v1.Integration.Name integration)))
    | Some ref =>
        match GetIntegrationKit client (v1.ObjectReference.Name ref)
                (v1.ObjectReference.Namespace ref) with
        | Err err =>
            ret (ReturnsNil,
                 Some (ErrKitNotFound (v1.ObjectReference.Namespace ref)
                         (v1.ObjectReference.Name ref) err))
        | Ok kit =>
            if isInIntegrationKitFailed (v1.Integration.Status integration)
               && bool_decide (v1.IntegrationKitStatus.Phase (v1.IntegrationKit.Status kit)
                               = v1.IntegrationKitPhaseError)
            then ret (ReturnsNil, None)
            else
              let* (changed, err) := checkDigestAndRebuild client (Some kit) in
              match err, changed with
              | Some err, _ => ret (ReturnsNil, Some err)
              | None, ReturnsIntegration => ret (ReturnsIntegration, None)
              | None, ReturnsNil =>
                  let* integration := read in
                  let priority :=
                    match v1.IntegrationKit.Labels kit !! v1.IntegrationKitPriorityLabel with
                    | Some priority => priority
                    | None => "0"
                    end in
                  match NewRequirement v1.IntegrationKitPriorityLabel GreaterThan [priority] with
                  | Err err => ret (ReturnsNil, Some err)
                  | Ok withHigherPriority =>
                      match lookupKitsForIntegration client integration withHigherPriority with
                      | Err err => ret (ReturnsNil, Some err)
                      | Ok kits =>
                          match findHighestPriorityReadyKit kits with
                          | (_, Some err) => ret (ReturnsNil, Some err)
                          | (priorityReadyKit, None) =>
                              let* _ := (match priorityReadyKit with
                                         | Some k => update (SetIntegrationKit (Some k))
                                         | None => ret tt
                                         end) in
                              let* integration := read in
                              match Apply client integration kit with
                              | Err err =>
                                  let* _ := update (setPhase v1.IntegrationPhaseError) in
                                  let* _ := update (SetReadyCondition corev1.ConditionFalse
                                                      v1.IntegrationConditionInitializationFailedReason
                                                      (Error err)) in
                                  ret (ReturnsIntegration, Some err)
                              | Ok environment => monitorPods client environment
                              end
                          end
                      end
                  end
              end
        end
    end.

End Monitor.

(** ** Concrete collaborators and objects for the examples *)

(** A deployment is represented by whether its pod template carries the
    integration label; its controller never short-circuits and is satisfied
    by one ready pod. The other two kinds behave alike. *)
Definition exampleController (labelled : bool) (name : string) : controller :=
  mkController (fun i => ((false, None), i)) (corev1.PodSpec.mk [])
    (fun ready i => ((1 <=? ready)%nat, i)) labelled name.

#[global] Instance exampleWorkloads : Workloads := {
  Deployment := bool;
  KnativeService := bool;
  CronJob := bool;
  deploymentController labelled := exampleController labelled "Deployment";
  knativeServiceController labelled := exampleController labelled "KnativeService";
  cronJobController labelled _ := exampleController labelled "CronJob"
}.

Definition downCheck : v1.HealthCheckResponse.t :=
  v1.HealthCheckResponse.mk "x" v1.HealthCheckStatusDown "".

Definition downBody : string := "status: DOWN, checks: [x: DOWN]".

Definition exampleEnvironment (labelled : bool) : Environment :=
  mkEnvironment _ [DeploymentObject labelled] "integration".

(** The digest of the examples is the spec's content followed by the
    resource versions; only [downBody] parses as a health report. *)
#[global] Instance exampleCollaborators : Collaborators := {
  ComputeForIntegration integration configmaps secrets :=
    Ok (fold_left String.append (configmaps ++ secrets)
          (v1.IntegrationSpec.Content (v1.Integration.Spec integration)));
  ParseConfig c := Err (ErrOther "not a resource");
  NewHealthCheck body :=
    if bool_decide (body = downBody)
    then Ok (v1.HealthCheck.mk v1.HealthCheckStatusDown [downCheck])
    else Err (ErrOther "invalid body");
  Apply _ _ _ := Ok (exampleEnvironment true)
}.

Definition exampleKit (name priority : string) (phase : v1.IntegrationKitPhase) : IntegrationKit :=
  v1.IntegrationKit.mk name "ns" {[ v1.IntegrationKitPriorityLabel := priority ]} ∅
    (v1.IntegrationKitStatus.mk phase).

Definition exampleIntegration (phase : v1.IntegrationPhase) (digest : string)
    (conditions : list IntegrationCondition) : Integration :=
  v1.Integration.mk "it" "ns" ∅
    (v1.IntegrationSpec.mk (v1.Traits.mk None) "spec")
    (v1.IntegrationStatus.mk phase digest None "" conditions
       (Some (v1.ObjectReference.mk "ns" "kit"))).

Definition httpProbe : corev1.Probe.t :=
  corev1.Probe.mk (Some (corev1.HTTPGetAction.mk "/q/health/ready" 8080)).

Definition exampleContainer : corev1.Container.t :=
  corev1.Container.mk "integration" (Some httpProbe).

(** A pod with the integration container, the given conditions and the given
    statuses of its main containers. *)
Definition examplePod (name : string) (conditions : list corev1.PodCondition.t)
    (statuses : list corev1.ContainerStatus.t) : Pod :=
  corev1.Pod.mk name "ns" None (corev1.PodSpec.mk [exampleContainer])
    (corev1.PodStatus.mk conditions [] statuses).

Definition readyIs (status : corev1.ConditionStatus) : corev1.PodCondition.t :=
  corev1.PodCondition.mk corev1.PodReady status "" "".

Definition waitingStatus (reason message : string) : corev1.ContainerStatus.t :=
  corev1.ContainerStatus.mk "integration"
    (corev1.ContainerState.mk (Some (corev1.ContainerStateWaiting.mk reason message)) false None).

(** A client whose probe proxy answers every pod with the given body and
    error and whose pod lists are fixed. *)
Definition exampleClient (kit : result IntegrationKit) (pending running : list Pod)
    (probe : string * option error) : Client :=
  mkClient (fun _ _ => kit)
    (fun _ _ phase =>
       match phase with
       | corev1.PodPending => Ok pending
       | corev1.PodRunning => Ok running
       | _ => Ok []
       end)
    (fun _ _ _ => "1")
    (fun _ _ _ => probe)
    (fun _ _ => Ok []).

(** Candidates with the priorities 0, 5 and 3, all ready. *)
Definition candidateKits : list IntegrationKit :=
  [exampleKit "a" "0" v1.IntegrationKitPhaseReady;
   exampleKit "b" "5" v1.IntegrationKitPhaseReady;
   exampleKit "c" "3" v1.IntegrationKitPhaseReady].

(** A pending pod whose container is in CrashLoopBackOff. *)
Definition crashLoopingPod : Pod :=
  examplePod "p" [] [waitingStatus "CrashLoopBackOff" "back-off restarting failed container"].

(** A running integration without conditions. *)
Definition runningIntegration : Integration :=
  exampleIntegration v1.IntegrationPhaseRunning "spec" [].

(** A pod that is not ready, and a pod without any condition. *)
Definition notReadyPod : Pod := examplePod "p" [readyIs corev1.ConditionFalse] [].
Definition readyPod : Pod := examplePod "p" [readyIs corev1.ConditionTrue] [].
Definition podWithoutConditions : Pod := examplePod "p" [] [].

Definition failedKit : IntegrationKit := exampleKit "kit" "0" v1.IntegrationKitPhaseError.

(** The probe of every pod answers HTTP 503 with the DOWN report. *)
Definition unavailableClient : Client :=
  exampleClient (Ok failedKit) [] [notReadyPod]
    (downBody, Some (StatusError "ServiceUnavailable" "the server is currently unable to handle the request")).

(** The probe of every pod runs into the deadline. *)
Definition timingOutClient : Client :=
  exampleClient (Ok failedKit) [] [notReadyPod] ("", Some DeadlineExceeded).

(** No pending pod and one running pod that is ready. *)
Definition readyClient : Client :=
  exampleClient (Ok failedKit) [] [readyPod] ("", None).

Definition kitUnavailable : IntegrationCondition :=
  v1.IntegrationCondition.mk v1.IntegrationConditionKitAvailable corev1.ConditionFalse
    v1.ReasonUnset "integration kit ns/kit is in state Error" [].

Definition deploymentAvailable : IntegrationCondition :=
  v1.IntegrationCondition.mk v1.IntegrationConditionDeploymentAvailable corev1.ConditionTrue
    v1.ReasonUnset "deployment name is it" [].

(** An integration in the Error phase whose kit is not available and whose
    stored digest is stale. *)
Definition kitFailedIntegration : Integration :=
  exampleIntegration v1.IntegrationPhaseError "stale" [kitUnavailable].

(** An integration being deployed as a Deployment. *)
Definition deployingIntegration : Integration :=
  exampleIntegration v1.IntegrationPhaseDeploying "spec" [deploymentAvailable].

(** * Properties *)

(** ** Kit priority selection *)

Section KitSelection.

Definition isReadyKit (k : IntegrationKit) : Prop :=
  v1.IntegrationKitStatus.Phase (v1.IntegrationKit.Status k) = v1.IntegrationKitPhaseReady.

#[global] Instance isReadyKit_dec (k : IntegrationKit) : Decision (isReadyKit k).
Proof. unfold isReadyKit. apply _. Defined.

(** Every ready kit of [kits] with a parsable priority label has a priority
    satisfying [R]. *)
Definition readyPriorities (R : Z -> Prop) (kits : list IntegrationKit) : Prop :=
  forall k p, k ∈ kits -> isReadyKit k -> priorityOf k = Ok p -> R p.

Lemma readyPriorities_nil R : readyPriorities R [].
Proof. intros k p Hin. apply elem_of_nil in Hin. contradiction. Qed.

Lemma readyPriorities_cons R k kits :
  (forall p, isReadyKit k -> priorityOf k = Ok p -> R p) ->
  readyPriorities R kits -> readyPriorities R (k :: kits).
Proof.
  intros Hk Hkits k' p Hin Hready Hp.
  apply elem_of_cons in Hin as [-> | Hin]; eauto.
Qed.

(** A kit the loop returns is the one it started with or a ready kit of the
    list whose priority exceeds the starting priority. *)
Lemma findHighestPriorityLoop_selected kits :
  forall kit0 p0 k e,
    findHighestPriorityLoop kits kit0 p0 = (Some k, e) ->
    Some k = kit0 \/ (k ∈ kits /\ isReadyKit k /\ exists p, priorityOf k = Ok p /\ p0 < p).
Proof.
  induction kits as [|a rest IH]; intros kit0 p0 k e; simpl.
  - intros [= <- _]. by left.
  - case_bool_decide as Hphase; simpl.
    + destruct (priorityOf a) as [p|err] eqn:Hp; [|discriminate].
      destruct (Z.gtb_spec p p0) as [Hgt|Hle]; intros Hloop.
      * apply IH in Hloop as [[= ->] | (Hin & Hready & p' & Hp' & Hlt)].
        -- right. split; [apply list_elem_of_here|]. split; [done|]. exists p. split; [done|lia].
        -- right. split; [by apply list_elem_of_further|]. split; [done|].
           exists p'. split; [done|lia].
      * apply IH in Hloop as [-> | (Hin & Hready & p' & Hp' & Hlt)]; [by left|].
        right. split; [by apply list_elem_of_further|]. split; [done|]. by exists p'.
    + intros Hloop.
      apply IH in Hloop as [-> | (Hin & Hready & p' & Hp' & Hlt)]; [by left|].
      right. split; [by apply list_elem_of_further|]. split; [done|]. by exists p'.
Qed.

(** A ready kit whose label does not parse makes the loop return its error,
    whatever was selected before. *)
Lemma findHighestPriorityLoop_malformed kits :
  forall kit0 p0 k e,
    k ∈ kits -> isReadyKit k -> priorityOf k = Err e ->
    exists e', findHighestPriorityLoop kits kit0 p0 = (None, Some e').
Proof.
  induction kits as [|a rest IH]; intros kit0 p0 k e Hin Hready Hp.
  - apply elem_of_nil in Hin. contradiction.
  - simpl. case_bool_decide as Hphase; simpl.
    + destruct (priorityOf a) as [p|err] eqn:Ha; [|by eexists].
      apply elem_of_cons in Hin as [-> | Hin]; [congruence|].
      destruct (p >? p0); eauto.
    + apply elem_of_cons in Hin as [-> | Hin]; [contradiction|]. eauto.
Qed.

(** When every ready kit parses, the loop keeps its starting selection if no
    ready priority exceeds the starting one, and otherwise returns the first
    ready kit of greatest priority. *)
Lemma findHighestPriorityLoop_greatest kits :
  forall kit0 p0,
    (forall k, k ∈ kits -> isReadyKit k -> exists p, priorityOf k = Ok p) ->
    (findHighestPriorityLoop kits kit0 p0 = (kit0, None)
     /\ readyPriorities (fun p => p <= p0) kits)
    \/ (exists before k after p,
          kits = before ++ k :: after
          /\ findHighestPriorityLoop kits kit0 p0 = (Some k, None)
          /\ isReadyKit k /\ priorityOf k = Ok p /\ p0 < p
          /\ readyPriorities (fun p' => p' < p) before
          /\ readyPriorities (fun p' => p' <= p) after).
Proof.
  induction kits as [|a rest IH]; intros kit0 p0 Hparse; simpl.
  - left. split; [done|]. apply readyPriorities_nil.
  - assert (Hrest : forall k, k ∈ rest -> isReadyKit k -> exists p, priorityOf k = Ok p).
    { intros k Hin. apply Hparse. by apply list_elem_of_further. }
    case_bool_decide as Hphase; simpl.
    + destruct (Hparse a (list_elem_of_here _ _) Hphase) as [p Hp]. rewrite Hp.
      destruct (Z.gtb_spec p p0) as [Hgt|Hle].
      * right.
        destruct (IH (Some a) p Hrest)
          as [[Hloop Hall] | (before & k & after & p' & -> & Hloop & Hk & Hp' & Hlt & Hb & Ha)].
        -- exists [], a, rest, p. repeat split; try done.
           apply readyPriorities_nil.
        -- exists (a :: before), k, after, p'. repeat split; try done; [lia|].
           apply readyPriorities_cons; [|done].
           intros q _ Hq. rewrite Hp in Hq. injection Hq as <-. lia.
      * destruct (IH kit0 p0 Hrest)
          as [[Hloop Hall] | (before & k & after & p' & -> & Hloop & Hk & Hp' & Hlt & Hb & Ha)].
        -- left. split; [done|]. apply readyPriorities_cons; [|done].
           intros q _ Hq. rewrite Hp in Hq. injection Hq as <-. lia.
        -- right. exists (a :: before), k, after, p'. repeat split; try done.
           apply readyPriorities_cons; [|done].
           intros q _ Hq. rewrite Hp in Hq. injection Hq as <-. lia.
    + destruct (IH kit0 p0 Hrest)
        as [[Hloop Hall] | (before & k & after & p' & -> & Hloop & Hk & Hp' & Hlt & Hb & Ha)].
      * left. split; [done|]. apply readyPriorities_cons; [|done].
        intros q Hready. contradiction.
      * right. exists (a :: before), k, after, p'. repeat split; try done.
        apply readyPriorities_cons; [|done]. intros q Hready. contradiction.
Qed.

(** An error of the loop is the parse error of a ready kit's label. *)
Lemma findHighestPriorityLoop_error kits :
  forall kit0 p0 sel e,
    findHighestPriorityLoop kits kit0 p0 = (sel, Some e) ->
    sel = None /\ exists k, k ∈ kits /\ isReadyKit k /\ priorityOf k = Err e.
Proof.
  induction kits as [|a rest IH]; intros kit0 p0 sel e; simpl; [done|].
  assert (Hrest : forall kit1 p1,
             findHighestPriorityLoop rest kit1 p1 = (sel, Some e) ->
             sel = None /\ exists k, k ∈ a :: rest /\ isReadyKit k /\ priorityOf k = Err e).
  { intros kit1 p1 Hloop. apply IH in Hloop as (-> & k & Hin & Hk).
    split; [done|]. exists k. split; [by apply list_elem_of_further|done]. }
  case_bool_decide as Hphase; simpl; [|by apply Hrest].
  destruct (priorityOf a) as [p|err] eqn:Hp.
  - destruct (p >? p0); apply Hrest.
  - intros [= <- <-]. split; [done|]. exists a. split; [apply list_elem_of_here|done].
Qed.

(** The candidates that are not ready do not take part. *)
Lemma findHighestPriorityLoop_ready_only kits :
  forall kit0 p0,
    findHighestPriorityLoop kits kit0 p0
    = findHighestPriorityLoop (filter isReadyKit kits) kit0 p0.
Proof.
  induction kits as [|a rest IH]; intros kit0 p0; [done|].
  rewrite filter_cons. simpl. case_bool_decide as Hphase; simpl.
  - rewrite decide_True by done. simpl. rewrite bool_decide_eq_true_2 by done. simpl.
    destruct (priorityOf a) as [p|err]; [|done]. by destruct (p >? p0).
  - rewrite decide_False by done. apply IH.
Qed.

Lemma findHighestPriorityReadyKit_loop kits :
  findHighestPriorityReadyKit kits = findHighestPriorityLoop kits None 0.
Proof. by destruct kits. Qed.

(** The priority of a kit in the words of the specification: its priority
    label, parsed as an integer, is [p]. *)
Definition hasPriority (k : IntegrationKit) (p : Z) : Prop :=
  Atoi (default "" (v1.IntegrationKit.Labels k !! v1.IntegrationKitPriorityLabel)) = Ok p.

(** The priority label of the kit does not parse as an integer; [e] is the
    error of the parse. *)
Definition malformedPriority (k : IntegrationKit) (e : error) : Prop :=
  Atoi (default "" (v1.IntegrationKit.Labels k !! v1.IntegrationKitPriorityLabel)) = Err e.

(** Every priority of a ready kit of [kits] satisfies [R]. *)
Definition readyKitsHave (R : Z -> Prop) (kits : list IntegrationKit) : Prop :=
  forall k p, k ∈ kits -> isReadyKit k -> hasPriority k p -> R p.

(** The claim's reading of the selection: [k] is a kit of [kits] with
    Phase=Ready whose priority is numerically greatest among the ready
    kits. *)
Definition claimedSelection (kits : list IntegrationKit) (k : IntegrationKit) : Prop :=
  k ∈ kits /\ isReadyKit k
  /\ exists p, hasPriority k p /\ readyKitsHave (fun p' => p' <= p) kits.

(** C3, as amended. [findHighestPriorityReadyKit] on a list of candidate
    kits: (1) with no candidate it selects nothing and returns no error;
    (2) only the candidates with Phase=Ready take part, the labels of the
    others are not parsed; (3) a ready candidate whose priority label does
    not parse as an integer makes it return an error and no kit, and an error
    is never returned for another reason; (4) when the labels of the ready
    candidates parse, it returns no error and selects the first ready
    candidate of numerically greatest priority, provided that priority
    exceeds 0, the priority the selection starts from, and nothing when no
    ready candidate has a priority above 0; (5) a selected kit is a ready
    candidate whose priority is strictly above 0, and it is above the current
    priority [cur] when [cur] is at most 0 or below the priority of every
    ready candidate (the candidates were filtered to strictly higher priority
    than the current kit): the function does not read the current priority. *)
Theorem findHighestPriorityReadyKit_spec (kits : list IntegrationKit) :
  (kits = [] -> findHighestPriorityReadyKit kits = (None, None))
  /\ findHighestPriorityReadyKit kits = findHighestPriorityReadyKit (filter isReadyKit kits)
  /\ ((forall k e, k ∈ kits -> isReadyKit k -> malformedPriority k e ->
         exists e', findHighestPriorityReadyKit kits = (None, Some e'))
      /\ (forall sel e, findHighestPriorityReadyKit kits = (sel, Some e) ->
            sel = None /\ exists k, k ∈ kits /\ isReadyKit k /\ malformedPriority k e))
  /\ ((forall k, k ∈ kits -> isReadyKit k -> exists p, hasPriority k p) ->
        (findHighestPriorityReadyKit kits = (None, None)
         /\ readyKitsHave (fun p => p <= 0) kits)
        \/ (exists before k after p,
              kits = before ++ k :: after
              /\ findHighestPriorityReadyKit kits = (Some k, None)
              /\ isReadyKit k /\ hasPriority k p /\ 0 < p
              /\ readyKitsHave (fun p' => p' < p) before
              /\ readyKitsHave (fun p' => p' <= p) after))
  /\ (forall k e cur,
        findHighestPriorityReadyKit kits = (Some k, e) ->
        cur <= 0 \/ readyKitsHave (fun p => cur < p) kits ->
        k ∈ kits /\ isReadyKit k /\ exists p, hasPriority k p /\ cur < p /\ 0 < p).
Proof.
  rewrite !findHighestPriorityReadyKit_loop.
  split; [by intros ->|].
  split; [apply findHighestPriorityLoop_ready_only|].
  split; [split; [intros k e; apply findHighestPriorityLoop_malformed
                 |intros sel e; apply findHighestPriorityLoop_error]|].
  split; [apply findHighestPriorityLoop_greatest|].
  intros k e cur Hloop Hcur.
  apply findHighestPriorityLoop_selected in Hloop as [[=] | (Hin & Hready & p & Hp & Hlt)].
  split; [done|]. split; [done|]. exists p. split; [done|]. split; [|done].
  destruct Hcur as [Hcur | Hall]; [lia|]. by apply (Hall k p).
Qed.

End KitSelection.

(** Given candidates with priorities [0,5,3] (and the current priority 0) the
    kit with priority 5 is selected. *)
Example findHighestPriorityReadyKit_0_5_3 :
  findHighestPriorityReadyKit candidateKits
  = (Some (exampleKit "b" "5" v1.IntegrationKitPhaseReady), None).
Proof. vm_compute. reflexivity. Qed.

(** The candidates with the priorities 0, 5 and 3: the selection is the kit
    with priority 5, by the characterisation of the selection alone. *)
Lemma findHighestPriorityReadyKit_spec_witness :
  findHighestPriorityReadyKit candidateKits
  = (Some (exampleKit "b" "5" v1.IntegrationKitPhaseReady), None)
  /\ hasPriority (exampleKit "b" "5" v1.IntegrationKitPhaseReady) 5.
Proof.
  split; [|reflexivity].
  destruct (findHighestPriorityReadyKit_spec candidateKits) as (_ & _ & _ & Hgreatest & _).
  destruct Hgreatest
    as [[_ Hnone] | (before & k & after & p & Hsplit & Hsel & _ & Hp & Hpos & Hbefore & _)].
  - intros k Hin _. unfold candidateKits in Hin.
    repeat (apply elem_of_cons in Hin as [-> | Hin]; [by eexists|]).
    by apply elem_of_nil in Hin.
  - exfalso.
    assert (H5 : 5 <= 0); [|lia].
    apply (Hnone (exampleKit "b" "5" v1.IntegrationKitPhaseReady) 5); [|done..].
    apply list_elem_of_further, list_elem_of_here.
  - unfold candidateKits in Hsplit.
    destruct before as [|a1 [|a2 [|a3 [|a4 rest]]]]; simpl in Hsplit.
    + injection Hsplit as <- _. vm_compute in Hp. injection Hp as <-. lia.
    + injection Hsplit as _ <- _. exact Hsel.
    + injection Hsplit as _ <- <- _. vm_compute in Hp. injection Hp as <-.
      exfalso. assert (H5 : 5 < 3); [|lia].
      apply (Hbefore (exampleKit "b" "5" v1.IntegrationKitPhaseReady) 5); [|done..].
      apply list_elem_of_further, list_elem_of_here.
    + discriminate Hsplit.
    + discriminate Hsplit.
Defined.

(** The claim's reading fails in each of its three parts. A single ready kit
    with priority 0 is the ready kit of greatest priority, and nothing is
    selected. A kit that is not ready and whose label does not parse is
    skipped: no error, and the ready kit beside it is selected. A ready kit
    with priority 3 is selected whatever the priority of the current kit is,
    5 say; the function is not given that priority. *)
Lemma findHighestPriorityReadyKit_claim_fails :
  (claimedSelection [exampleKit "a" "0" v1.IntegrationKitPhaseReady]
     (exampleKit "a" "0" v1.IntegrationKitPhaseReady)
   /\ findHighestPriorityReadyKit [exampleKit "a" "0" v1.IntegrationKitPhaseReady]
      = (None, None))
  /\ ((exists e, malformedPriority
                   (exampleKit "m" "high" v1.IntegrationKitPhaseBuildRunning) e)
      /\ findHighestPriorityReadyKit
           [exampleKit "m" "high" v1.IntegrationKitPhaseBuildRunning;
            exampleKit "b" "5" v1.IntegrationKitPhaseReady]
         = (Some (exampleKit "b" "5" v1.IntegrationKitPhaseReady), None))
  /\ (hasPriority (exampleKit "c" "3" v1.IntegrationKitPhaseReady) 3
      /\ 3 <= 5
      /\ findHighestPriorityReadyKit [exampleKit "c" "3" v1.IntegrationKitPhaseReady]
         = (Some (exampleKit "c" "3" v1.IntegrationKitPhaseReady), None)).
Proof.
  split; [|split].
  - split; [|vm_compute; reflexivity].
    split; [apply list_elem_of_here|]. split; [reflexivity|].
    exists 0. split; [reflexivity|].
    intros k p Hin _ Hp. apply list_elem_of_singleton in Hin as ->.
    vm_compute in Hp. injection Hp as <-. lia.
  - split; [eexists; vm_compute; reflexivity|vm_compute; reflexivity].
  - split; [reflexivity|]. split; [lia|vm_compute; reflexivity].
Qed.

(** ** Pod failure scan *)

Section PodFailureScan.

(** The pod's scheduled condition is false with reason Unschedulable and
    carries [message]. *)
Definition unschedulable (pod : Pod) (message : string) : Prop :=
  exists scheduled,
    GetPodCondition pod corev1.PodScheduled = Some scheduled
    /\ corev1.PodCondition.Status scheduled = corev1.ConditionFalse
    /\ corev1.PodCondition.Reason scheduled = "Unschedulable"
    /\ corev1.PodCondition.Message scheduled = message.

(** The container is waiting for [reason] with [message]. *)
Definition waitingFor (reason : string) (container : corev1.ContainerStatus.t) (message : string)
  : Prop :=
  exists waiting,
    corev1.ContainerState.Waiting (corev1.ContainerStatus.State container) = Some waiting
    /\ corev1.ContainerStateWaiting.Reason waiting = reason
    /\ corev1.ContainerStateWaiting.Message waiting = message.

(** The container is terminated for [reason] with [message]. *)
Definition terminatedFor (reason : string) (container : corev1.ContainerStatus.t) (message : string)
  : Prop :=
  exists terminated,
    corev1.ContainerState.Terminated (corev1.ContainerStatus.State container) = Some terminated
    /\ corev1.ContainerStateTerminated.Reason terminated = reason
    /\ corev1.ContainerStateTerminated.Message terminated = message.

(** What the code treats as fatal, with the message of the offending status:
    an unschedulable pending pod, a container of a pending pod in
    ImagePullBackOff, a container of a running pod that is not being deleted
    in CrashLoopBackOff or terminated with Error. *)
Definition failingStatus (pendingPods runningPods : list Pod) (message : string) : Prop :=
  (exists pod, pod ∈ pendingPods /\ unschedulable pod message)
  \/ (exists pod container,
        pod ∈ pendingPods /\ container ∈ containerStatuses pod
        /\ waitingFor "ImagePullBackOff" container message)
  \/ (exists pod container,
        pod ∈ runningPods /\ corev1.Pod.DeletionTimestamp pod = None
        /\ container ∈ containerStatuses pod
        /\ (waitingFor "CrashLoopBackOff" container message
            \/ terminatedFor "Error" container message)).

(** The claim's reading: any of the three container reasons is fatal on any
    pod, pending or running and not being deleted. *)
Definition claimedFailingStatus (pendingPods runningPods : list Pod) (message : string) : Prop :=
  (exists pod, pod ∈ pendingPods /\ unschedulable pod message)
  \/ (exists pod container,
        (pod ∈ pendingPods
         \/ (pod ∈ runningPods /\ corev1.Pod.DeletionTimestamp pod = None))
        /\ container ∈ containerStatuses pod
        /\ (waitingFor "ImagePullBackOff" container message
            \/ waitingFor "CrashLoopBackOff" container message
            \/ terminatedFor "Error" container message)).

(** The Integration after a fatal hit with [message]. *)
Definition markedFailing (message : string) (before after : Integration) : Prop :=
  after = markFailing message before
  /\ v1.IntegrationStatus.Phase (v1.Integration.Status after) = v1.IntegrationPhaseError
  /\ GetCondition (v1.Integration.Status after) v1.IntegrationConditionReady
     = Some (v1.IntegrationCondition.mk v1.IntegrationConditionReady corev1.ConditionFalse
               v1.IntegrationConditionErrorReason message []).

Lemma find_app_None {A} (f : A -> bool) (l1 l2 : list A) :
  find f l1 = None -> find f (l1 ++ l2) = find f l2.
Proof.
  induction l1 as [|x l1 IH]; simpl; [done|].
  destruct (f x); [discriminate|]. apply IH.
Qed.

Lemma find_filter_None {A} (f : A -> bool) (P : A -> Prop) `{!forall x, Decision (P x)}
    (l : list A) :
  (forall x, f x = true -> ~ P x) -> find f (filter P l) = None.
Proof.
  intros Hf. induction l as [|x l IH]; [done|].
  rewrite filter_cons. case_decide as HP; [|done].
  simpl. destruct (f x) eqn:Hfx; [|done]. by apply Hf in Hfx.
Qed.

(** After [SetConditions], the condition is the one found for its type. *)
Lemma GetCondition_SetConditions condition status :
  GetCondition (SetConditions condition status) (v1.IntegrationCondition.Type_ condition)
  = Some condition.
Proof.
  unfold GetCondition, SetConditions. simpl.
  rewrite find_app_None.
  - simpl. by rewrite bool_decide_eq_true_2.
  - apply find_filter_None. intros c Hc. apply bool_decide_eq_true_1 in Hc. by intros [].
Qed.

Lemma markFailing_marked message integration :
  markedFailing message integration (markFailing message integration).
Proof.
  split; [done|]. split; [done|].
  unfold markFailing, SetReadyConditionError, SetReadyCondition. simpl.
  apply (GetCondition_SetConditions
           (v1.IntegrationCondition.mk v1.IntegrationConditionReady corev1.ConditionFalse
              v1.IntegrationConditionErrorReason message [])).
Qed.

Lemma checkScheduled_spec integration pendingPods :
  (checkScheduled integration pendingPods = None
   /\ forall pod message, pod ∈ pendingPods -> ~ unschedulable pod message)
  \/ (exists pod message,
        pod ∈ pendingPods /\ unschedulable pod message
        /\ checkScheduled integration pendingPods = Some (markFailing message integration)).
Proof.
  induction pendingPods as [|pod rest IH]; simpl.
  - left. split; [done|]. intros pod message Hin. by apply elem_of_nil in Hin.
  - assert (Hskip :
      (forall message, ~ unschedulable pod message) ->
      (checkScheduled integration rest = None
       /\ forall pod' message, pod' ∈ pod :: rest -> ~ unschedulable pod' message)
      \/ (exists pod' message,
            pod' ∈ pod :: rest /\ unschedulable pod' message
            /\ checkScheduled integration rest = Some (markFailing message integration))).
    { intros Hpod. destruct IH as [[Hnone Hall] | (pod' & message & Hin & Hun & Hloop)].
      - left. split; [done|]. intros pod' message Hin.
        apply elem_of_cons in Hin as [-> | Hin]; eauto.
      - right. exists pod', message. split; [by apply list_elem_of_further|]. done. }
    destruct (GetPodCondition pod corev1.PodScheduled) as [scheduled|] eqn:Hget.
    + destruct (bool_decide (corev1.PodCondition.Status scheduled = corev1.ConditionFalse)
                && bool_decide (corev1.PodCondition.Reason scheduled = "Unschedulable"))
        eqn:Htest.
      * apply andb_true_iff in Htest as [Hs Hr].
        apply bool_decide_eq_true_1 in Hs. apply bool_decide_eq_true_1 in Hr.
        right. exists pod, (corev1.PodCondition.Message scheduled).
        split; [apply list_elem_of_here|]. split; [|done]. by exists scheduled.
      * apply Hskip. intros message (c & Hc & Hs & Hr & _).
        rewrite Hget in Hc. injection Hc as <-.
        rewrite !bool_decide_eq_true_2 in Htest by done. discriminate.
    + apply Hskip. intros message (c & Hc & _). rewrite Hget in Hc. discriminate.
Qed.

Lemma checkImagesPulled_spec integration containers :
  (checkImagesPulled integration containers = None
   /\ forall container message,
        container ∈ containers -> ~ waitingFor "ImagePullBackOff" container message)
  \/ (exists container message,
        container ∈ containers /\ waitingFor "ImagePullBackOff" container message
        /\ checkImagesPulled integration containers = Some (markFailing message integration)).
Proof.
  induction containers as [|container rest IH]; simpl.
  - left. split; [done|]. intros c message Hin. by apply elem_of_nil in Hin.
  - assert (Hskip :
      (forall message, ~ waitingFor "ImagePullBackOff" container message) ->
      (checkImagesPulled integration rest = None
       /\ forall c message, c ∈ container :: rest -> ~ waitingFor "ImagePullBackOff" c message)
      \/ (exists c message,
            c ∈ container :: rest /\ waitingFor "ImagePullBackOff" c message
            /\ checkImagesPulled integration rest = Some (markFailing message integration))).
    { intros Hc. destruct IH as [[Hnone Hall] | (c & message & Hin & Hw & Hloop)].
      - left. split; [done|]. intros c message Hin.
        apply elem_of_cons in Hin as [-> | Hin]; eauto.
      - right. exists c, message. split; [by apply list_elem_of_further|]. done. }
    destruct (corev1.ContainerState.Waiting (corev1.ContainerStatus.State container))
      as [waiting|] eqn:Hwaiting.
    + case_bool_decide as Hreason.
      * right. exists container, (corev1.ContainerStateWaiting.Message waiting).
        split; [apply list_elem_of_here|]. split; [|done]. by exists waiting.
      * apply Hskip. intros message (w & Hw & Hr & _). congruence.
    + apply Hskip. intros message (w & Hw & _). congruence.
Qed.

Lemma checkPendingContainers_spec integration pendingPods :
  (checkPendingContainers integration pendingPods = None
   /\ forall pod container message,
        pod ∈ pendingPods -> container ∈ containerStatuses pod ->
        ~ waitingFor "ImagePullBackOff" container message)
  \/ (exists pod container message,
        pod ∈ pendingPods /\ container ∈ containerStatuses pod
        /\ waitingFor "ImagePullBackOff" container message
        /\ checkPendingContainers integration pendingPods
           = Some (markFailing message integration)).
Proof.
  induction pendingPods as [|pod rest IH]; simpl.
  - left. split; [done|]. intros pod c message Hin. by apply elem_of_nil in Hin.
  - destruct (checkImagesPulled_spec integration (containerStatuses pod))
      as [[-> Hpod] | (c & message & Hin & Hw & ->)].
    + destruct IH as [[Hnone Hall] | (pod' & c & message & Hin & Hc & Hw & Hloop)].
      * left. split; [done|]. intros pod' c message Hin.
        apply elem_of_cons in Hin as [-> | Hin]; eauto.
      * right. exists pod', c, message. split; [by apply list_elem_of_further|]. done.
    + right. exists pod, c, message. split; [apply list_elem_of_here|]. done.
Qed.

Lemma checkContainerState_spec integration containers :
  (checkContainerState integration containers = None
   /\ forall container message,
        container ∈ containers ->
        ~ (waitingFor "CrashLoopBackOff" container message
           \/ terminatedFor "Error" container message))
  \/ (exists container message,
        container ∈ containers
        /\ (waitingFor "CrashLoopBackOff" container message
            \/ terminatedFor "Error" container message)
        /\ checkContainerState integration containers = Some (markFailing message integration)).
Proof.
  induction containers as [|container rest IH]; simpl.
  - left. split; [done|]. intros c message Hin. by apply elem_of_nil in Hin.
  - destruct (corev1.ContainerState.Waiting (corev1.ContainerStatus.State container))
      as [waiting|] eqn:Hwaiting.
    { case_bool_decide as Hreason.
      { right. exists container, (corev1.ContainerStateWaiting.Message waiting).
        split; [apply list_elem_of_here|]. split; [|done]. left. by exists waiting. }
      destruct (corev1.ContainerState.Terminated (corev1.ContainerStatus.State container))
        as [terminated|] eqn:Hterminated.
      { case_bool_decide as Hreason'.
        { right. exists container, (corev1.ContainerStateTerminated.Message terminated).
          split; [apply list_elem_of_here|]. split; [|done]. right. by exists terminated. }
        destruct IH as [[Hnone Hall] | (c & message & Hin & Hw & Hloop)].
        - left. split; [done|]. intros c message Hin.
          apply elem_of_cons in Hin as [-> | Hin]; [|eauto].
          intros [(w & Hw & Hr & _) | (t & Ht & Hr & _)]; congruence.
        - right. exists c, message. split; [by apply list_elem_of_further|]. done. }
      destruct IH as [[Hnone Hall] | (c & message & Hin & Hw & Hloop)].
      - left. split; [done|]. intros c message Hin.
        apply elem_of_cons in Hin as [-> | Hin]; [|eauto].
        intros [(w & Hw & Hr & _) | (t & Ht & Hr & _)]; congruence.
      - right. exists c, message. split; [by apply list_elem_of_further|]. done. }
    destruct (corev1.ContainerState.Terminated (corev1.ContainerStatus.State container))
      as [terminated|] eqn:Hterminated.
    { case_bool_decide as Hreason'.
      { right. exists container, (corev1.ContainerStateTerminated.Message terminated).
        split; [apply list_elem_of_here|]. split; [|done]. right. by exists terminated. }
      destruct IH as [[Hnone Hall] | (c & message & Hin & Hw & Hloop)].
      - left. split; [done|]. intros c message Hin.
        apply elem_of_cons in Hin as [-> | Hin]; [|eauto].
        intros [(w & Hw & Hr & _) | (t & Ht & Hr & _)]; congruence.
      - right. exists c, message. split; [by apply list_elem_of_further|]. done. }
    destruct IH as [[Hnone Hall] | (c & message & Hin & Hw & Hloop)].
    + left. split; [done|]. intros c message Hin.
      apply elem_of_cons in Hin as [-> | Hin]; [|eauto].
      intros [(w & Hw & Hr & _) | (t & Ht & Hr & _)]; congruence.
    + right. exists c, message. split; [by apply list_elem_of_further|]. done.
Qed.

Lemma checkRunningContainers_spec integration runningPods :
  (checkRunningContainers integration runningPods = None
   /\ forall pod container message,
        pod ∈ runningPods -> corev1.Pod.DeletionTimestamp pod = None ->
        container ∈ containerStatuses pod ->
        ~ (waitingFor "CrashLoopBackOff" container message
           \/ terminatedFor "Error" container message))
  \/ (exists pod container message,
        pod ∈ runningPods /\ corev1.Pod.DeletionTimestamp pod = None
        /\ container ∈ containerStatuses pod
        /\ (waitingFor "CrashLoopBackOff" container message
            \/ terminatedFor "Error" container message)
        /\ checkRunningContainers integration runningPods
           = Some (markFailing message integration)).
Proof.
  induction runningPods as [|pod rest IH]; simpl.
  - left. split; [done|]. intros pod c message Hin. by apply elem_of_nil in Hin.
  - destruct (corev1.Pod.DeletionTimestamp pod) as [deleted|] eqn:Hdeleted.
    + destruct IH as [[Hnone Hall] | (pod' & c & message & Hin & Hd & Hc & Hw & Hloop)].
      * left. split; [done|]. intros pod' c message Hin Hd.
        apply elem_of_cons in Hin as [-> | Hin]; [congruence|eauto].
      * right. exists pod', c, message. split; [by apply list_elem_of_further|]. done.
    + destruct (checkContainerState_spec integration (containerStatuses pod))
        as [[-> Hpod] | (c & message & Hin & Hw & ->)].
      * destruct IH as [[Hnone Hall] | (pod' & c & message & Hin & Hd & Hc & Hw & Hloop)].
        -- left. split; [done|]. intros pod' c message Hin Hd.
           apply elem_of_cons in Hin as [-> | Hin]; eauto.
        -- right. exists pod', c, message. split; [by apply list_elem_of_further|]. done.
      * right. exists pod, c, message. split; [apply list_elem_of_here|]. done.
Qed.

(** C1, as amended. [arePodsFailingStatuses] returns true, with the phase set
    to Error and the ready condition false with the error reason and the
    message of an offending status, exactly when a pending pod is
    unschedulable, a container (init or main) of a pending pod waits in
    ImagePullBackOff, or a container (init or main) of a running pod that is
    not being deleted waits in CrashLoopBackOff or is terminated with Error;
    in every other case it returns false and leaves the Integration as it
    was. *)
Theorem arePodsFailingStatuses_spec (integration : Integration)
    (pendingPods runningPods : list Pod) :
  (exists message after,
     failingStatus pendingPods runningPods message
     /\ arePodsFailingStatuses integration pendingPods runningPods = (true, after)
     /\ markedFailing message integration after)
  \/ ((forall message, ~ failingStatus pendingPods runningPods message)
      /\ arePodsFailingStatuses integration pendingPods runningPods = (false, integration)).
Proof.
  unfold arePodsFailingStatuses.
  destruct (checkScheduled_spec integration pendingPods)
    as [[-> Hscheduled] | (pod & message & Hin & Hun & ->)].
  2: { left. exists message, (markFailing message integration).
       split; [left; eauto|]. split; [done|]. apply markFailing_marked. }
  destruct (checkPendingContainers_spec integration pendingPods)
    as [[-> Hpending] | (pod & c & message & Hin & Hc & Hw & ->)].
  2: { left. exists message, (markFailing message integration).
       split; [right; left; eauto|]. split; [done|]. apply markFailing_marked. }
  destruct (checkRunningContainers_spec integration runningPods)
    as [[-> Hrunning] | (pod & c & message & Hin & Hd & Hc & Hw & ->)].
  2: { left. exists message, (markFailing message integration).
       split; [right; right; exists pod, c; done|]. split; [done|]. apply markFailing_marked. }
  right. split; [|done].
  intros message [(pod & Hin & Hun) | [(pod & c & Hin & Hc & Hw) | (pod & c & Hin & Hd & Hc & Hw)]].
  - by apply (Hscheduled pod message).
  - by apply (Hpending pod c message).
  - by apply (Hrunning pod c message).
Qed.

End PodFailureScan.

(** The claim's reading fails: a pending pod with a container in
    CrashLoopBackOff is fatal for it, and the scan returns false on it
    without touching the Integration. *)
Lemma arePodsFailingStatuses_pending_crashloop :
  claimedFailingStatus [crashLoopingPod] [] "back-off restarting failed container"
  /\ arePodsFailingStatuses (exampleIntegration v1.IntegrationPhaseRunning "d" [])
       [crashLoopingPod] []
     = (false, exampleIntegration v1.IntegrationPhaseRunning "d" []).
Proof.
  split; [|vm_compute; reflexivity].
  right. exists crashLoopingPod, (waitingStatus "CrashLoopBackOff" "back-off restarting failed container").
  split; [left; apply list_elem_of_here|].
  split; [apply list_elem_of_here|].
  right. left. eexists. repeat split.
Qed.

(** ** Readiness probe engine *)

Section ReadinessProbe.
Context `{Collaborators}.

(** Once the runtime failed it is also not ready. *)
Definition failedImpliesNotReady (st : probeState) : Prop :=
  runtimeFailed st = true -> runtimeReady st = false.

(** [st'] comes from [st] by iterations that write only to the entries of
    [Pods] outside [keep]: the entries in [keep] and the length are the same,
    the counters of the runtime only fall. *)
Definition advances (keep : nat -> Prop) (st st' : probeState) : Prop :=
  length (Pods st') = length (Pods st)
  /\ (forall j, keep j -> Pods st' !! j = Pods st !! j)
  /\ (runtimeReady st = false -> runtimeReady st' = false)
  /\ (failedImpliesNotReady st -> failedImpliesNotReady st').

Lemma advances_refl keep st : advances keep st st.
Proof. by repeat split. Qed.

Lemma advances_trans (keep keep' keep'' : nat -> Prop) st1 st2 st3 :
  (forall j, keep'' j -> keep j) -> (forall j, keep'' j -> keep' j) ->
  advances keep st1 st2 -> advances keep' st2 st3 -> advances keep'' st1 st3.
Proof.
  intros Hk Hk' (Hlen & Hkeep & Hready & Hinv) (Hlen' & Hkeep' & Hready' & Hinv').
  split; [congruence|]. split; [|split; [auto|auto]].
  intros j Hj. rewrite Hkeep' by auto. auto.
Qed.

(** Writes to entry [i] only, with the runtime flags only falling. *)
Lemma advances_write i st pods' ready unready notReady failed :
  length pods' = length (Pods st) ->
  (forall j, j <> i -> pods' !! j = Pods st !! j) ->
  (runtimeReady st = false -> notReady = false) ->
  (failedImpliesNotReady st -> failed = true -> notReady = false) ->
  advances (fun j => j <> i) st (mkProbeState pods' ready unready notReady failed).
Proof.
  intros Hlen Hkeep Hready Hfailed. unfold advances, failedImpliesNotReady. simpl.
  split; [done|]. split; [done|]. split; [done|]. intros Hinv Hf. by apply Hfailed.
Qed.

Ltac solve_write :=
  apply advances_write;
  [ by rewrite ?length_alter
  | by intros j Hj; rewrite ?list_lookup_alter_ne
  | done
  | by unfold failedImpliesNotReady; auto ].

Lemma recordChecks_advances i checks :
  forall st, advances (fun j => j <> i) st (recordChecks i checks st).
Proof.
  induction checks as [|check rest IH]; intros st; simpl; [apply advances_refl|].
  case_bool_decide; [apply IH|].
  eapply (advances_trans (fun j => j <> i) (fun j => j <> i)); [done|done| |apply IH].
  solve_write.
Qed.

Lemma recordChecks_counts i checks :
  forall st, readyPods (recordChecks i checks st) = readyPods st
             /\ unreadyPods (recordChecks i checks st) = unreadyPods st.
Proof.
  induction checks as [|check rest IH]; intros st; simpl; [done|].
  case_bool_decide; [apply IH|]. by destruct (IH
    (mkProbeState
       (alter (fun p => v1.PodCondition.setHealth (v1.PodCondition.Health p ++ [check]) p)
              i (Pods st))
       (readyPods st) (unreadyPods st) false true)).
Qed.

(** An iteration that goes on wrote only to entry [i]. *)
Lemma probePod_advances client environment i pod st st' :
  probePod client environment i pod st = Continue st' ->
  advances (fun j => j <> i) st st'.
Proof.
  unfold probePod. intros Hstep.
  repeat (case_match; simplify_eq);
    try solve_write;
    (eapply (advances_trans (fun j => j <> i) (fun j => j <> i));
     [done|done| |apply recordChecks_advances]; solve_write).
Qed.

Lemma probeLoop_app client environment l1 :
  forall l2 i st,
    probeLoop client environment i (l1 ++ l2) st
    = match probeLoop client environment i l1 st with
      | Continue st' => probeLoop client environment (i + length l1) l2 st'
      | stop => stop
      end.
Proof.
  induction l1 as [|pod l1 IH]; intros l2 i st; simpl.
  - by rewrite Nat.add_0_r.
  - destruct (probePod client environment i pod st); [|done..].
    rewrite IH. by rewrite Nat.add_succ_r.
Qed.

(** The iterations from index [i] on write only to the entries
    [i .. i + length pods - 1]. *)
Lemma probeLoop_advances client environment pods :
  forall i st st',
    probeLoop client environment i pods st = Continue st' ->
    advances (fun j => (j < i \/ i + length pods <= j)%nat) st st'.
Proof.
  induction pods as [|pod rest IH]; intros i st st'; simpl.
  - intros [= <-]. apply advances_refl.
  - destruct (probePod client environment i pod st) as [st1| |] eqn:Hstep; [|done..].
    intros Hloop. apply probePod_advances in Hstep. apply IH in Hloop.
    eapply advances_trans; [| |apply Hstep|apply Hloop]; simpl; intros j Hj; lia.
Qed.

(** The state the loop of [probeReadiness] starts from. *)
Definition initialProbeState (pods : list Pod) : probeState :=
  mkProbeState (replicate (length pods) v1.PodCondition.zero) 0 0 true false.

Lemma initialProbeState_invariant pods : failedImpliesNotReady (initialProbeState pods).
Proof. intros Hfailed. discriminate. Qed.

(** A loop that runs to its end ran the body for [pods[i]], from a state in
    which the entries from [i] on were untouched, and no later iteration
    wrote to entry [i]. *)
Lemma probeLoop_at client environment pods i pod st0 st :
  pods !! i = Some pod ->
  probeLoop client environment 0 pods st0 = Continue st ->
  exists st1 st2,
    advances (fun j => (i <= j)%nat) st0 st1
    /\ probePod client environment i pod st1 = Continue st2
    /\ advances (fun j => (j < S i)%nat) st2 st.
Proof.
  intros Hpod Hloop.
  assert (Hlen : length (take i pods) = i).
  { apply length_take_le. apply lookup_lt_Some in Hpod. lia. }
  rewrite <- (take_drop_middle pods i pod Hpod) in Hloop.
  rewrite probeLoop_app in Hloop.
  destruct (probeLoop client environment 0 (take i pods) st0) as [st1| |] eqn:Hbefore;
    [|done..].
  rewrite Hlen in Hloop. simpl in Hloop.
  destruct (probePod client environment i pod st1) as [st2| |] eqn:Hstep; [|done..].
  exists st1, st2. split; [|split; [done|]].
  - apply probeLoop_advances in Hbefore. rewrite Hlen in Hbefore.
    eapply (advances_trans _ _ _ _ _ _ _ _ Hbefore (advances_refl (fun _ => True) st1)).
  - apply probeLoop_advances in Hloop.
    eapply (advances_trans _ _ _ _ _ _ _ _ (advances_refl (fun _ => True) st2) Hloop).
  Unshelve.
  all: simpl; intros j Hj; try done; lia.
Qed.

(** What [probeReadiness] returns and leaves once its loop ran to the end in
    state [st]. *)
Lemma probeReadiness_finish client environment pods integration st :
  probeLoop client environment 0 pods (initialProbeState pods) = Continue st ->
  exists after,
    probeReadiness client environment pods integration
    = Done (readyPods st, negb (runtimeFailed st) && runtimeReady st, None) after
    /\ (runtimeReady st = false ->
        GetCondition (v1.Integration.Status after) v1.IntegrationConditionReady
        = Some (v1.IntegrationCondition.mk v1.IntegrationConditionReady corev1.ConditionFalse
                  v1.IntegrationConditionRuntimeNotReadyReason
                  (notReadyMessage (unreadyPods st) (readyPods st)) (Pods st)))
    /\ (runtimeReady st = true -> runtimeFailed st = false -> after = integration).
Proof.
  unfold probeReadiness, initialProbeState. simpl. intros ->.
  destruct (runtimeFailed st), (runtimeReady st); simpl;
    eexists; (split; [reflexivity|]); (split; [|done]); intros Hready; try done;
    unfold v1.Integration.mapStatus, v1.Integration.setStatus; cbn [v1.Integration.Status];
    apply (GetCondition_SetConditions
             (v1.IntegrationCondition.mk v1.IntegrationConditionReady corev1.ConditionFalse
                v1.IntegrationConditionRuntimeNotReadyReason
                (notReadyMessage (unreadyPods st) (readyPods st)) (Pods st))).
Qed.

(** Whenever [probeReadiness] reports a failed probe without an error, the
    ready condition it leaves is false with the runtime-not-ready reason:
    the error reason set for a failed runtime is always overwritten. *)
Lemma probeReadiness_not_ok_reason client environment pods integration ready after :
  probeReadiness client environment pods integration = Done (ready, false, None) after ->
  exists condition,
    GetCondition (v1.Integration.Status after) v1.IntegrationConditionReady = Some condition
    /\ v1.IntegrationCondition.Status condition = corev1.ConditionFalse
    /\ v1.IntegrationCondition.Reason condition = v1.IntegrationConditionRuntimeNotReadyReason.
Proof.
  intros Hdone.
  destruct (probeLoop client environment 0 pods (initialProbeState pods)) as [st| |] eqn:Hloop.
  - destruct (probeReadiness_finish _ _ _ integration _ Hloop) as (after' & Hret & Hcond & _).
    rewrite Hret in Hdone. injection Hdone as _ Hok <-.
    pose proof (probeLoop_advances _ _ _ _ _ _ Hloop) as (_ & _ & _ & Hinv).
    specialize (Hinv (initialProbeState_invariant pods)).
    assert (Hready : runtimeReady st = false).
    { destruct (runtimeFailed st) eqn:Hfailed; [by apply Hinv|]. by destruct (runtimeReady st). }
    eexists. split; [by apply Hcond|]. done.
  - unfold probeReadiness in Hdone. fold (initialProbeState pods) in Hdone.
    simpl in Hdone. unfold initialProbeState in Hloop. rewrite Hloop in Hdone. discriminate.
  - unfold probeReadiness in Hdone. simpl in Hdone.
    unfold initialProbeState in Hloop. rewrite Hloop in Hdone. discriminate.
Qed.

(** With a ready condition on every pod the call does not panic. *)
Lemma probeLoop_no_panic client environment pods :
  (forall pod, pod ∈ pods -> GetPodCondition pod corev1.PodReady <> None) ->
  forall i st, probeLoop client environment i pods st <> NilDereference.
Proof.
  induction pods as [|pod rest IH]; intros Hready i st; simpl; [done|].
  assert (Hstep : probePod client environment i pod st <> NilDereference).
  { unfold probePod. specialize (Hready pod (list_elem_of_here _ _)).
    repeat (case_match; simplify_eq); done. }
  destruct (probePod client environment i pod st); [|done..].
  apply IH. intros pod' Hin. apply Hready. by apply list_elem_of_further.
Qed.

Lemma probeReadiness_no_panic client environment pods integration :
  (forall pod, pod ∈ pods -> GetPodCondition pod corev1.PodReady <> None) ->
  probeReadiness client environment pods integration <> Panic.
Proof.
  intros Hready. unfold probeReadiness. simpl.
  pose proof (probeLoop_no_panic client environment pods Hready 0
                (mkProbeState (replicate (length pods) v1.PodCondition.zero) 0 0 true false))
    as Hloop.
  destruct (probeLoop client environment 0 pods _) as [st| |]; [|done..].
  unfold bind, ret, update. by destruct (runtimeFailed st), (runtimeReady st).
Qed.

(** The message recorded for a probe that timed out. *)
Definition timedOutMessage (pod : Pod) : string :=
  "readiness probe timed out for Pod " +:+ podPath pod.

(** The iteration for a pod that is not ready and whose probe call fails with
    a deadline exceeded. *)
Lemma probePod_deadline_exceeded client environment i pod ready container probe action body err st :
  GetPodCondition pod corev1.PodReady = Some ready ->
  corev1.PodCondition.Status ready <> corev1.ConditionTrue ->
  getIntegrationContainer environment pod = Some container ->
  corev1.Container.ReadinessProbe container = Some probe ->
  corev1.Probe.HTTPGet probe = Some action ->
  proxyGetHTTPProbe client probe pod container = (body, Some err) ->
  isDeadlineExceeded err = true ->
  probePod client environment i pod st
  = Continue
      (mkProbeState
         (alter (setPodMessage (timedOutMessage pod)) i
            (alter (v1.PodCondition.setCondition ready) i
               (alter (v1.PodCondition.setName (corev1.Pod.Name pod)) i (Pods st))))
         (readyPods st) (S (unreadyPods st)) false (runtimeFailed st)).
Proof.
  intros Hready Hstatus Hcontainer Hprobe Haction Hproxy Hdeadline.
  unfold probePod. rewrite Hready. unfold GetPodCondition in Hready. rewrite Hready.
  rewrite bool_decide_eq_false_2 by done.
  rewrite Hcontainer, Hprobe, Haction, Hproxy, Hdeadline. done.
Qed.

(** C5. A pod that is not ready and whose probe call fails with a context
    deadline exceeded: its iteration records the timeout message, makes the
    runtime not ready and leaves [runtimeFailed] (and the count of ready
    pods) as it was; whenever [probeReadiness] returns, [probeOk] is false;
    and when it returns without an error the ready condition is false with
    the runtime-not-ready reason and carries, for that pod, its PodReady
    condition with the timeout message and no health check. *)
Theorem probeReadiness_deadline_exceeded client environment pods integration
    i pod ready container probe action body err :
  pods !! i = Some pod ->
  GetPodCondition pod corev1.PodReady = Some ready ->
  corev1.PodCondition.Status ready <> corev1.ConditionTrue ->
  getIntegrationContainer environment pod = Some container ->
  corev1.Container.ReadinessProbe container = Some probe ->
  corev1.Probe.HTTPGet probe = Some action ->
  proxyGetHTTPProbe client probe pod container = (body, Some err) ->
  isDeadlineExceeded err = true ->
  (forall st, exists st',
      probePod client environment i pod st = Continue st'
      /\ runtimeReady st' = false
      /\ runtimeFailed st' = runtimeFailed st
      /\ readyPods st' = readyPods st)
  /\ (forall n ok e after,
        probeReadiness client environment pods integration = Done (n, ok, e) after ->
        ok = false)
  /\ (forall n ok after,
        probeReadiness client environment pods integration = Done (n, ok, None) after ->
        exists condition,
          GetCondition (v1.Integration.Status after) v1.IntegrationConditionReady
          = Some condition
          /\ v1.IntegrationCondition.Status condition = corev1.ConditionFalse
          /\ v1.IntegrationCondition.Reason condition
             = v1.IntegrationConditionRuntimeNotReadyReason
          /\ v1.IntegrationCondition.Pods condition !! i
             = Some (v1.PodCondition.mk (corev1.Pod.Name pod)
                       (corev1.PodCondition.setMessage (timedOutMessage pod) ready) [])).
Proof.
  intros Hpod Hready Hstatus Hcontainer Hprobe Haction Hproxy Hdeadline.
  pose proof (fun st => probePod_deadline_exceeded client environment i pod ready container
                          probe action body err st Hready Hstatus Hcontainer Hprobe Haction
                          Hproxy Hdeadline) as Hstep.
  assert (Hend : forall st,
             probeLoop client environment 0 pods (initialProbeState pods) = Continue st ->
             runtimeReady st = false
             /\ Pods st !! i
                = Some (v1.PodCondition.mk (corev1.Pod.Name pod)
                          (corev1.PodCondition.setMessage (timedOutMessage pod) ready) [])).
  { intros st Hloop.
    destruct (probeLoop_at _ _ _ _ _ _ _ Hpod Hloop)
      as (st1 & st2 & (_ & Hkeep1 & _) & Hst2 & (_ & Hkeep2 & Hfalls & _)).
    rewrite Hstep in Hst2. injection Hst2 as <-.
    split; [by apply Hfalls|].
    rewrite Hkeep2 by lia. simpl.
    rewrite !list_lookup_alter_eq, Hkeep1 by lia. simpl.
    rewrite lookup_replicate_2; [done|]. by apply lookup_lt_Some in Hpod. }
  split; [|split].
  - intros st. rewrite Hstep. eexists. by split.
  - intros n ok e after Hdone.
    destruct (probeLoop client environment 0 pods (initialProbeState pods)) as [st| |] eqn:Hloop.
    + destruct (probeReadiness_finish _ _ _ integration _ Hloop) as (after' & Hret & _).
      rewrite Hret in Hdone. injection Hdone as _ <- _ _.
      destruct (Hend st eq_refl) as [-> _]. apply andb_false_r.
    + unfold probeReadiness in Hdone. simpl in Hdone.
      unfold initialProbeState in Hloop. rewrite Hloop in Hdone. by injection Hdone as _ <- _ _.
    + unfold probeReadiness in Hdone. simpl in Hdone.
      unfold initialProbeState in Hloop. rewrite Hloop in Hdone. discriminate.
  - intros n ok after Hdone.
    destruct (probeLoop client environment 0 pods (initialProbeState pods)) as [st| |] eqn:Hloop.
    + destruct (probeReadiness_finish _ _ _ integration _ Hloop) as (after' & Hret & Hcond & _).
      rewrite Hret in Hdone. injection Hdone as _ _ <-.
      destruct (Hend st eq_refl) as [Hnot Hentry].
      eexists. split; [by apply Hcond|]. by repeat split.
    + unfold probeReadiness in Hdone. simpl in Hdone.
      unfold initialProbeState in Hloop. rewrite Hloop in Hdone. discriminate.
    + unfold probeReadiness in Hdone. simpl in Hdone.
      unfold initialProbeState in Hloop. rewrite Hloop in Hdone. discriminate.
Qed.

End ReadinessProbe.

Lemma probeReadiness_deadline_exceeded_witness :
  exists after condition,
    probeReadiness timingOutClient (exampleEnvironment true) [notReadyPod] runningIntegration
    = Done (0%nat, false, None) after
    /\ GetCondition (v1.Integration.Status after) v1.IntegrationConditionReady = Some condition
    /\ v1.IntegrationCondition.Reason condition = v1.IntegrationConditionRuntimeNotReadyReason
    /\ v1.IntegrationCondition.Pods condition !! 0%nat
       = Some (v1.PodCondition.mk "p"
                 (corev1.PodCondition.mk corev1.PodReady corev1.ConditionFalse ""
                    "readiness probe timed out for Pod ns/p") []).
Proof.
  destruct (probeReadiness_deadline_exceeded timingOutClient (exampleEnvironment true)
              [notReadyPod] runningIntegration 0 notReadyPod (readyIs corev1.ConditionFalse)
              exampleContainer httpProbe (corev1.HTTPGetAction.mk "/q/health/ready" 8080)
              "" DeadlineExceeded)
    as (_ & _ & Hcondition); try reflexivity; try discriminate.
  destruct (probeReadiness timingOutClient (exampleEnvironment true) [notReadyPod]
              runningIntegration) as [|[[n ok] e] after] eqn:Hrun; [discriminate|].
  vm_compute in Hrun. injection Hrun as <- <- <- <-.
  destruct (Hcondition 0%nat false _ eq_refl) as (condition & Hget & _ & Hreason & Hentry).
  eexists _, condition. split; [reflexivity|]. split; [exact Hget|]. split; [exact Hreason|].
  exact Hentry.
Defined.

(** C2, on the code. One pod that is not ready and whose probe answers HTTP
    503 with a report holding a DOWN check: [probeReadiness] returns
    [probeOk = false] and records the check on the pod's entry, and the ready
    condition it leaves is false with the runtime-not-ready reason, not the
    error reason. *)
Theorem probeReadiness_down_check_reason :
  exists after,
    probeReadiness unavailableClient (exampleEnvironment true) [notReadyPod] runningIntegration
    = Done (0%nat, false, None) after
    /\ GetCondition (v1.Integration.Status after) v1.IntegrationConditionReady
       = Some (v1.IntegrationCondition.mk v1.IntegrationConditionReady corev1.ConditionFalse
                 v1.IntegrationConditionRuntimeNotReadyReason "1/1 pods are not ready"
                 [v1.PodCondition.mk "p" (readyIs corev1.ConditionFalse) [downCheck]]).
Proof. eexists. split; vm_compute; reflexivity. Qed.

(** C9, on the code. A pod without a PodReady condition: the lookup returns
    nil, the ready check dereferences it and [probeReadiness] panics. *)
Theorem probeReadiness_without_ready_condition :
  GetPodCondition podWithoutConditions corev1.PodReady = None
  /\ probeReadiness readyClient (exampleEnvironment true) [podWithoutConditions] runningIntegration
     = Panic.
Proof. split; vm_compute; reflexivity. Qed.

(** ** The monitoring pass *)

Section MonitoringPass.
Context `{Collaborators}.

Lemma find_filter_keeps {A} (f : A -> bool) (P : A -> Prop) `{!forall x, Decision (P x)}
    (l : list A) :
  (forall x, f x = true -> P x) -> find f (filter P l) = find f l.
Proof.
  intros Hf. induction l as [|x l IH]; [done|].
  rewrite filter_cons. simpl. destruct (f x) eqn:Hfx.
  - rewrite decide_True by auto. simpl. by rewrite Hfx.
  - case_decide; [|done]. simpl. by rewrite Hfx.
Qed.

Lemma find_snoc_false {A} (f : A -> bool) (l : list A) (x : A) :
  f x = false -> find f (l ++ [x]) = find f l.
Proof.
  intros Hfx. induction l as [|y l IH]; simpl; [by rewrite Hfx|].
  by destruct (f y).
Qed.

(** [SetConditions] leaves the conditions of the other types as they were. *)
Lemma GetCondition_SetConditions_ne condition status condType :
  condType <> v1.IntegrationCondition.Type_ condition ->
  GetCondition (SetConditions condition status) condType = GetCondition status condType.
Proof.
  intros Hne. unfold GetCondition, SetConditions. simpl.
  rewrite find_snoc_false by (by apply bool_decide_eq_false_2; intros <-).
  apply find_filter_keeps. intros c Hc. apply bool_decide_eq_true_1 in Hc. congruence.
Qed.

(** C7. When the digest computed over the Integration and the resource
    versions of its watched config maps and secrets is the stored one,
    [checkDigestAndRebuild] returns [(nil, nil)] and leaves the Integration
    as it was. *)
Theorem checkDigestAndRebuild_same_digest (client : Client) (kit : option IntegrationKit)
    (integration : Integration) :
  ComputeForIntegration integration
    (snd (getIntegrationSecretAndConfigmapResourceVersions client integration))
    (fst (getIntegrationSecretAndConfigmapResourceVersions client integration))
  = Ok (v1.IntegrationStatus.Digest (v1.Integration.Status integration)) ->
  checkDigestAndRebuild client kit integration = Done (ReturnsNil, None) integration.
Proof.
  intros Hdigest. unfold checkDigestAndRebuild, bind, read.
  destruct (getIntegrationSecretAndConfigmapResourceVersions client integration)
    as [secrets configmaps].
  simpl in Hdigest. rewrite Hdigest.
  by rewrite bool_decide_eq_true_2.
Qed.

(** The Integration [monitorPods] leaves when the label is missing. *)
Definition withMonitoringUnavailable (controller : controller) (integration : Integration)
  : Integration :=
  v1.Integration.mapStatus
    (SetConditions
       (v1.IntegrationCondition.mk v1.IntegrationConditionReady corev1.ConditionFalse
          v1.IntegrationConditionMonitoringPodsAvailableReason
          (missingLabelMessage (v1.Integration.Name integration) (getControllerName controller))
          []))
    integration.

Lemma monitorPods_missing_label client environment integration controller :
  newController client environment integration = Ok controller ->
  hasTemplateIntegrationLabel controller = false ->
  monitorPods client environment integration
  = Done (ReturnsIntegration, None) (withMonitoringUnavailable controller integration).
Proof.
  intros Hcontroller Hlabel. unfold monitorPods, bind, read.
  by rewrite Hcontroller, Hlabel.
Qed.

(** C8. When the pod template of the resolved controller lacks the
    integration label, [monitorPods] returns the Integration and no error,
    and the ready condition is false with the monitoring-pods-available
    reason and the guidance message that names the integration and the
    controller. *)
Theorem monitorPods_missing_label_condition client environment integration controller :
  newController client environment integration = Ok controller ->
  hasTemplateIntegrationLabel controller = false ->
  exists after,
    monitorPods client environment integration = Done (ReturnsIntegration, None) after
    /\ GetCondition (v1.Integration.Status after) v1.IntegrationConditionReady
       = Some (v1.IntegrationCondition.mk v1.IntegrationConditionReady corev1.ConditionFalse
                 v1.IntegrationConditionMonitoringPodsAvailableReason
                 ("Could not find `camel.apache.org/integration: "
                  +:+ v1.Integration.Name integration +:+ "` label in the "
                  +:+ getControllerName controller
                  +:+ " template. Make sure to include this label in the template for Pod monitoring purposes.")
                 []).
Proof.
  intros Hcontroller Hlabel. eexists. split; [by apply monitorPods_missing_label|].
  apply (GetCondition_SetConditions
           (v1.IntegrationCondition.mk v1.IntegrationConditionReady corev1.ConditionFalse
              v1.IntegrationConditionMonitoringPodsAvailableReason
              (missingLabelMessage (v1.Integration.Name integration)
                 (getControllerName controller)) [])).
Qed.

(** C10. When the pod template of the resolved controller lacks the
    integration label, [monitorPods] changes nothing but the ready
    condition: selector, replicas, phase, digest and kit reference of the
    status, the conditions of the other types and everything outside the
    status are as before. *)
Theorem monitorPods_missing_label_frame client environment integration controller :
  newController client environment integration = Ok controller ->
  hasTemplateIntegrationLabel controller = false ->
  exists after,
    monitorPods client environment integration = Done (ReturnsIntegration, None) after
    /\ v1.IntegrationStatus.Selector (v1.Integration.Status after)
       = v1.IntegrationStatus.Selector (v1.Integration.Status integration)
    /\ v1.IntegrationStatus.Replicas (v1.Integration.Status after)
       = v1.IntegrationStatus.Replicas (v1.Integration.Status integration)
    /\ v1.IntegrationStatus.Phase (v1.Integration.Status after)
       = v1.IntegrationStatus.Phase (v1.Integration.Status integration)
    /\ v1.IntegrationStatus.Digest (v1.Integration.Status after)
       = v1.IntegrationStatus.Digest (v1.Integration.Status integration)
    /\ v1.IntegrationStatus.IntegrationKit (v1.Integration.Status after)
       = v1.IntegrationStatus.IntegrationKit (v1.Integration.Status integration)
    /\ (forall condType,
          condType <> v1.IntegrationConditionReady ->
          GetCondition (v1.Integration.Status after) condType
          = GetCondition (v1.Integration.Status integration) condType)
    /\ v1.Integration.setStatus (v1.Integration.Status integration) after = integration.
Proof.
  intros Hcontroller Hlabel. eexists. split; [by apply monitorPods_missing_label|].
  repeat (split; [done|]). split; [|by destruct integration].
  intros condType Hne.
  by apply (GetCondition_SetConditions_ne
              (v1.IntegrationCondition.mk v1.IntegrationConditionReady corev1.ConditionFalse
                 v1.IntegrationConditionMonitoringPodsAvailableReason
                 (missingLabelMessage (v1.Integration.Name integration)
                    (getControllerName controller)) [])).
Qed.

(** The Integration at the start of the readiness reconciliation of
    [monitorPods]: selector and replicas are set, and a Deploying phase has
    become Running. *)
Definition startedMonitoring (integration : Integration) (pendingPods runningPods : list Pod)
  : Integration :=
  let counted :=
    v1.Integration.mapStatus
      (v1.IntegrationStatus.setReplicas
         (Some (int32 (Z.of_nat (length pendingPods) + countNonTerminating runningPods))))
      (v1.Integration.mapStatus
         (v1.IntegrationStatus.setSelector
            (v1.IntegrationLabel +:+ "=" +:+ v1.Integration.Name integration))
         integration) in
  if bool_decide (v1.IntegrationStatus.Phase (v1.Integration.Status counted)
                  = v1.IntegrationPhaseDeploying)
  then setPhase v1.IntegrationPhaseRunning counted
  else counted.

(** What [monitorPods] returns from the outcome of the reconciliation. *)
Definition afterReconciliation (reconciled : outcome (option error))
  : outcome (returned * option error) :=
  match reconciled with
  | Panic => Panic
  | Done (Some err) after => Done (ReturnsNil, Some err) after
  | Done None after => Done (ReturnsIntegration, None) after
  end.

Lemma monitorPods_reconciles client environment integration controller pendingPods runningPods :
  newController client environment integration = Ok controller ->
  hasTemplateIntegrationLabel controller = true ->
  ListPods client (v1.Integration.Namespace integration) (v1.Integration.Name integration)
    corev1.PodPending = Ok pendingPods ->
  ListPods client (v1.Integration.Namespace integration) (v1.Integration.Name integration)
    corev1.PodRunning = Ok runningPods ->
  monitorPods client environment integration
  = afterReconciliation
      (updateIntegrationPhaseAndReadyCondition client controller environment
         pendingPods runningPods (startedMonitoring integration pendingPods runningPods)).
Proof.
  intros Hcontroller Hlabel Hpending Hrunning.
  unfold monitorPods, bind, read, update. rewrite Hcontroller, Hlabel. simpl.
  rewrite Hpending, Hrunning. unfold startedMonitoring, afterReconciliation.
  destruct integration as [name namespace annotations spec [phase digest replicas selector
                                                              conditions kit]].
  simpl. case_bool_decide; unfold ret; simpl;
    by destruct (updateIntegrationPhaseAndReadyCondition _ _ _ _ _ _) as [|[err|] after].
Qed.



(** An Integration that is not in the Error phase, whose kit-available
    condition is false and whose kit is in error: [Handle] returns
    [(nil, nil)] and leaves the Integration as it was. *)
Lemma Handle_kit_failed_stable client integration ref kit condition :
  v1.IntegrationStatus.Phase (v1.Integration.Status integration) <> v1.IntegrationPhaseError ->
  v1.IntegrationStatus.IntegrationKit (v1.Integration.Status integration) = Some ref ->
  GetIntegrationKit client (v1.ObjectReference.Name ref) (v1.ObjectReference.Namespace ref)
  = Ok kit ->
  GetCondition (v1.Integration.Status integration) v1.IntegrationConditionKitAvailable
  = Some condition ->
  v1.IntegrationCondition.Status condition = corev1.ConditionFalse ->
  v1.IntegrationKitStatus.Phase (v1.IntegrationKit.Status kit) = v1.IntegrationKitPhaseError ->
  Handle client integration = Done (ReturnsNil, None) integration.
Proof.
  intros Hphase Href Hkit Hcondition Hstatus Hfailed.
  unfold Handle, bind, read, isInInitializationFailed, isInIntegrationKitFailed.
  rewrite (bool_decide_eq_false_2 _ Hphase). simpl.
  rewrite Href, Hkit, Hcondition, Hstatus, Hfailed.
  by rewrite !bool_decide_eq_true_2.
Qed.

End MonitoringPass.

Lemma checkDigestAndRebuild_same_digest_witness :
  checkDigestAndRebuild readyClient (Some failedKit) runningIntegration
  = Done (ReturnsNil, None) runningIntegration.
Proof.
  apply (checkDigestAndRebuild_same_digest readyClient (Some failedKit) runningIntegration).
  vm_compute. reflexivity.
Defined.

Lemma monitorPods_missing_label_condition_witness :
  exists after condition,
    monitorPods readyClient (exampleEnvironment false) deployingIntegration
    = Done (ReturnsIntegration, None) after
    /\ GetCondition (v1.Integration.Status after) v1.IntegrationConditionReady = Some condition
    /\ v1.IntegrationCondition.Status condition = corev1.ConditionFalse
    /\ v1.IntegrationCondition.Reason condition
       = v1.IntegrationConditionMonitoringPodsAvailableReason.
Proof.
  destruct (monitorPods_missing_label_condition readyClient (exampleEnvironment false)
              deployingIntegration (exampleController false "Deployment"))
    as (after & Hpass & Hcondition); [vm_compute; reflexivity|reflexivity|].
  eexists after, _. split; [exact Hpass|]. split; [exact Hcondition|]. split; reflexivity.
Defined.

Lemma monitorPods_missing_label_frame_witness :
  exists after,
    monitorPods readyClient (exampleEnvironment false) deployingIntegration
    = Done (ReturnsIntegration, None) after
    /\ v1.IntegrationStatus.Selector (v1.Integration.Status after) = ""
    /\ v1.IntegrationStatus.Replicas (v1.Integration.Status after) = None
    /\ v1.IntegrationStatus.Phase (v1.Integration.Status after) = v1.IntegrationPhaseDeploying.
Proof.
  destruct (monitorPods_missing_label_frame readyClient (exampleEnvironment false)
              deployingIntegration (exampleController false "Deployment"))
    as (after & Hpass & Hselector & Hreplicas & Hphase & _);
    [vm_compute; reflexivity|reflexivity|].
  exists after. split; [exact Hpass|]. split; [exact Hselector|]. split; [exact Hreplicas|].
  exact Hphase.
Defined.


(** C4, on the code. An Integration admitted by [CanHandle], in the Error
    phase, whose kit-available condition is false and whose kit is in error:
    [isInIntegrationKitFailed] is false because of the phase, [Handle] goes on
    to the digest check and, the stored digest being stale, returns the
    Integration reset to its initial state with the new digest. *)
Theorem Handle_kit_failed_in_error_phase :
  CanHandle kitFailedIntegration = true
  /\ GetCondition (v1.Integration.Status kitFailedIntegration) v1.IntegrationConditionKitAvailable
     = Some kitUnavailable
  /\ GetIntegrationKit readyClient "kit" "ns" = Ok failedKit
  /\ v1.IntegrationKitStatus.Phase (v1.IntegrationKit.Status failedKit) = v1.IntegrationKitPhaseError
  /\ isInInitializationFailed (v1.Integration.Status kitFailedIntegration) = false
  /\ isInIntegrationKitFailed (v1.Integration.Status kitFailedIntegration) = false
  /\ Handle readyClient kitFailedIntegration
     = Done (ReturnsIntegration, None)
         (v1.Integration.setStatus
            (v1.IntegrationStatus.mk v1.IntegrationPhaseInitialization "spec" None "" [] None)
            kitFailedIntegration).
Proof. repeat split; vm_compute; reflexivity. Qed.

(** * Further properties of the code *)

(** ** Counting and naming in the probe loop *)

Section ProbeCounts.
Context `{Collaborators}.

(** The pod reports [PodReady=True]. *)
Definition isPodReady (pod : Pod) : bool :=
  match GetPodCondition pod corev1.PodReady with
  | Some ready => bool_decide (corev1.PodCondition.Status ready = corev1.ConditionTrue)
  | None => false
  end.

Definition countReady (pods : list Pod) : nat :=
  length (filter (fun pod => isPodReady pod = true) pods).

Lemma countReady_cons pod pods :
  countReady (pod :: pods)
  = ((if isPodReady pod then 1 else 0) + countReady pods)%nat.
Proof.
  unfold countReady. rewrite filter_cons.
  destruct (isPodReady pod); [by rewrite decide_True|by rewrite decide_False].
Qed.

Lemma countReady_le pods : (countReady pods <= length pods)%nat.
Proof. apply length_filter. Qed.

(** An iteration that goes on counted the pod once, as ready or as unready. *)
Lemma probePod_counts client environment i pod st st' :
  probePod client environment i pod st = Continue st' ->
  readyPods st' = ((if isPodReady pod then 1 else 0) + readyPods st)%nat
  /\ unreadyPods st' = ((if isPodReady pod then 0 else 1) + unreadyPods st)%nat.
Proof.
  unfold probePod, isPodReady. intros Hstep.
  destruct (GetPodCondition pod corev1.PodReady) as [ready|]; [|by repeat case_match].
  case_bool_decide as Hready; [by repeat (case_match; simplify_eq)|].
  repeat (case_match; simplify_eq); try done.
  all: match goal with
       | |- context [recordChecks ?i ?checks ?st0] =>
           by destruct (recordChecks_counts i checks st0) as [-> ->]
       end.
Qed.

Lemma probeLoop_counts client environment pods :
  forall i st st',
    probeLoop client environment i pods st = Continue st' ->
    readyPods st' = (countReady pods + readyPods st)%nat
    /\ (readyPods st' + unreadyPods st' = length pods + (readyPods st + unreadyPods st))%nat.
Proof.
  induction pods as [|pod rest IH]; intros i st st'; simpl.
  - by intros [= <-].
  - destruct (probePod client environment i pod st) as [st1| |] eqn:Hstep; [|done..].
    intros Hloop. apply probePod_counts in Hstep as [Hr Hu].
    apply IH in Hloop as [Hr' Hsum]. rewrite countReady_cons.
    destruct (isPodReady pod); lia.
Qed.

(** The name of entry [i]. *)
Definition namedAt (i : nat) (name : string) (st : probeState) : Prop :=
  exists entry, Pods st !! i = Some entry /\ v1.PodCondition.Name entry = name.

Lemma namedAt_alter i name f st ready unready notReady failed :
  (forall entry, v1.PodCondition.Name (f entry) = v1.PodCondition.Name entry) ->
  namedAt i name st ->
  namedAt i name (mkProbeState (alter f i (Pods st)) ready unready notReady failed).
Proof.
  intros Hf (entry & Hentry & Hname). exists (f entry). simpl.
  rewrite list_lookup_alter_eq, Hentry. split; [done|]. by rewrite Hf.
Qed.

Lemma recordChecks_named i name checks :
  forall st, namedAt i name st -> namedAt i name (recordChecks i checks st).
Proof.
  induction checks as [|check rest IH]; intros st Hnamed; simpl; [done|].
  case_bool_decide; [by apply IH|]. apply IH. by apply namedAt_alter.
Qed.

(** An iteration that goes on left the pod's name in its entry. *)
Lemma probePod_named client environment i pod st st' :
  (i < length (Pods st))%nat ->
  probePod client environment i pod st = Continue st' ->
  namedAt i (corev1.Pod.Name pod) st'.
Proof.
  intros Hi Hstep.
  destruct (lookup_lt_is_Some_2 (Pods st) i Hi) as [entry Hentry].
  assert (Hnamed : forall pods' ready unready notReady failed,
             pods' = alter (v1.PodCondition.setName (corev1.Pod.Name pod)) i (Pods st) ->
             namedAt i (corev1.Pod.Name pod)
               (mkProbeState pods' ready unready notReady failed)).
  { intros pods' ? ? ? ? ->. eexists. simpl.
    rewrite list_lookup_alter_eq, Hentry. by split. }
  assert (Hcopied : forall c ready unready notReady failed,
             namedAt i (corev1.Pod.Name pod)
               (mkProbeState
                  (alter (v1.PodCondition.setCondition c) i
                     (alter (v1.PodCondition.setName (corev1.Pod.Name pod)) i (Pods st)))
                  ready unready notReady failed)).
  { intros. eapply (namedAt_alter _ _ _ (mkProbeState _ 0 0 true true)); [done|].
    by apply Hnamed. }
  unfold probePod in Hstep.
  repeat (case_match; simplify_eq);
    repeat first
      [ apply recordChecks_named
      | by apply Hcopied
      | by apply Hnamed
      | eapply (namedAt_alter _ _ _ (mkProbeState _ 0 0 true true)); [done|] ].
Qed.

(** After a loop that ran to its end, every pod's entry carries its name. *)
Lemma probeLoop_named client environment pods i pod st :
  pods !! i = Some pod ->
  probeLoop client environment 0 pods (initialProbeState pods) = Continue st ->
  namedAt i (corev1.Pod.Name pod) st.
Proof.
  intros Hpod Hloop.
  destruct (probeLoop_at _ _ _ _ _ _ _ Hpod Hloop)
    as (st1 & st2 & (Hlen1 & _) & Hstep & (_ & Hkeep2 & _)).
  assert (Hi : (i < length (Pods st1))%nat).
  { rewrite Hlen1. simpl. rewrite length_replicate. by apply lookup_lt_Some in Hpod. }
  destruct (probePod_named _ _ _ _ _ _ Hi Hstep) as (entry & Hentry & Hname).
  exists entry. split; [|done]. rewrite Hkeep2 by lia. done.
Qed.

(** A return of [probeReadiness] other than a panic, by the end of its loop. *)
Lemma probeReadiness_cases client environment pods integration r after :
  probeReadiness client environment pods integration = Done r after ->
  (exists n e,
     probeLoop client environment 0 pods (initialProbeState pods) = Return n e
     /\ r = (n, false, Some e) /\ after = integration)
  \/ (exists st,
        probeLoop client environment 0 pods (initialProbeState pods) = Continue st
        /\ r = (readyPods st, negb (runtimeFailed st) && runtimeReady st, None)).
Proof.
  intros Hdone.
  destruct (probeLoop client environment 0 pods (initialProbeState pods)) as [st|n e|] eqn:Hloop.
  - right. exists st. split; [done|].
    destruct (probeReadiness_finish _ _ _ integration _ Hloop) as (after' & Hret & _).
    congruence.
  - left. exists n, e. split; [done|].
    unfold probeReadiness in Hdone. simpl in Hdone.
    unfold initialProbeState in Hloop. rewrite Hloop in Hdone. by injection Hdone as <- <-.
  - unfold probeReadiness in Hdone. simpl in Hdone.
    unfold initialProbeState in Hloop. rewrite Hloop in Hdone. discriminate.
Qed.

(** The loop ran to its end: it kept the invariant and the length of the
    per-pod list. *)
Lemma probeLoop_end client environment pods st :
  probeLoop client environment 0 pods (initialProbeState pods) = Continue st ->
  failedImpliesNotReady st /\ length (Pods st) = length pods.
Proof.
  intros Hloop. apply probeLoop_advances in Hloop as (Hlen & _ & _ & Hinv).
  split; [apply Hinv, initialProbeState_invariant|].
  rewrite Hlen. simpl. apply length_replicate.
Qed.

(** X1: the count and the untouched Integration. When [probeReadiness]
    returns without error, the count it returns is the number of pods whose
    PodReady condition is true, and when it also reports the probe as ok the
    Integration is as it was. *)
Theorem probeReadiness_ready_count client environment pods integration n ok after :
  probeReadiness client environment pods integration = Done (n, ok, None) after ->
  n = countReady pods
  /\ (n <= length pods)%nat
  /\ (ok = true -> after = integration).
Proof.
  intros Hdone.
  destruct (probeReadiness_cases _ _ _ _ _ _ Hdone)
    as [(n' & e & _ & [=] & _) | (st & Hloop & [= -> -> ])].
  destruct (probeLoop_counts _ _ _ _ _ _ Hloop) as [Hcount _]. simpl in Hcount.
  rewrite Hcount, Nat.add_0_r.
  split; [done|]. split; [apply countReady_le|].
  intros Hok. apply andb_true_iff in Hok as [Hfailed Hready].
  apply negb_true_iff in Hfailed.
  destruct (probeReadiness_finish _ _ _ integration _ Hloop) as (after' & Hret & _ & Hsame).
  rewrite Hret in Hdone. injection Hdone as <-. by apply Hsame.
Qed.

(** X2: the ready condition of a failed probe. When [probeReadiness] returns
    a failed probe without error, the ready condition is false, its message
    counts the pods that are not ready out of all the pods, and its per-pod
    list has one entry per pod, in the order of the pods, each with the name
    of its pod. *)
Theorem probeReadiness_not_ok_condition client environment pods integration n after :
  probeReadiness client environment pods integration = Done (n, false, None) after ->
  exists condition,
    GetCondition (v1.Integration.Status after) v1.IntegrationConditionReady = Some condition
    /\ v1.IntegrationCondition.Status condition = corev1.ConditionFalse
    /\ v1.IntegrationCondition.Message condition
       = pretty (length pods - n)%nat +:+ "/" +:+ pretty (length pods) +:+ " pods are not ready"
    /\ length (v1.IntegrationCondition.Pods condition) = length pods
    /\ (forall i pod,
          pods !! i = Some pod ->
          exists entry,
            v1.IntegrationCondition.Pods condition !! i = Some entry
            /\ v1.PodCondition.Name entry = corev1.Pod.Name pod).
Proof.
  intros Hdone.
  destruct (probeReadiness_cases _ _ _ _ _ _ Hdone)
    as [(n' & e & _ & [=] & _) | (st & Hloop & [= -> Hok])].
  destruct (probeLoop_end _ _ _ _ Hloop) as [Hinv Hlen].
  assert (Hready : runtimeReady st = false).
  { destruct (runtimeFailed st) eqn:Hfailed; [by apply Hinv|]. by destruct (runtimeReady st). }
  destruct (probeReadiness_finish _ _ _ integration _ Hloop) as (after' & Hret & Hcond & _).
  rewrite Hret in Hdone. injection Hdone as _ <-.
  eexists. split; [by apply Hcond|]. simpl. split; [done|].
  destruct (probeLoop_counts _ _ _ _ _ _ Hloop) as [_ Hsum]. simpl in Hsum.
  split; [|split; [done|]].
  - unfold notReadyMessage.
    replace (length pods - readyPods st)%nat with (unreadyPods st) by lia.
    by replace (unreadyPods st + readyPods st)%nat with (length pods) by lia.
  - intros i pod Hpod. by apply (probeLoop_named client environment pods i pod st).
Qed.

(** The loop returns an error only for a pod that is not ready: its
    integration container is missing, or the body of its failed probe does
    not parse as a health report. *)
Lemma probeLoop_return client environment pods :
  forall i st n e,
    probeLoop client environment i pods st = Return n e ->
    exists pod,
      pod ∈ pods /\ isPodReady pod = false
      /\ ((getIntegrationContainer environment pod = None
           /\ e = ErrContainerNotFound (corev1.Pod.Namespace pod) (corev1.Pod.Name pod))
          \/ exists container probe body cause,
               getIntegrationContainer environment pod = Some container
               /\ corev1.Container.ReadinessProbe container = Some probe
               /\ proxyGetHTTPProbe client probe pod container = (body, Some cause)
               /\ IsServiceUnavailable cause = true
               /\ NewHealthCheck body = Err e).
Proof.
  induction pods as [|pod rest IH]; intros i st n e; simpl; [done|].
  destruct (probePod client environment i pod st) as [st1|n1 e1|] eqn:Hstep.
  - intros Hloop. apply IH in Hloop as (pod' & Hin & Hrest).
    exists pod'. split; [by apply list_elem_of_further|done].
  - intros [= -> ->]. exists pod. split; [apply list_elem_of_here|].
    unfold probePod in Hstep. unfold isPodReady.
    destruct (GetPodCondition pod corev1.PodReady) as [ready|]; [|by repeat case_match].
    case_bool_decide as Hready; [by repeat case_match|]. split; [done|].
    destruct (getIntegrationContainer environment pod) as [container|] eqn:Hcontainer;
      [|left; split; [done|]; by repeat (case_match; simplify_eq)].
    right.
    destruct (corev1.Container.ReadinessProbe container) as [probe|] eqn:Hprobe;
      [|by repeat case_match].
    destruct (corev1.Probe.HTTPGet probe); [|by repeat case_match].
    destruct (proxyGetHTTPProbe client probe pod container) as [body [cause|]] eqn:Hproxy;
      [|by repeat case_match].
    destruct (isDeadlineExceeded cause); [by repeat case_match|].
    destruct (IsServiceUnavailable cause) eqn:Hunavailable; [|by repeat case_match].
    simpl in Hstep.
    destruct (NewHealthCheck body) as [health|err] eqn:Hhealth; [by repeat case_match|].
    exists container, probe, body, cause.
    injection Hstep as _ <-. done.
  - done.
Qed.

(** X3: error returns. When [probeReadiness] returns an error, the probe is
    reported as failed, the Integration is as it was, and the error comes
    from a pod that is not ready: either its integration container is missing
    or the body of its 503 answer does not parse as a health report. *)
Theorem probeReadiness_error client environment pods integration n ok e after :
  probeReadiness client environment pods integration = Done (n, ok, Some e) after ->
  ok = false
  /\ after = integration
  /\ exists pod,
       pod ∈ pods /\ isPodReady pod = false
       /\ ((getIntegrationContainer environment pod = None
            /\ e = ErrContainerNotFound (corev1.Pod.Namespace pod) (corev1.Pod.Name pod))
           \/ exists container probe body cause,
                getIntegrationContainer environment pod = Some container
                /\ corev1.Container.ReadinessProbe container = Some probe
                /\ proxyGetHTTPProbe client probe pod container = (body, Some cause)
                /\ IsServiceUnavailable cause = true
                /\ NewHealthCheck body = Err e).
Proof.
  intros Hdone.
  destruct (probeReadiness_cases _ _ _ _ _ _ Hdone)
    as [(n' & e' & Hloop & [= -> -> ->] & ->) | (st & _ & [=])].
  split; [done|]. split; [done|]. by apply probeLoop_return in Hloop.
Qed.

(** X4: frame. [probeReadiness] changes nothing of the Integration but the
    conditions of its status, and of those only the ready condition. *)
Theorem probeReadiness_frame client environment pods integration r after :
  probeReadiness client environment pods integration = Done r after ->
  v1.Integration.setStatus
    (v1.IntegrationStatus.setConditionList
       (v1.IntegrationStatus.Conditions (v1.Integration.Status integration))
       (v1.Integration.Status after)) after
  = integration
  /\ (forall condType,
        condType <> v1.IntegrationConditionReady ->
        GetCondition (v1.Integration.Status after) condType
        = GetCondition (v1.Integration.Status integration) condType).
Proof.
  intros Hdone.
  destruct (probeReadiness_cases _ _ _ _ _ _ Hdone)
    as [(n & e & _ & _ & ->) | (st & Hloop & _)].
  { split; [|done]. by destruct integration as [? ? ? ? []]. }
  unfold probeReadiness in Hdone. simpl in Hdone.
  unfold initialProbeState in Hloop. rewrite Hloop in Hdone.
  unfold bind, update, ret in Hdone.
  destruct (runtimeFailed st), (runtimeReady st); simpl in Hdone;
    injection Hdone as _ <-;
    (split; [by destruct integration as [? ? ? ? []]|]);
    intros condType Hne; unfold v1.Integration.mapStatus, v1.Integration.setStatus;
    cbn [v1.Integration.Status];
    rewrite ?GetCondition_SetConditions_ne by done; done.
Qed.

(** The pod is ready, or it is not ready, has its integration container and
    that container has no HTTP readiness probe or one whose proxied call
    returns no error. *)
Definition warmingUp (client : Client) (environment : Environment) (pod : Pod) : Prop :=
  exists ready,
    GetPodCondition pod corev1.PodReady = Some ready
    /\ (corev1.PodCondition.Status ready = corev1.ConditionTrue
        \/ exists container,
             getIntegrationContainer environment pod = Some container
             /\ match corev1.Container.ReadinessProbe container with
                | Some probe =>
                    match corev1.Probe.HTTPGet probe with
                    | Some _ => snd (proxyGetHTTPProbe client probe pod container) = None
                    | None => True
                    end
                | None => True
                end).

Lemma probePod_warmingUp client environment i pod st :
  warmingUp client environment pod ->
  exists st',
    probePod client environment i pod st = Continue st'
    /\ runtimeReady st' = runtimeReady st
    /\ runtimeFailed st' = runtimeFailed st.
Proof.
  intros (ready & Hready & Hquiet). unfold probePod. rewrite Hready.
  case_bool_decide as Hstatus; [by eexists|].
  destruct Hquiet as [Htrue | (container & Hcontainer & Hprobe)]; [done|].
  rewrite Hcontainer.
  destruct (corev1.Container.ReadinessProbe container) as [probe|]; [|by eexists].
  destruct (corev1.Probe.HTTPGet probe); [|by eexists].
  destruct (proxyGetHTTPProbe client probe pod container) as [body err].
  simpl in Hprobe. subst err. by eexists.
Qed.

Lemma probeLoop_warmingUp client environment pods :
  (forall pod, pod ∈ pods -> warmingUp client environment pod) ->
  forall i st,
    exists st',
      probeLoop client environment i pods st = Continue st'
      /\ runtimeReady st' = runtimeReady st
      /\ runtimeFailed st' = runtimeFailed st.
Proof.
  induction pods as [|pod rest IH]; intros Hquiet i st; simpl; [by eexists|].
  destruct (probePod_warmingUp client environment i pod st (Hquiet pod (list_elem_of_here _ _)))
    as (st1 & -> & Hready1 & Hfailed1).
  destruct (IH (fun pod' Hin => Hquiet pod' (list_elem_of_further _ _ _ Hin)) (S i) st1)
    as (st' & -> & Hready & Hfailed).
  exists st'. split; [done|]. by rewrite Hready, Hfailed.
Qed.

(** X5: pods that are only warming up. When every pod is ready, or is not
    ready but has its integration container with no HTTP probe or with a probe
    whose call returns no error, [probeReadiness] reports the probe as ok,
    returns the number of ready pods and no error, and leaves the Integration
    as it was. *)
Theorem probeReadiness_warming_up client environment pods integration :
  (forall pod, pod ∈ pods -> warmingUp client environment pod) ->
  probeReadiness client environment pods integration
  = Done (countReady pods, true, None) integration.
Proof.
  intros Hquiet.
  destruct (probeLoop_warmingUp client environment pods Hquiet 0 (initialProbeState pods))
    as (st & Hloop & Hready & Hfailed).
  simpl in Hready, Hfailed.
  destruct (probeReadiness_finish _ _ _ integration _ Hloop) as (after & -> & _ & Hsame).
  destruct (probeLoop_counts _ _ _ _ _ _ Hloop) as [Hcount _]. simpl in Hcount.
  rewrite Hcount, Nat.add_0_r, Hready, Hfailed, (Hsame Hready Hfailed). done.
Qed.

(** The message recorded for a probe that failed without a 503. *)
Definition probeFailedMessage (pod : Pod) (err : error) : string :=
  "readiness probe failed for Pod " +:+ podPath pod +:+ ": " +:+ Error err.

(** X6: a probe failing with an error that is neither a deadline exceeded nor
    a 503. For a pod that is not ready and whose probe call fails so, a
    return of [probeReadiness] without error reports the probe as failed and
    the ready condition carries, for that pod, its PodReady condition with
    the failure message that ends in the text of the error, and no health
    check; the response body is not parsed. *)
Theorem probeReadiness_probe_failed client environment pods integration
    i pod ready container probe action body err n ok after :
  pods !! i = Some pod ->
  GetPodCondition pod corev1.PodReady = Some ready ->
  corev1.PodCondition.Status ready <> corev1.ConditionTrue ->
  getIntegrationContainer environment pod = Some container ->
  corev1.Container.ReadinessProbe container = Some probe ->
  corev1.Probe.HTTPGet probe = Some action ->
  proxyGetHTTPProbe client probe pod container = (body, Some err) ->
  isDeadlineExceeded err = false ->
  IsServiceUnavailable err = false ->
  probeReadiness client environment pods integration = Done (n, ok, None) after ->
  ok = false
  /\ exists condition,
       GetCondition (v1.Integration.Status after) v1.IntegrationConditionReady = Some condition
       /\ v1.IntegrationCondition.Status condition = corev1.ConditionFalse
       /\ v1.IntegrationCondition.Pods condition !! i
          = Some (v1.PodCondition.mk (corev1.Pod.Name pod)
                    (corev1.PodCondition.setMessage (probeFailedMessage pod err) ready) []).
Proof.
  intros Hpod Hready Hstatus Hcontainer Hprobe Haction Hproxy Hdeadline Hunavailable Hdone.
  destruct (probeReadiness_cases _ _ _ _ _ _ Hdone)
    as [(n' & e & _ & [=] & _) | (st & Hloop & [= -> ->])].
  destruct (probeLoop_at _ _ _ _ _ _ _ Hpod Hloop)
    as (st1 & st2 & (_ & Hkeep1 & _) & Hst2 & (_ & Hkeep2 & Hfalls & _)).
  unfold probePod in Hst2. rewrite Hready in Hst2.
  unfold GetPodCondition in Hready. rewrite Hready in Hst2.
  rewrite bool_decide_eq_false_2 in Hst2 by done.
  rewrite Hcontainer, Hprobe, Haction, Hproxy, Hdeadline, Hunavailable in Hst2.
  simpl in Hst2. injection Hst2 as <-.
  assert (Hnot : runtimeReady st = false) by (by apply Hfalls).
  rewrite Hnot, andb_false_r. split; [done|].
  destruct (probeReadiness_finish _ _ _ integration _ Hloop) as (after' & Hret & Hcond & _).
  rewrite Hret in Hdone. injection Hdone as <-.
  eexists. split; [by apply Hcond|]. split; [done|]. simpl.
  rewrite Hkeep2 by lia. simpl.
  rewrite !list_lookup_alter_eq, Hkeep1 by lia. simpl.
  rewrite lookup_replicate_2; [done|]. by apply lookup_lt_Some in Hpod.
Qed.

(** X7: the only cause of a panic. When [probeReadiness] panics, one of the
    pods has no PodReady condition: the lookup returned nil and the ready
    check dereferenced it. *)
Theorem probeReadiness_panic_cause client environment pods integration :
  probeReadiness client environment pods integration = Panic ->
  exists pod, pod ∈ pods /\ GetPodCondition pod corev1.PodReady = None.
Proof.
  intros Hpanic.
  destruct (decide (Exists (fun pod => GetPodCondition pod corev1.PodReady = None) pods))
    as [Hsome|Hnone].
  - apply Exists_exists in Hsome as (pod & Hin & Hpod). by exists pod.
  - exfalso. apply (probeReadiness_no_panic client environment pods integration); [|done].
    intros pod Hin Hpod. apply Hnone, Exists_exists. by exists pod.
Qed.

End ProbeCounts.

(** The probe of every pod answers HTTP 503 with a body that is no health
    report. *)
Definition garbledClient : Client :=
  exampleClient (Ok failedKit) [] [notReadyPod]
    ("<html>", Some (StatusError "ServiceUnavailable" "the server is currently unable to handle the request")).

(** The probe of every pod fails with an error that is neither a timeout nor
    a 503. *)
Definition refusingClient : Client :=
  exampleClient (Ok failedKit) [] [notReadyPod] ("", Some (ErrOther "connection refused")).

Lemma probeReadiness_ready_count_witness :
  probeReadiness readyClient (exampleEnvironment true) [readyPod; notReadyPod] runningIntegration
  = Done (1%nat, true, None) runningIntegration
  /\ 1%nat = countReady [readyPod; notReadyPod]
  /\ (1 <= length [readyPod; notReadyPod])%nat
  /\ (true = true -> runningIntegration = runningIntegration).
Proof.
  split; [vm_compute; reflexivity|].
  apply (probeReadiness_ready_count readyClient (exampleEnvironment true)
           [readyPod; notReadyPod] runningIntegration 1 true runningIntegration).
  vm_compute. reflexivity.
Defined.

Lemma probeReadiness_not_ok_condition_witness :
  exists after condition,
    probeReadiness unavailableClient (exampleEnvironment true) [notReadyPod; notReadyPod]
      runningIntegration
    = Done (0%nat, false, None) after
    /\ GetCondition (v1.Integration.Status after) v1.IntegrationConditionReady = Some condition
    /\ v1.IntegrationCondition.Message condition = "2/2 pods are not ready"
    /\ length (v1.IntegrationCondition.Pods condition) = 2%nat.
Proof.
  pose proof (probeReadiness_not_ok_condition unavailableClient (exampleEnvironment true)
                [notReadyPod; notReadyPod] runningIntegration 0) as Hcondition.
  destruct (probeReadiness unavailableClient (exampleEnvironment true) [notReadyPod; notReadyPod]
              runningIntegration) as [|[[n ok] e] after] eqn:Hrun; [discriminate|].
  vm_compute in Hrun. injection Hrun as <- <- <- <-.
  destruct (Hcondition _ eq_refl) as (condition & Hget & _ & Hmessage & Hlength & _).
  eexists _, condition. split; [reflexivity|]. split; [exact Hget|].
  split; [exact Hmessage|exact Hlength].
Defined.

Lemma probeReadiness_error_witness :
  probeReadiness garbledClient (exampleEnvironment true) [notReadyPod] runningIntegration
  = Done (0%nat, false, Some (ErrOther "invalid body")) runningIntegration
  /\ exists pod, pod ∈ [notReadyPod] /\ isPodReady pod = false.
Proof.
  assert (Hrun : probeReadiness garbledClient (exampleEnvironment true) [notReadyPod]
                   runningIntegration
                 = Done (0%nat, false, Some (ErrOther "invalid body")) runningIntegration)
    by (vm_compute; reflexivity).
  split; [exact Hrun|].
  destruct (probeReadiness_error garbledClient (exampleEnvironment true) [notReadyPod]
              runningIntegration 0 false (ErrOther "invalid body") runningIntegration Hrun)
    as (_ & _ & pod & Hin & Hready & _).
  by exists pod.
Defined.

Lemma probeReadiness_frame_witness :
  exists r after,
    probeReadiness unavailableClient (exampleEnvironment true) [notReadyPod]
      (exampleIntegration v1.IntegrationPhaseRunning "spec" [deploymentAvailable])
    = Done r after
    /\ GetCondition (v1.Integration.Status after) v1.IntegrationConditionDeploymentAvailable
       = Some deploymentAvailable
    /\ v1.IntegrationStatus.Phase (v1.Integration.Status after) = v1.IntegrationPhaseRunning.
Proof.
  pose proof (probeReadiness_frame unavailableClient (exampleEnvironment true) [notReadyPod]
                (exampleIntegration v1.IntegrationPhaseRunning "spec" [deploymentAvailable]))
    as Hframe.
  destruct (probeReadiness unavailableClient (exampleEnvironment true) [notReadyPod]
              (exampleIntegration v1.IntegrationPhaseRunning "spec" [deploymentAvailable]))
    as [|r after] eqn:Hrun; [discriminate|].
  destruct (Hframe r after eq_refl) as [Hrest Hother].
  exists r, after. split; [reflexivity|]. split.
  - rewrite Hother; [reflexivity|discriminate].
  - apply (f_equal (fun i => v1.IntegrationStatus.Phase (v1.Integration.Status i))) in Hrest.
    exact Hrest.
Defined.

Lemma probeReadiness_warming_up_witness :
  probeReadiness readyClient (exampleEnvironment true) [readyPod; notReadyPod] runningIntegration
  = Done (countReady [readyPod; notReadyPod], true, None) runningIntegration.
Proof.
  apply (probeReadiness_warming_up readyClient (exampleEnvironment true)
           [readyPod; notReadyPod] runningIntegration).
  intros pod Hin. apply elem_of_cons in Hin as [-> | Hin].
  - exists (readyIs corev1.ConditionTrue). split; [reflexivity|]. by left.
  - apply list_elem_of_singleton in Hin as ->.
    exists (readyIs corev1.ConditionFalse). split; [reflexivity|].
    right. exists exampleContainer. split; reflexivity.
Defined.

Lemma probeReadiness_probe_failed_witness :
  exists after condition,
    probeReadiness refusingClient (exampleEnvironment true) [notReadyPod] runningIntegration
    = Done (0%nat, false, None) after
    /\ GetCondition (v1.Integration.Status after) v1.IntegrationConditionReady = Some condition
    /\ v1.IntegrationCondition.Pods condition !! 0%nat
       = Some (v1.PodCondition.mk "p"
                 (corev1.PodCondition.mk corev1.PodReady corev1.ConditionFalse ""
                    "readiness probe failed for Pod ns/p: connection refused") []).
Proof.
  pose proof (probeReadiness_probe_failed refusingClient (exampleEnvironment true)
                [notReadyPod] runningIntegration 0 notReadyPod (readyIs corev1.ConditionFalse)
                exampleContainer httpProbe (corev1.HTTPGetAction.mk "/q/health/ready" 8080)
                "" (ErrOther "connection refused")) as Hfailed.
  destruct (probeReadiness refusingClient (exampleEnvironment true) [notReadyPod]
              runningIntegration) as [|[[n ok] e] after] eqn:Hrun; [discriminate|].
  vm_compute in Hrun. injection Hrun as <- <- <- <-.
  destruct (Hfailed 0%nat false _ eq_refl eq_refl ltac:(discriminate) eq_refl eq_refl eq_refl
              eq_refl eq_refl eq_refl eq_refl)
    as (_ & condition & Hget & _ & Hentry).
  eexists _, condition. split; [reflexivity|]. split; [exact Hget|exact Hentry].
Defined.

Lemma probeReadiness_panic_cause_witness :
  probeReadiness readyClient (exampleEnvironment true) [readyPod; podWithoutConditions]
    runningIntegration = Panic
  /\ exists pod,
       pod ∈ [readyPod; podWithoutConditions] /\ GetPodCondition pod corev1.PodReady = None.
Proof.
  split; [vm_compute; reflexivity|].
  apply (probeReadiness_panic_cause readyClient (exampleEnvironment true)
           [readyPod; podWithoutConditions] runningIntegration).
  vm_compute. reflexivity.
Defined.

(** ** Status predicates, kit reset and watched resources *)

Section DigestCheck.
Context `{Collaborators}.

(** X8: the two failure predicates never hold together:
    [isInInitializationFailed] holds only in the Error phase with a false
    ready condition, [isInIntegrationKitFailed] only outside the Error phase
    with a false kit-available condition. *)
Theorem failure_predicates_exclusive (status : v1.IntegrationStatus.t) :
  isInInitializationFailed status && isInIntegrationKitFailed status = false
  /\ (isInInitializationFailed status = true <->
      v1.IntegrationStatus.Phase status = v1.IntegrationPhaseError
      /\ exists cond,
           GetCondition status v1.IntegrationConditionReady = Some cond
           /\ v1.IntegrationCondition.Status cond = corev1.ConditionFalse
           /\ v1.IntegrationCondition.Reason cond
              = v1.IntegrationConditionInitializationFailedReason)
  /\ (isInIntegrationKitFailed status = true <->
      v1.IntegrationStatus.Phase status <> v1.IntegrationPhaseError
      /\ exists cond,
           GetCondition status v1.IntegrationConditionKitAvailable = Some cond
           /\ v1.IntegrationCondition.Status cond = corev1.ConditionFalse).
Proof.
  unfold isInInitializationFailed, isInIntegrationKitFailed.
  destruct (GetCondition status v1.IntegrationConditionReady) as [ready|];
    destruct (GetCondition status v1.IntegrationConditionKitAvailable) as [available|];
    repeat case_bool_decide; simpl; (split; [done|]); split; split;
      try done; try (by intros [? (? & ? & ?)]); try (by intros [? (? & ? & ? & ?)]);
      try (intros _; split; [done|]; by eexists);
      try (intros [? (c & [= <-] & ?)]; done);
      try (intros [? (c & [= <-] & ? & ?)]; done).
Qed.

(** One of the three annotations is set on the Integration and the kit does
    not carry the same value. *)
Definition annotationDiffers (integration : Integration) (kit : IntegrationKit) (key : string)
  : Prop :=
  getAnnotation (v1.Integration.Annotations integration) key <> ""
  /\ getAnnotation (v1.Integration.Annotations integration) key
     <> getAnnotation (v1.IntegrationKit.Annotations kit) key.

(** When the kit reference is reset: [isIntegrationKitResetRequired] is
    true exactly when there is a kit and the operator id, the integration
    profile or the integration profile namespace annotation is set on the
    Integration with a value the kit does not carry. *)
Lemma isIntegrationKitResetRequired_iff (integration : Integration)
    (kit : option IntegrationKit) :
  isIntegrationKitResetRequired integration kit = true
  <-> exists k,
        kit = Some k
        /\ (annotationDiffers integration k OperatorIDAnnotation
            \/ annotationDiffers integration k IntegrationProfileAnnotation
            \/ annotationDiffers integration k IntegrationProfileNamespaceAnnotation).
Proof.
  unfold isIntegrationKitResetRequired, annotationDiffers.
  destruct kit as [k|]; [|split; [done|by intros (k & [=] & _)]].
  repeat case_bool_decide; simpl; split; try done;
    try (intros _; exists k; split; [done|]; tauto);
    intros (k' & [= <-] & Hdiffers); tauto.
Qed.

#[global] Instance StorageType_eq_dec : EqDecision StorageType.
Proof. solve_decision. Defined.

(** The resource version looked up for a mount entry that parses to a
    resource of the wanted storage type. *)
Definition watchedVersion (client : Client) (integration : Integration)
    (wanted : StorageType) (kind : ResourceKind) (c : string) : option string :=
  match ParseConfig c with
  | Ok conf =>
      if decide (ConfigStorageType conf = wanted)
      then Some (LookupResourceVersion client kind (v1.Integration.Namespace integration)
                   (ConfigName conf))
      else None
  | Err _ => None
  end.

Lemma lookupMountedResource_fold client integration entries :
  forall secrets configmaps,
    fold_left (lookupMountedResource client integration) entries (secrets, configmaps)
    = (secrets ++ omap (watchedVersion client integration StorageTypeSecret KindSecret) entries,
       configmaps
       ++ omap (watchedVersion client integration StorageTypeConfigmap KindConfigMap) entries).
Proof.
  induction entries as [|c rest IH]; intros secrets configmaps.
  - simpl. by rewrite !app_nil_r.
  - cbn [fold_left].
    destruct (lookupMountedResource client integration (secrets, configmaps) c)
      as [secrets' configmaps'] eqn:Hstep.
    rewrite IH. unfold lookupMountedResource in Hstep. simpl. unfold watchedVersion.
    destruct (ParseConfig c) as [conf|err]; [|by injection Hstep as <- <-].
    destruct (ConfigStorageType conf); injection Hstep as <- <-;
      repeat case_decide; try done; by rewrite <- ?app_assoc.
Qed.

Lemma omap_exclusive_length {A B C} (f : A -> option B) (g : A -> option C) (l : list A) :
  (forall x, f x = None \/ g x = None) ->
  (length (omap f l) + length (omap g l) <= length l)%nat.
Proof.
  intros Hfg. induction l as [|x l IH]; [done|].
  change (omap f (x :: l)) with (match f x with Some y => y :: omap f l | None => omap f l end).
  change (omap g (x :: l)) with (match g x with Some y => y :: omap g l | None => omap g l end).
  destruct (Hfg x) as [-> | ->]; [destruct (g x)|destruct (f x)]; simpl; lia.
Qed.

(** Hot reload is switched on in the mount trait. *)
Definition hotReload (integration : Integration) : option v1.MountTrait.t :=
  match v1.Traits.Mount (v1.IntegrationSpec.Traits (v1.Integration.Spec integration)) with
  | Some mount => if default false (v1.MountTrait.HotReload mount) then Some mount else None
  | None => None
  end.

(** X9: the watched resource versions. Without a mount trait, or with hot
    reload unset or false, both lists are empty whatever the cluster holds.
    With hot reload on, the secrets are the versions of the mount entries
    (configs first, then resources) that parse to secrets, in that order, and
    likewise the config maps; entries that do not parse or have another
    storage type are skipped, so there are at most as many versions as
    entries. *)
Theorem watched_resource_versions (client : Client) (integration : Integration) :
  match hotReload integration with
  | None => getIntegrationSecretAndConfigmapResourceVersions client integration = ([], [])
  | Some mount =>
      let entries := v1.MountTrait.Configs mount ++ v1.MountTrait.Resources mount in
      getIntegrationSecretAndConfigmapResourceVersions client integration
      = (omap (watchedVersion client integration StorageTypeSecret KindSecret) entries,
         omap (watchedVersion client integration StorageTypeConfigmap KindConfigMap) entries)
      /\ (length (fst (getIntegrationSecretAndConfigmapResourceVersions client integration))
          + length (snd (getIntegrationSecretAndConfigmapResourceVersions client integration))
          <= length entries)%nat
  end.
Proof.
  unfold hotReload, getIntegrationSecretAndConfigmapResourceVersions.
  destruct (v1.Traits.Mount _) as [mount|]; [|done].
  destruct (default false (v1.MountTrait.HotReload mount)); [|done].
  rewrite lookupMountedResource_fold. simpl. split; [done|].
  apply omap_exclusive_length. intros c. unfold watchedVersion.
  destruct (ParseConfig c) as [conf|err]; [|by left].
  repeat case_decide; try (by left); try (by right). congruence.
Qed.

(** X10: the contract of the digest check. [checkDigestAndRebuild] returns a
    nil Integration only when it left the Integration as it was; it returns
    the Integration only without error, only when the computed digest differs
    from the stored one, and then the stored digest is the computed one and
    nothing outside the status has changed. *)
Theorem checkDigestAndRebuild_contract (client : Client) (kit : option IntegrationKit)
    (integration : Integration) :
  exists r e after,
    checkDigestAndRebuild client kit integration = Done (r, e) after
    /\ match r with
       | ReturnsNil => after = integration
       | ReturnsIntegration =>
           e = None
           /\ v1.IntegrationStatus.Digest (v1.Integration.Status after)
              <> v1.IntegrationStatus.Digest (v1.Integration.Status integration)
           /\ ComputeForIntegration integration
                (snd (getIntegrationSecretAndConfigmapResourceVersions client integration))
                (fst (getIntegrationSecretAndConfigmapResourceVersions client integration))
              = Ok (v1.IntegrationStatus.Digest (v1.Integration.Status after))
           /\ v1.Integration.setStatus (v1.Integration.Status integration) after = integration
       end.
Proof.
  unfold checkDigestAndRebuild, bind, read, update, ret.
  destruct (getIntegrationSecretAndConfigmapResourceVersions client integration)
    as [secrets configmaps]. simpl.
  destruct (ComputeForIntegration integration configmaps secrets) as [hash|err];
    [|by eexists _, _, _].
  case_bool_decide as Hdigest; simpl; [by eexists _, _, _|].
  destruct (isIntegrationKitResetRequired integration kit); simpl;
    eexists _, _, _; (split; [reflexivity|]); simpl;
    (split; [done|]); (split; [done|]); (split; [done|]); by destruct integration.
Qed.

End DigestCheck.

(** ** Controller resolution and the pass over the pods *)

Section ControllerAndPass.
Context `{Collaborators}.

Lemma find_Some_elem {A} (f : A -> bool) (l : list A) (x : A) :
  find f l = Some x -> x ∈ l /\ f x = true.
Proof. intros Hfind. apply find_some in Hfind as [Hin Hf]. by rewrite list_elem_of_In. Qed.

Lemma find_None_elem {A} (f : A -> bool) (l : list A) :
  find f l = None -> forall x, x ∈ l -> f x = false.
Proof. intros Hfind x Hin. apply (find_none f l Hfind). by rewrite <- list_elem_of_In. Qed.

(** The variant the switch of [newController] selects: the first of the
    three available conditions that is true. *)
Definition selectedVariant (integration : Integration) : option ObjectType :=
  if IsConditionTrue integration v1.IntegrationConditionDeploymentAvailable
  then Some TypeDeployment
  else if IsConditionTrue integration v1.IntegrationConditionKnativeServiceAvailable
  then Some TypeKnativeService
  else if IsConditionTrue integration v1.IntegrationConditionCronJobAvailable
  then Some TypeCronJob
  else None.

(** The controller that wraps an object, for the variants. *)
Definition wraps (client : Client) (object : Object) (c : controller) : Prop :=
  match object with
  | DeploymentObject deploy => c = deploymentController deploy
  | KnativeServiceObject svc => c = knativeServiceController svc
  | CronJobObject cj => c = cronJobController cj client
  | OtherObject _ => False
  end.

(** X11: how [newController] resolves. With none of the three available
    conditions true it fails as unsupported. Otherwise the variant is the
    first true one in the order Deployment, Knative Service, CronJob; the
    controller wraps an object of that type taken from the resources of the
    environment, and when the resources hold no object of that type the type
    assertion fails. The error of the final nil check is never returned. *)
Theorem newController_cases (client : Client) (environment : Environment)
    (integration : Integration) :
  match newController client environment integration with
  | Ok c =>
      exists variant object,
        selectedVariant integration = Some variant
        /\ object ∈ Resources environment
        /\ TypeOf object = variant
        /\ wraps client object c
  | Err e =>
      (selectedVariant integration = None
       /\ e = ErrUnsupportedController (v1.Integration.Name integration))
      \/ (exists variant kind,
            selectedVariant integration = Some variant
            /\ (forall object, object ∈ Resources environment -> TypeOf object <> variant)
            /\ e = ErrTypeAssertion kind)
  end.
Proof.
  unfold newController, selectedVariant, getUpdatedController, GetController.
  destruct (IsConditionTrue integration v1.IntegrationConditionDeploymentAvailable);
    [|destruct (IsConditionTrue integration v1.IntegrationConditionKnativeServiceAvailable);
      [|destruct (IsConditionTrue integration v1.IntegrationConditionCronJobAvailable);
        [|by left]]].
  all: match goal with
       | |- context [find ?f ?l] => destruct (find f l) as [object|] eqn:Hfind
       end.
  all: try (right; eexists _, _; split; [done|]; split; [|done];
            intros object Hin Htype;
            pose proof (find_None_elem _ _ Hfind object Hin) as Hno;
            apply bool_decide_eq_false_1 in Hno; congruence).
  all: apply find_Some_elem in Hfind as [Hin Htype];
       apply bool_decide_eq_true_1 in Htype;
       destruct object; try discriminate Htype;
       by eexists _, _.
Qed.

(** [probeReadiness] keeps the phase. *)
Lemma probeReadiness_phase client environment pods integration r after :
  probeReadiness client environment pods integration = Done r after ->
  v1.IntegrationStatus.Phase (v1.Integration.Status after)
  = v1.IntegrationStatus.Phase (v1.Integration.Status integration).
Proof.
  intros Hdone.
  destruct (probeReadiness_cases _ _ _ _ _ _ Hdone)
    as [(n & e & _ & _ & ->) | (st & Hloop & _)]; [done|].
  unfold probeReadiness in Hdone. simpl in Hdone.
  unfold initialProbeState in Hloop. rewrite Hloop in Hdone.
  unfold bind, update, ret in Hdone.
  by destruct (runtimeFailed st), (runtimeReady st); simpl in Hdone; injection Hdone as _ <-.
Qed.

(** The scan of the pod statuses either finds nothing and changes nothing,
    or marks the Integration with the message of an offending status. *)
Lemma arePodsFailingStatuses_outcome integration pendingPods runningPods :
  (arePodsFailingStatuses integration pendingPods runningPods = (false, integration)
   /\ forall message, ~ failingStatus pendingPods runningPods message)
  \/ (exists message,
        failingStatus pendingPods runningPods message
        /\ arePodsFailingStatuses integration pendingPods runningPods
           = (true, markFailing message integration)).
Proof.
  unfold arePodsFailingStatuses.
  destruct (checkScheduled_spec integration pendingPods)
    as [[-> Hscheduled] | (pod & message & Hin & Hun & ->)];
    [|right; exists message; split; [left; eauto|done]].
  destruct (checkPendingContainers_spec integration pendingPods)
    as [[-> Hpending] | (pod & c & message & Hin & Hc & Hw & ->)];
    [|right; exists message; split; [right; left; eauto|done]].
  destruct (checkRunningContainers_spec integration runningPods)
    as [[-> Hrunning] | (pod & c & message & Hin & Hd & Hc & Hw & ->)];
    [|right; exists message; split; [right; right; by exists pod, c|done]].
  left. split; [done|].
  intros message [(pod & Hin & Hun) | [(pod & c & Hin & Hc & Hw) | (pod & c & Hin & Hd & Hc & Hw)]].
  - by apply (Hscheduled pod message).
  - by apply (Hpending pod c message).
  - by apply (Hrunning pod c message).
Qed.

(** [probeReadiness] writes nothing but the list of conditions, and of the
    conditions only the ready one. *)
Lemma probeReadiness_writes_ready_condition client environment pods integration r after :
  probeReadiness client environment pods integration = Done r after ->
  v1.Integration.setStatus
    (v1.IntegrationStatus.setConditionList
       (v1.IntegrationStatus.Conditions (v1.Integration.Status integration))
       (v1.Integration.Status after)) after
  = integration
  /\ (forall condType,
        condType <> v1.IntegrationConditionReady ->
        GetCondition (v1.Integration.Status after) condType
        = GetCondition (v1.Integration.Status integration) condType).
Proof.
  intros Hdone.
  destruct (probeReadiness_cases _ _ _ _ _ _ Hdone)
    as [(n & e & _ & _ & ->) | (st & Hloop & _)].
  { split; [|done]. by destruct integration as [? ? ? ? []]. }
  unfold probeReadiness in Hdone. simpl in Hdone.
  unfold initialProbeState in Hloop. rewrite Hloop in Hdone.
  unfold bind, update, ret in Hdone.
  destruct (runtimeFailed st), (runtimeReady st); simpl in Hdone;
    injection Hdone as _ <-;
    (split; [by destruct integration as [? ? ? ? []]|]);
    intros condType Hne; unfold v1.Integration.mapStatus, v1.Integration.setStatus;
    cbn [v1.Integration.Status];
    rewrite ?GetCondition_SetConditions_ne by done; done.
Qed.

(** X12: the readiness reconciliation, when the controller ends it early. If
    [checkReadyCondition] reports done or an error, the running pods are
    still probed, for their details only: the reconciliation panics when the
    probe panics, and otherwise returns the controller's error (or none)
    whatever count, verdict and error the probe returns, with the Integration
    as the probe leaves it. So the phase is the one the controller left, and
    of what the controller left only the ready condition can have changed.
    The pending pods and the scan of the pod statuses play no part. *)
Theorem reconciliation_ended_by_controller client controller environment pendingPods
    runningPods integration done err checked :
  checkReadyCondition controller integration = ((done, err), checked) ->
  done = true \/ err <> None ->
  updateIntegrationPhaseAndReadyCondition client controller environment pendingPods
    runningPods integration
  = match probeReadiness client environment runningPods checked with
    | Panic => Panic
    | Done _ probed => Done err probed
    end
  /\ forall result after,
       updateIntegrationPhaseAndReadyCondition client controller environment pendingPods
         runningPods integration = Done result after ->
       result = err
       /\ v1.IntegrationStatus.Phase (v1.Integration.Status after)
          = v1.IntegrationStatus.Phase (v1.Integration.Status checked)
       /\ v1.Integration.setStatus
            (v1.IntegrationStatus.setConditionList
               (v1.IntegrationStatus.Conditions (v1.Integration.Status checked))
               (v1.Integration.Status after)) after
          = checked
       /\ (forall condType,
             condType <> v1.IntegrationConditionReady ->
             GetCondition (v1.Integration.Status after) condType
             = GetCondition (v1.Integration.Status checked) condType).
Proof.
  intros Hcheck Hended. unfold updateIntegrationPhaseAndReadyCondition, bind, lift.
  rewrite Hcheck.
  assert (Hcond : done || bool_decide (err <> None) = true).
  { destruct Hended as [-> | Herr]; [done|]. rewrite (bool_decide_eq_true_2 _ Herr).
    apply orb_true_r. }
  rewrite Hcond.
  destruct (probeReadiness client environment runningPods checked) as [|r probed] eqn:Hprobe;
    [done|].
  split; [done|]. intros result after [= <- <-]. split; [done|].
  split; [by apply probeReadiness_phase in Hprobe|].
  by apply probeReadiness_writes_ready_condition in Hprobe.
Qed.

(** X13: the readiness reconciliation over failing pods. If the controller
    does not end the reconciliation early and a pod is in a fatal state, the
    reconciliation returns no error without probing, the phase is Error and
    the ready condition is false with the error reason and the message of an
    offending status. *)
Theorem reconciliation_of_failing_pods client controller environment pendingPods
    runningPods integration checked message :
  checkReadyCondition controller integration = ((false, None), checked) ->
  failingStatus pendingPods runningPods message ->
  exists offending after,
    failingStatus pendingPods runningPods offending
    /\ updateIntegrationPhaseAndReadyCondition client controller environment pendingPods
         runningPods integration = Done None after
    /\ after = markFailing offending checked
    /\ v1.IntegrationStatus.Phase (v1.Integration.Status after) = v1.IntegrationPhaseError
    /\ GetCondition (v1.Integration.Status after) v1.IntegrationConditionReady
       = Some (v1.IntegrationCondition.mk v1.IntegrationConditionReady corev1.ConditionFalse
                 v1.IntegrationConditionErrorReason offending []).
Proof.
  intros Hcheck Hfailing. unfold updateIntegrationPhaseAndReadyCondition, bind, lift.
  rewrite Hcheck. simpl.
  destruct (arePodsFailingStatuses_outcome checked pendingPods runningPods)
    as [[_ Hnone] | (offending & Hoffending & ->)]; [by apply Hnone in Hfailing|].
  exists offending, (markFailing offending checked).
  destruct (markFailing_marked offending checked) as (_ & Hphase & Hcondition).
  by repeat split.
Qed.

(** The readiness reconciliation after the probe: if the controller does
    not end the reconciliation early and no pod is in a fatal state, then an
    error of the probe is returned as it is; a failed probe sets the phase
    Error; and after a successful probe the controller is given the number of
    ready pods and the phase becomes Running when it reports done. *)
Lemma reconciliation_after_probe client controller environment pendingPods
    runningPods integration checked n ok e probed :
  checkReadyCondition controller integration = ((false, None), checked) ->
  (forall message, ~ failingStatus pendingPods runningPods message) ->
  probeReadiness client environment runningPods checked = Done (n, ok, e) probed ->
  updateIntegrationPhaseAndReadyCondition client controller environment pendingPods
    runningPods integration
  = match e with
    | Some err => Done (Some err) probed
    | None =>
        if ok then
          let '(done, updated) := updateReadyCondition controller n probed in
          Done None (if done then setPhase v1.IntegrationPhaseRunning updated else updated)
        else Done None (setPhase v1.IntegrationPhaseError probed)
    end.
Proof.
  intros Hcheck Hhealthy Hprobe. unfold updateIntegrationPhaseAndReadyCondition, bind, lift.
  rewrite Hcheck. simpl.
  destruct (arePodsFailingStatuses_outcome checked pendingPods runningPods)
    as [[-> _] | (offending & Hoffending & _)]; [|by apply Hhealthy in Hoffending].
  rewrite Hprobe. destruct e as [err|]; [done|]. destruct ok; simpl; [|done].
  by destruct (updateReadyCondition controller n probed) as [[] updated].
Qed.

Lemma int32_small (n : Z) : - 2 ^ 31 <= n < 2 ^ 31 -> int32 n = n.
Proof. intros Hn. unfold int32. rewrite Z.mod_small; lia. Qed.

Lemma countNonTerminating_filter (runningPods : list Pod) :
  countNonTerminating runningPods
  = Z.of_nat (length (filter (fun pod => corev1.Pod.DeletionTimestamp pod = None) runningPods)).
Proof.
  induction runningPods as [|pod rest IH]; [done|].
  rewrite filter_cons. simpl. destruct (corev1.Pod.DeletionTimestamp pod).
  - by rewrite decide_False.
  - rewrite decide_True by done. simpl length. lia.
Qed.

(** X14: the pod census. When [monitorPods] has resolved a labelled controller
    and listed the pods, the readiness reconciliation starts from the
    Integration with the selector [camel.apache.org/integration=<name>], with
    the replicas set to the number of pending pods plus the running pods that
    are not being deleted (as long as that fits 32 bits), with the phase
    Running instead of Deploying and any other phase kept, and with
    everything else as before; [monitorPods] returns the Integration if the
    reconciliation returns no error, and nil with the error otherwise. *)
Theorem monitorPods_census client environment integration controller pendingPods runningPods :
  newController client environment integration = Ok controller ->
  hasTemplateIntegrationLabel controller = true ->
  ListPods client (v1.Integration.Namespace integration) (v1.Integration.Name integration)
    corev1.PodPending = Ok pendingPods ->
  ListPods client (v1.Integration.Namespace integration) (v1.Integration.Name integration)
    corev1.PodRunning = Ok runningPods ->
  let started := startedMonitoring integration pendingPods runningPods in
  let census :=
    (length pendingPods
     + length (filter (fun pod => corev1.Pod.DeletionTimestamp pod = None) runningPods))%nat in
  monitorPods client environment integration
  = afterReconciliation
      (updateIntegrationPhaseAndReadyCondition client controller environment
         pendingPods runningPods started)
  /\ v1.IntegrationStatus.Selector (v1.Integration.Status started)
     = "camel.apache.org/integration=" +:+ v1.Integration.Name integration
  /\ (Z.of_nat census < 2 ^ 31 ->
      v1.IntegrationStatus.Replicas (v1.Integration.Status started) = Some (Z.of_nat census))
  /\ v1.IntegrationStatus.Phase (v1.Integration.Status started)
     = (if bool_decide (v1.IntegrationStatus.Phase (v1.Integration.Status integration)
                        = v1.IntegrationPhaseDeploying)
        then v1.IntegrationPhaseRunning
        else v1.IntegrationStatus.Phase (v1.Integration.Status integration))
  /\ v1.IntegrationStatus.Conditions (v1.Integration.Status started)
     = v1.IntegrationStatus.Conditions (v1.Integration.Status integration)
  /\ v1.IntegrationStatus.Digest (v1.Integration.Status started)
     = v1.IntegrationStatus.Digest (v1.Integration.Status integration)
  /\ v1.IntegrationStatus.IntegrationKit (v1.Integration.Status started)
     = v1.IntegrationStatus.IntegrationKit (v1.Integration.Status integration)
  /\ v1.Integration.setStatus (v1.Integration.Status integration) started = integration.
Proof.
  intros Hcontroller Hlabel Hpending Hrunning started census.
  split; [by apply monitorPods_reconciles|].
  subst started census. unfold startedMonitoring. simpl.
  rewrite countNonTerminating_filter.
  destruct integration as [name namespace annotations spec
                             [phase digest replicas selector conditions kit]].
  simpl. case_bool_decide; simpl; repeat split; try done;
    intros Hfits; rewrite int32_small by lia; f_equal; lia.
Qed.

(** The digest check returns nil with the Integration as it was, or the
    Integration without error. *)
Lemma checkDigestAndRebuild_returns client kit integration r e after :
  checkDigestAndRebuild client kit integration = Done (r, e) after ->
  (r = ReturnsNil /\ after = integration) \/ (r = ReturnsIntegration /\ e = None).
Proof.
  unfold checkDigestAndRebuild, bind, read, update, ret.
  destruct (getIntegrationSecretAndConfigmapResourceVersions client integration)
    as [secrets configmaps].
  destruct (ComputeForIntegration integration configmaps secrets) as [hash|err];
    [|intros [= <- <- <-]; by left].
  case_bool_decide; simpl; [intros [= <- <- <-]; by left|].
  destruct (isIntegrationKitResetRequired integration kit); intros [= <- <- <-]; by right.
Qed.

Lemma checkDigestAndRebuild_no_panic client kit integration :
  checkDigestAndRebuild client kit integration <> Panic.
Proof.
  unfold checkDigestAndRebuild, bind, read, update, ret.
  destruct (getIntegrationSecretAndConfigmapResourceVersions client integration)
    as [secrets configmaps].
  destruct (ComputeForIntegration integration configmaps secrets) as [hash|err]; [|done].
  case_bool_decide; simpl; [done|].
  by destruct (isIntegrationKitResetRequired integration kit).
Qed.

(** [monitorPods] returns the Integration without error, or nil with an
    error. *)
Lemma monitorPods_returns client environment integration r e after :
  monitorPods client environment integration = Done (r, e) after ->
  (r = ReturnsIntegration /\ e = None) \/ (r = ReturnsNil /\ e <> None).
Proof.
  unfold monitorPods, bind, read, update, ret.
  destruct (newController client environment integration) as [controller|err];
    [|intros [= <- <- <-]; by right].
  destruct (hasTemplateIntegrationLabel controller); simpl;
    [|intros [= <- <- <-]; by left].
  destruct (ListPods _ _ _ corev1.PodPending) as [pendingPods|err];
    [|intros [= <- <- <-]; by right].
  destruct (ListPods _ _ _ corev1.PodRunning) as [runningPods|err];
    [|intros [= <- <- <-]; by right].
  case_bool_decide; simpl;
    (destruct (updateIntegrationPhaseAndReadyCondition _ _ _ _ _ _) as [|[err|] reconciled];
     [done|intros [= <- <- <-]; by right|intros [= <- <- <-]; by left]).
Qed.

(** X15: the result of [monitorPods]. It returns the Integration exactly when
    it returns no error: a nil Integration always comes with an error, an
    Integration never does. *)
Theorem monitorPods_result client environment integration r e after :
  monitorPods client environment integration = Done (r, e) after ->
  (r = ReturnsIntegration <-> e = None).
Proof.
  intros Hpass. apply monitorPods_returns in Hpass as [[-> ->] | [-> He]]; [done|].
  split; [done|]. intros ->. done.
Qed.

(** The Integration after a failed trait pipeline. *)
Definition initializationFailed (err : error) (integration : Integration) : Integration :=
  SetReadyCondition corev1.ConditionFalse v1.IntegrationConditionInitializationFailedReason
    (Error err) (setPhase v1.IntegrationPhaseError integration).

(** The ways [Handle] returns: nil and no error with the Integration as it
    was; nil and an error; the Integration and no error; or the Integration
    marked as failed in its initialization, with the error of the trait
    pipeline. *)
Lemma Handle_returns client integration r e after :
  Handle client integration = Done (r, e) after ->
  (r = ReturnsNil /\ e = None /\ after = integration)
  \/ (r = ReturnsNil /\ e <> None)
  \/ (r = ReturnsIntegration /\ e = None)
  \/ (exists err before,
        r = ReturnsIntegration /\ e = Some err /\ after = initializationFailed err before).
Proof.
  unfold Handle, bind, read.
  destruct (isInInitializationFailed (v1.Integration.Status integration)).
  { intros Hdigest. apply checkDigestAndRebuild_returns in Hdigest as [[-> ->] | [-> ->]].
    - destruct e; [right; by left|by left].
    - right. right. by left. }
  destruct (v1.IntegrationStatus.IntegrationKit (v1.Integration.Status integration))
    as [ref|]; [|intros [= <- <- <-]; right; by left].
  destruct (GetIntegrationKit client _ _) as [kit|err];
    [|intros [= <- <- <-]; right; by left].
  destruct (isInIntegrationKitFailed _ && _); [intros [= <- <- <-]; by left|].
  destruct (checkDigestAndRebuild client (Some kit) integration)
    as [|[changed err] checked] eqn:Hdigest; [done|].
  apply checkDigestAndRebuild_returns in Hdigest as [[-> ->] | [-> ->]];
    [|intros [= <- <- <-]; right; right; by left].
  destruct err as [err|]; [intros [= <- <- <-]; right; by left|].
  destruct (NewRequirement _ _ _) as [requirement|err];
    [|intros [= <- <- <-]; right; by left].
  destruct (lookupKitsForIntegration client integration requirement) as [kits|err];
    [|intros [= <- <- <-]; right; by left].
  destruct (findHighestPriorityReadyKit kits) as [selected [err|]];
    [intros [= <- <- <-]; right; by left|].
  unfold update, ret.
  destruct selected as [k|]; simpl;
    (destruct (Apply client _ kit) as [environment|err];
     [intros Hpass; apply monitorPods_returns in Hpass as [[-> ->] | [-> He]];
      [right; right; by left|right; by left]
     |intros [= <- <- <-]; right; right; right; by eexists err, _]).
Qed.

(** X16: no change. When [Handle] returns a nil Integration and no error, the
    Integration is as it was before the call. *)
Theorem Handle_no_change client integration after :
  Handle client integration = Done (ReturnsNil, None) after ->
  after = integration.
Proof.
  intros Hpass.
  apply Handle_returns in Hpass
    as [(_ & _ & ->) | [(_ & He) | [([=] & _) | (err & before & [=] & _)]]]; done.
Qed.

Lemma initializationFailed_status err integration :
  v1.IntegrationStatus.Phase (v1.Integration.Status (initializationFailed err integration))
  = v1.IntegrationPhaseError
  /\ GetCondition (v1.Integration.Status (initializationFailed err integration))
       v1.IntegrationConditionReady
     = Some (v1.IntegrationCondition.mk v1.IntegrationConditionReady corev1.ConditionFalse
               v1.IntegrationConditionInitializationFailedReason (Error err) []).
Proof.
  split; [done|].
  apply (GetCondition_SetConditions
           (v1.IntegrationCondition.mk v1.IntegrationConditionReady corev1.ConditionFalse
              v1.IntegrationConditionInitializationFailedReason (Error err) [])).
Qed.

(** X17: a failed trait pipeline. [Handle] returns both the Integration and an
    error only when the trait pipeline failed: the phase is then Error, the
    ready condition is false with the initialization-failed reason and the
    text of the error, and a following [Handle] on that Integration does
    nothing but the digest check, without resolving a kit. *)
Theorem Handle_pipeline_failure client integration err after :
  Handle client integration = Done (ReturnsIntegration, Some err) after ->
  v1.IntegrationStatus.Phase (v1.Integration.Status after) = v1.IntegrationPhaseError
  /\ GetCondition (v1.Integration.Status after) v1.IntegrationConditionReady
     = Some (v1.IntegrationCondition.mk v1.IntegrationConditionReady corev1.ConditionFalse
               v1.IntegrationConditionInitializationFailedReason (Error err) [])
  /\ isInInitializationFailed (v1.Integration.Status after) = true
  /\ forall next, Handle next after = checkDigestAndRebuild next None after.
Proof.
  intros Hpass.
  apply Handle_returns in Hpass
    as [([=] & _) | [([=] & _) | [(_ & [=]) | (err' & before & _ & [= <-] & ->)]]].
  destruct (initializationFailed_status err before) as [Hphase Hcondition].
  assert (Hfailed : isInInitializationFailed
                      (v1.Integration.Status (initializationFailed err before)) = true).
  { unfold isInInitializationFailed. rewrite Hphase, Hcondition.
    by rewrite !bool_decide_eq_true_2. }
  split; [done|]. split; [done|]. split; [done|].
  intros next. unfold Handle, bind, read. by rewrite Hfailed.
Qed.

(** X18: no usable kit. For an Integration that is not in a failed
    initialization, [Handle] fails without touching the Integration when no
    kit is set on it, and when the kit it refers to cannot be fetched; the
    latter error wraps the cause, so a deadline exceeded is still recognised
    in it. *)
Theorem Handle_without_kit client integration :
  isInInitializationFailed (v1.Integration.Status integration) = false ->
  match v1.IntegrationStatus.IntegrationKit (v1.Integration.Status integration) with
  | None =>
      Handle client integration
      = Done (ReturnsNil, Some (ErrNoKitSet (v1.Integration.Name integration))) integration
  | Some ref =>
      forall cause,
        GetIntegrationKit client (v1.ObjectReference.Name ref) (v1.ObjectReference.Namespace ref)
        = Err cause ->
        exists err,
          Handle client integration = Done (ReturnsNil, Some err) integration
          /\ isDeadlineExceeded err = isDeadlineExceeded cause
          /\ Error err
             = "unable to find integration kit " +:+ v1.ObjectReference.Namespace ref +:+ "/"
               +:+ v1.ObjectReference.Name ref +:+ ": " +:+ Error cause
  end.
Proof.
  intros Hfailed. unfold Handle, bind, read. rewrite Hfailed.
  destruct (v1.IntegrationStatus.IntegrationKit (v1.Integration.Status integration))
    as [ref|]; [|done].
  intros cause ->. by eexists.
Qed.

End ControllerAndPass.

(** A controller whose ready check settles the condition by itself. *)
Definition finishedController : controller :=
  mkController (fun i => ((true, None), i)) (corev1.PodSpec.mk [])
    (fun ready i => (false, i)) true "CronJob".

(** A pending pod whose container cannot pull its image. *)
Definition imagePullPod : Pod :=
  examplePod "q" [] [waitingStatus "ImagePullBackOff" "Back-off pulling image"].

(** A running integration whose kit is not available. *)
Definition kitFailedRunning : Integration :=
  exampleIntegration v1.IntegrationPhaseRunning "stale" [kitUnavailable].

(** A running integration without a kit. *)
Definition kitlessIntegration : Integration :=
  v1.Integration.mk "it" "ns" ∅
    (v1.IntegrationSpec.mk (v1.Traits.mk None) "spec")
    (v1.IntegrationStatus.mk v1.IntegrationPhaseRunning "spec" None "" [] None).

(** The kit of every lookup is missing. *)
Definition kitMissingClient : Client :=
  exampleClient (Err (ErrOther "not found")) [] [] ("", None).

(** The collaborators of the examples, with a trait pipeline that fails. *)
Definition failingCollaborators : Collaborators := {|
  ComputeForIntegration := ComputeForIntegration (Collaborators := exampleCollaborators);
  ParseConfig := ParseConfig (Collaborators := exampleCollaborators);
  NewHealthCheck := NewHealthCheck (Collaborators := exampleCollaborators);
  Apply _ _ _ := Err (ErrOther "trait failure")
|}.

(** The controller reports done while a pending pod cannot pull its image
    and the running pod answers its probe with a DOWN report: the probe is
    run and rewrites the ready condition, the phase stays Running and no
    error is returned. With a running pod that has no condition, the
    reconciliation panics as the probe does. *)
Lemma reconciliation_ended_by_controller_witness :
  (exists after,
     updateIntegrationPhaseAndReadyCondition unavailableClient finishedController
       (exampleEnvironment true) [imagePullPod] [notReadyPod] runningIntegration
     = Done None after
     /\ v1.IntegrationStatus.Phase (v1.Integration.Status after) = v1.IntegrationPhaseRunning
     /\ GetCondition (v1.Integration.Status after) v1.IntegrationConditionReady
        = Some (v1.IntegrationCondition.mk v1.IntegrationConditionReady corev1.ConditionFalse
                  v1.IntegrationConditionRuntimeNotReadyReason "1/1 pods are not ready"
                  [v1.PodCondition.mk "p" (readyIs corev1.ConditionFalse) [downCheck]])
     /\ after <> runningIntegration)
  /\ updateIntegrationPhaseAndReadyCondition readyClient finishedController
       (exampleEnvironment true) [imagePullPod] [podWithoutConditions] runningIntegration
     = Panic.
Proof.
  split.
  - destruct (reconciliation_ended_by_controller unavailableClient finishedController
                (exampleEnvironment true) [imagePullPod] [notReadyPod] runningIntegration
                true None runningIntegration eq_refl (or_introl eq_refl))
      as [Hrun Hframe].
    destruct (probeReadiness unavailableClient (exampleEnvironment true) [notReadyPod]
                runningIntegration) as [|r probed] eqn:Hprobe; [discriminate|].
    vm_compute in Hprobe. injection Hprobe as _ <-.
    eexists. split; [exact Hrun|].
    destruct (Hframe _ _ Hrun) as (_ & Hphase & _).
    split; [exact Hphase|]. split; [reflexivity|discriminate].
  - destruct (reconciliation_ended_by_controller readyClient finishedController
                (exampleEnvironment true) [imagePullPod] [podWithoutConditions]
                runningIntegration true None runningIntegration eq_refl (or_introl eq_refl))
      as [Hrun _].
    rewrite Hrun. vm_compute. reflexivity.
Defined.

Lemma reconciliation_of_failing_pods_witness :
  exists after,
    updateIntegrationPhaseAndReadyCondition readyClient (exampleController true "Deployment")
      (exampleEnvironment true) [imagePullPod] [readyPod] runningIntegration
    = Done None after
    /\ v1.IntegrationStatus.Phase (v1.Integration.Status after) = v1.IntegrationPhaseError.
Proof.
  destruct (reconciliation_of_failing_pods readyClient (exampleController true "Deployment")
              (exampleEnvironment true) [imagePullPod] [readyPod] runningIntegration
              runningIntegration "Back-off pulling image" eq_refl)
    as (offending & after & _ & Hrun & _ & Hphase & _).
  - right. left.
    exists imagePullPod, (waitingStatus "ImagePullBackOff" "Back-off pulling image").
    split; [apply list_elem_of_here|]. split; [apply list_elem_of_here|].
    eexists. repeat split; reflexivity.
  - exists after. split; [exact Hrun|exact Hphase].
Defined.

Lemma monitorPods_census_witness :
  v1.IntegrationStatus.Replicas
    (v1.Integration.Status (startedMonitoring deployingIntegration [] [readyPod]))
  = Some 1
  /\ v1.IntegrationStatus.Selector
       (v1.Integration.Status (startedMonitoring deployingIntegration [] [readyPod]))
     = "camel.apache.org/integration=it".
Proof.
  destruct (monitorPods_census readyClient (exampleEnvironment true) deployingIntegration
              (exampleController true "Deployment") [] [readyPod]
              eq_refl eq_refl eq_refl eq_refl)
    as (_ & Hselector & Hreplicas & _).
  split; [|exact Hselector]. apply Hreplicas. reflexivity.
Defined.

Lemma monitorPods_result_witness :
  exists after,
    monitorPods readyClient (exampleEnvironment true) deployingIntegration
    = Done (ReturnsIntegration, None) after
    /\ (ReturnsIntegration = ReturnsIntegration <-> @None error = None).
Proof.
  pose proof (monitorPods_result readyClient (exampleEnvironment true) deployingIntegration
                ReturnsIntegration None) as Hresult.
  destruct (monitorPods readyClient (exampleEnvironment true) deployingIntegration)
    as [|[r e] after] eqn:Hrun; [discriminate|].
  vm_compute in Hrun. injection Hrun as <- <- <-.
  eexists. split; [reflexivity|]. exact (Hresult _ eq_refl).
Defined.

Lemma Handle_no_change_witness :
  Handle readyClient kitFailedRunning = Done (ReturnsNil, None) kitFailedRunning.
Proof.
  pose proof (Handle_no_change readyClient kitFailedRunning) as Hsame.
  destruct (Handle readyClient kitFailedRunning) as [|[r e] after] eqn:Hrun; [discriminate|].
  vm_compute in Hrun. injection Hrun as <- <- Hafter.
  rewrite (Hsame after eq_refl). reflexivity.
Defined.

Lemma Handle_pipeline_failure_witness :
  exists after,
    @Handle _ failingCollaborators readyClient runningIntegration
    = Done (ReturnsIntegration, Some (ErrOther "trait failure")) after
    /\ v1.IntegrationStatus.Phase (v1.Integration.Status after) = v1.IntegrationPhaseError
    /\ isInInitializationFailed (v1.Integration.Status after) = true.
Proof.
  pose proof (@Handle_pipeline_failure _ failingCollaborators readyClient
                runningIntegration (ErrOther "trait failure")) as Hfailure.
  destruct (@Handle _ failingCollaborators readyClient runningIntegration)
    as [|[r e] after] eqn:Hrun; [discriminate|].
  vm_compute in Hrun. injection Hrun as <- <- <-.
  destruct (Hfailure _ eq_refl) as (Hphase & _ & Hinit & _).
  eexists. split; [reflexivity|]. split; [exact Hphase|exact Hinit].
Defined.

Lemma Handle_without_kit_witness :
  Handle readyClient kitlessIntegration
  = Done (ReturnsNil, Some (ErrNoKitSet "it")) kitlessIntegration
  /\ exists err,
       Handle kitMissingClient runningIntegration = Done (ReturnsNil, Some err) runningIntegration
       /\ Error err = "unable to find integration kit ns/kit: not found".
Proof.
  split.
  - exact (Handle_without_kit readyClient kitlessIntegration eq_refl).
  - destruct (Handle_without_kit kitMissingClient runningIntegration eq_refl
                (ErrOther "not found") eq_refl) as (err & Hrun & _ & Hmessage).
    exists err. split; [exact Hrun|exact Hmessage].
Defined.

(** ** Order of the scans *)

Section ScanOrder.

Lemma checkScheduled_app integration before rest :
  checkScheduled integration (before ++ rest)
  = match checkScheduled integration before with
    | Some failing => Some failing
    | None => checkScheduled integration rest
    end.
Proof.
  induction before as [|pod before IH]; simpl; [done|].
  destruct (GetPodCondition pod corev1.PodScheduled) as [scheduled|]; [|done].
  by destruct (_ && _).
Qed.

(** X19: the scheduler's message comes first. When a pending pod is
    unschedulable, [arePodsFailingStatuses] returns true with the message of
    the first unschedulable pending pod, whatever the containers of the
    pending and running pods report. *)
Theorem arePodsFailingStatuses_first_unschedulable integration before pod rest runningPods
    message :
  (forall earlier text, earlier ∈ before -> ~ unschedulable earlier text) ->
  unschedulable pod message ->
  arePodsFailingStatuses integration (before ++ pod :: rest) runningPods
  = (true, markFailing message integration).
Proof.
  intros Hbefore (scheduled & Hget & Hstatus & Hreason & Hmessage).
  unfold arePodsFailingStatuses. rewrite checkScheduled_app.
  destruct (checkScheduled_spec integration before)
    as [[-> _] | (earlier & text & Hin & Hun & _)]; [|by apply Hbefore in Hun].
  simpl. rewrite Hget, Hstatus, Hreason, Hmessage.
  by rewrite !bool_decide_eq_true_2.
Qed.

(** X20: what the scan touches. [arePodsFailingStatuses] returns false with
    the Integration as it was, or true with the phase Error; in both cases
    digest, replicas, selector, kit reference, the conditions other than the
    ready condition and everything outside the status are as before. *)
Theorem arePodsFailingStatuses_frame integration pendingPods runningPods :
  let result := arePodsFailingStatuses integration pendingPods runningPods in
  (if fst result
   then v1.IntegrationStatus.Phase (v1.Integration.Status (snd result))
        = v1.IntegrationPhaseError
   else snd result = integration)
  /\ v1.Integration.setStatus
       (v1.IntegrationStatus.setPhase
          (v1.IntegrationStatus.Phase (v1.Integration.Status integration))
          (v1.IntegrationStatus.setConditionList
             (v1.IntegrationStatus.Conditions (v1.Integration.Status integration))
             (v1.Integration.Status (snd result))))
       (snd result)
     = integration
  /\ (forall condType,
        condType <> v1.IntegrationConditionReady ->
        GetCondition (v1.Integration.Status (snd result)) condType
        = GetCondition (v1.Integration.Status integration) condType).
Proof.
  intros result. subst result.
  destruct (arePodsFailingStatuses_outcome integration pendingPods runningPods)
    as [[-> _] | (message & _ & ->)]; simpl.
  - split; [done|]. split; [by destruct integration as [? ? ? ? []]|done].
  - split; [done|]. split; [by destruct integration as [? ? ? ? []]|].
    intros condType Hne.
    unfold markFailing, SetReadyConditionError, SetReadyCondition, setPhase,
      v1.Integration.mapStatus, v1.Integration.setStatus.
    cbn [v1.Integration.Status].
    by rewrite GetCondition_SetConditions_ne.
Qed.

(** The selection of the loop on lists with parsable ready labels, by the
    greatest ready priority above 0. *)
Lemma findHighestPriorityReadyKit_greatest kits :
  (forall k, k ∈ kits -> isReadyKit k -> exists p, priorityOf k = Ok p) ->
  (findHighestPriorityReadyKit kits = (None, None)
   /\ readyPriorities (fun p => p <= 0) kits)
  \/ (exists k p,
        findHighestPriorityReadyKit kits = (Some k, None)
        /\ k ∈ kits /\ isReadyKit k /\ priorityOf k = Ok p /\ 0 < p
        /\ readyPriorities (fun p' => p' <= p) kits).
Proof.
  intros Hparse. rewrite findHighestPriorityReadyKit_loop.
  destruct (findHighestPriorityLoop_greatest kits None 0 Hparse)
    as [Hnone | (before & k & after & p & -> & Hloop & Hready & Hp & Hlt & Hbefore & Hafter)];
    [by left|].
  right. exists k, p. split; [done|].
  split; [apply elem_of_app; right; apply list_elem_of_here|]. repeat (split; [done|]).
  intros k' p' Hin Hready' Hp'.
  apply elem_of_app in Hin as [Hin | Hin].
  - specialize (Hbefore k' p' Hin Hready' Hp'). simpl in Hbefore. lia.
  - apply elem_of_cons in Hin as [-> | Hin]; [|by apply (Hafter k' p')].
    rewrite Hp in Hp'. injection Hp' as <-. lia.
Qed.

(** X21: the selected priority does not depend on the order of the
    candidates. On two lists with the same candidates in any order, whose
    ready candidates have parsable labels, [findHighestPriorityReadyKit]
    returns no error, selects a kit on both or on neither, and the two
    selected kits have the same priority. *)
Theorem findHighestPriorityReadyKit_order_independent (kits1 kits2 : list IntegrationKit) :
  kits1 ≡ₚ kits2 ->
  (forall k, k ∈ kits1 -> isReadyKit k -> exists p, priorityOf k = Ok p) ->
  snd (findHighestPriorityReadyKit kits1) = None
  /\ snd (findHighestPriorityReadyKit kits2) = None
  /\ match fst (findHighestPriorityReadyKit kits1), fst (findHighestPriorityReadyKit kits2) with
     | Some k1, Some k2 => priorityOf k1 = priorityOf k2
     | None, None => True
     | _, _ => False
     end.
Proof.
  intros Hperm Hparse1.
  assert (Hparse2 : forall k, k ∈ kits2 -> isReadyKit k -> exists p, priorityOf k = Ok p).
  { intros k Hin. apply Hparse1. by rewrite Hperm. }
  destruct (findHighestPriorityReadyKit_greatest kits1 Hparse1)
    as [[-> Hall1] | (k1 & p1 & -> & Hin1 & Hready1 & Hp1 & Hlt1 & Hmax1)];
    destruct (findHighestPriorityReadyKit_greatest kits2 Hparse2)
      as [[-> Hall2] | (k2 & p2 & -> & Hin2 & Hready2 & Hp2 & Hlt2 & Hmax2)];
    simpl; repeat (split; [done|]); try done.
  - rewrite <- Hperm in Hin2. specialize (Hall1 k2 p2 Hin2 Hready2 Hp2). simpl in Hall1. lia.
  - rewrite Hperm in Hin1. specialize (Hall2 k1 p1 Hin1 Hready1 Hp1). simpl in Hall2. lia.
  - rewrite Hp1, Hp2. f_equal.
    rewrite <- Hperm in Hin2. rewrite Hperm in Hin1.
    specialize (Hmax1 k2 p2 Hin2 Hready2 Hp2). specialize (Hmax2 k1 p1 Hin1 Hready1 Hp1).
    simpl in *. lia.
Qed.

End ScanOrder.

(** A pending pod that could not be scheduled. *)
Definition unschedulablePod : Pod :=
  examplePod "u"
    [corev1.PodCondition.mk corev1.PodScheduled corev1.ConditionFalse "Unschedulable"
       "0/3 nodes are available"] [].

Lemma arePodsFailingStatuses_first_unschedulable_witness :
  arePodsFailingStatuses runningIntegration [imagePullPod; unschedulablePod; crashLoopingPod]
    [readyPod]
  = (true, markFailing "0/3 nodes are available" runningIntegration).
Proof.
  apply (arePodsFailingStatuses_first_unschedulable runningIntegration [imagePullPod]
           unschedulablePod [crashLoopingPod] [readyPod] "0/3 nodes are available").
  - intros earlier text Hin (scheduled & Hget & _).
    apply list_elem_of_singleton in Hin as ->. discriminate.
  - eexists. repeat split; reflexivity.
Defined.

Lemma findHighestPriorityReadyKit_order_independent_witness :
  snd (findHighestPriorityReadyKit candidateKits) = None
  /\ snd (findHighestPriorityReadyKit (reverse candidateKits)) = None
  /\ match fst (findHighestPriorityReadyKit candidateKits),
           fst (findHighestPriorityReadyKit (reverse candidateKits)) with
     | Some k1, Some k2 => priorityOf k1 = priorityOf k2
     | None, None => True
     | _, _ => False
     end.
Proof.
  apply (findHighestPriorityReadyKit_order_independent candidateKits (reverse candidateKits)).
  - symmetry. apply reverse_Permutation.
  - intros k Hin _. unfold candidateKits in Hin.
    repeat (apply elem_of_cons in Hin as [-> | Hin]; [by eexists|]).
    by apply elem_of_nil in Hin.
Defined.

(** * trait.go *)

(** [Apply] and [newEnvironment] of pkg/trait/trait.go, which work on the
    v1alpha1 API: the Integration of which only the namespace is read, an
    optional integration context, and the platform, context lookup and trait
    catalog as operations given from outside. *)
Module TraitPackage.

Module IntegrationV1alpha1.
Record t : Type := mk { Name : string; Namespace : string }.
End IntegrationV1alpha1.

Section Traits.
Variables Platform IntegrationContext RuntimeObject TraitID : Type.

(** The [environment] struct. The collection of resources is the list of its
    items: [kubernetes.NewCollection()] is the empty list and [Items()] the
    list itself. *)
Record environment : Type := mkEnvironment {
  EnvPlatform : Platform;
  EnvContext : option IntegrationContext;
  EnvIntegration : IntegrationV1alpha1.t;
  ExecutedTraits : list TraitID;
  EnvResources : list RuntimeObject
}.

(** [platform.GetCurrentPlatform(namespace)]. *)
Variable GetCurrentPlatform : string -> result Platform.
(** [GetIntegrationContext(integration)]; the context it returns is a
    pointer, which may be nil also when there is no error. *)
Variable GetIntegrationContext :
  IntegrationV1alpha1.t -> result (option IntegrationContext).
(** [NewCatalog().apply(environment)]: the error it returns and the
    environment it leaves behind the pointer. *)
Variable catalogApply : environment -> option error * environment.

Definition newEnvironment (integration : IntegrationV1alpha1.t)
    (ctx : option IntegrationContext) : result environment :=
  match GetCurrentPlatform (IntegrationV1alpha1.Namespace integration) with
  | Err err => Err err
  | Ok pl =>
      let resolved :=
        match ctx with
        | None => GetIntegrationContext integration
        | Some ctx => Ok (Some ctx)
        end in
      match resolved with
      | Err err => Err err
      | Ok ctx => Ok (mkEnvironment pl ctx integration [] [])
      end
  end.

Definition Apply (integration : IntegrationV1alpha1.t)
    (ctx : option IntegrationContext) : result (list RuntimeObject) :=
  match newEnvironment integration ctx with
  | Err err => Err err
  | Ok environment =>
      match catalogApply environment with
      | (Some err, _) =>
          Err (ErrWrapped "error during trait customization before deployment" err)
      | (None, environment) => Ok (EnvResources environment)
      end
  end.

(** The context the environment is built with: the one passed in, or, when
    nil is passed, the one [GetIntegrationContext] returns (which may be
    nil). *)
Definition resolvedContext (integration : IntegrationV1alpha1.t)
    (ctx resolved : option IntegrationContext) : Prop :=
  (exists passed, ctx = Some passed /\ resolved = Some passed)
  \/ (ctx = None /\ GetIntegrationContext integration = Ok resolved).

(** X23: the failures of [Apply]. It fails in exactly three ways, and in
    each of them: with the error of the platform lookup, which comes first;
    with the error of the context lookup, when no context was passed; or
    with the error of the trait catalog, run on a fresh environment (no
    executed trait, no resource) holding the platform, the resolved context
    and the Integration, wrapped under "error during trait customization
    before deployment". It succeeds exactly when the three succeed, with the
    resources the catalog left. *)
Theorem Apply_failures (integration : IntegrationV1alpha1.t) (ctx : option IntegrationContext) :
  (forall e,
     Apply integration ctx = Err e
     <-> GetCurrentPlatform (IntegrationV1alpha1.Namespace integration) = Err e
         \/ (exists pl,
               GetCurrentPlatform (IntegrationV1alpha1.Namespace integration) = Ok pl
               /\ ctx = None /\ GetIntegrationContext integration = Err e)
         \/ (exists pl resolved cause left,
               GetCurrentPlatform (IntegrationV1alpha1.Namespace integration) = Ok pl
               /\ resolvedContext integration ctx resolved
               /\ catalogApply (mkEnvironment pl resolved integration [] []) = (Some cause, left)
               /\ e = ErrWrapped "error during trait customization before deployment" cause
               /\ Error e
                  = "error during trait customization before deployment: " +:+ Error cause))
  /\ (forall objects,
        Apply integration ctx = Ok objects
        <-> exists pl resolved left,
              GetCurrentPlatform (IntegrationV1alpha1.Namespace integration) = Ok pl
              /\ resolvedContext integration ctx resolved
              /\ catalogApply (mkEnvironment pl resolved integration [] []) = (None, left)
              /\ objects = EnvResources left).
Proof.
  unfold Apply, newEnvironment, resolvedContext.
  destruct (GetCurrentPlatform _) as [pl|err].
  2:{ split.
      - intros e. split; [intros [= ->]; by left|].
        intros [[= ->] | [(pl & [=] & _) | (pl & c & cause & left & [=] & _)]]. done.
      - intros objects. split; [done|]. by intros (pl & c & left & [=] & _). }
  destruct ctx as [passed|].
  - destruct (catalogApply _) as [[cause|] left] eqn:Hcatalog.
    + split.
      * intros e. split.
        -- intros [= <-]. right. right. exists pl, (Some passed), cause, left.
           repeat split; try done. left. by exists passed.
        -- intros [[=] | [(pl' & _ & [=] & _)
                         | (pl' & c & cause' & left' & [= <-] & Hres & Hrun & -> & _)]].
           destruct Hres as [(passed' & [= <-] & ->) | [[=] _]].
           rewrite Hcatalog in Hrun. by injection Hrun as <- _.
      * intros objects. split; [done|].
        intros (pl' & c & left' & [= <-] & Hres & Hrun & _).
        destruct Hres as [(passed' & [= <-] & ->) | [[=] _]].
        rewrite Hcatalog in Hrun. discriminate.
    + split.
      * intros e. split; [done|].
        intros [[=] | [(pl' & _ & [=] & _)
                      | (pl' & c & cause' & left' & [= <-] & Hres & Hrun & _)]].
        destruct Hres as [(passed' & [= <-] & ->) | [[=] _]].
        rewrite Hcatalog in Hrun. discriminate.
      * intros objects. split.
        -- intros [= <-]. exists pl, (Some passed), left. repeat split; try done.
           left. by exists passed.
        -- intros (pl' & c & left' & [= <-] & Hres & Hrun & ->).
           destruct Hres as [(passed' & [= <-] & ->) | [[=] _]].
           rewrite Hcatalog in Hrun. by injection Hrun as <-.
  - destruct (GetIntegrationContext integration) as [c|err] eqn:Hlookup.
    2:{ split.
        - intros e. split; [intros [= ->]; right; left; by exists pl|].
          intros [[=] | [(pl' & _ & _ & [= ->]) | (pl' & c & cause & left & _ & Hres & _)]];
            [done|].
          by destruct Hres as [(passed & [=] & _) | [_ [=]]].
        - intros objects. split; [done|].
          intros (pl' & c & left & _ & Hres & _).
          by destruct Hres as [(passed & [=] & _) | [_ [=]]]. }
    destruct (catalogApply _) as [[cause|] left] eqn:Hcatalog.
    + split.
      * intros e. split.
        -- intros [= <-]. right. right. exists pl, c, cause, left.
           repeat split; try done. by right.
        -- intros [[=] | [(pl' & _ & _ & [=])
                         | (pl' & c' & cause' & left' & [= <-] & Hres & Hrun & -> & _)]].
           destruct Hres as [(passed & [=] & _) | [_ [= <-]]].
           rewrite Hcatalog in Hrun. by injection Hrun as <- _.
      * intros objects. split; [done|].
        intros (pl' & c' & left' & [= <-] & Hres & Hrun & _).
        destruct Hres as [(passed & [=] & _) | [_ [= <-]]].
        rewrite Hcatalog in Hrun. discriminate.
    + split.
      * intros e. split; [done|].
        intros [[=] | [(pl' & _ & _ & [=])
                      | (pl' & c' & cause' & left' & [= <-] & Hres & Hrun & _)]].
        destruct Hres as [(passed & [=] & _) | [_ [= <-]]].
        rewrite Hcatalog in Hrun. discriminate.
      * intros objects. split.
        -- intros [= <-]. exists pl, c, left. repeat split; try done. by right.
        -- intros (pl' & c' & left' & [= <-] & Hres & Hrun & ->).
           destruct Hres as [(passed & [=] & _) | [_ [= <-]]].
           rewrite Hcatalog in Hrun. by injection Hrun as <-.
Qed.

End Traits.

Arguments Apply {Platform IntegrationContext RuntimeObject TraitID}
  GetCurrentPlatform GetIntegrationContext catalogApply integration ctx.

(** X22: a nil context is looked up, a passed one is not. [Apply] with a nil
    context gives what it gives with the context that [GetIntegrationContext]
    finds for the Integration; with a context passed in, the lookup is not
    consulted: the result is the same whatever the lookup would return. *)
Theorem Apply_nil_context {Platform IntegrationContext RuntimeObject TraitID : Type}
    (GetCurrentPlatform : string -> result Platform)
    (GetIntegrationContext : IntegrationV1alpha1.t -> result (option IntegrationContext))
    (catalogApply : environment Platform IntegrationContext RuntimeObject TraitID
                    -> option error
                       * environment Platform IntegrationContext RuntimeObject TraitID)
    (integration : IntegrationV1alpha1.t) (ctx : IntegrationContext) :
  (GetIntegrationContext integration = Ok (Some ctx) ->
   Apply GetCurrentPlatform GetIntegrationContext catalogApply integration None
   = Apply GetCurrentPlatform GetIntegrationContext catalogApply integration (Some ctx))
  /\ (forall otherLookup,
        Apply GetCurrentPlatform otherLookup catalogApply integration (Some ctx)
        = Apply GetCurrentPlatform GetIntegrationContext catalogApply integration (Some ctx)).
Proof.
  split.
  - intros Hlookup. unfold Apply, newEnvironment.
    destruct (GetCurrentPlatform _) as [pl|err]; [|done]. by rewrite Hlookup.
  - intros otherLookup. unfold Apply, newEnvironment.
    by destruct (GetCurrentPlatform _).
Qed.

(** A platform found in every namespace, a context lookup that finds the
    context named after the Integration, one that fails, and a catalog that
    adds one resource named after the context. *)
Definition foundPlatform (namespace : string) : result string := Ok "platform".

Definition namedContext (integration : IntegrationV1alpha1.t) : result (option string) :=
  Ok (Some (IntegrationV1alpha1.Name integration)).

Definition missingContext (integration : IntegrationV1alpha1.t) : result (option string) :=
  Err (ErrOther "context not found").

Definition deploymentCatalog (e : environment string string string string)
  : option error * environment string string string string :=
  (None,
   mkEnvironment _ _ _ _ (EnvPlatform _ _ _ _ e) (EnvContext _ _ _ _ e)
     (EnvIntegration _ _ _ _ e) ["deployment"]
     (default "none" (EnvContext _ _ _ _ e) :: EnvResources _ _ _ _ e)).

(** A catalog that fails on the context named "broken". *)
Definition pickyCatalog (e : environment string string string string)
  : option error * environment string string string string :=
  if bool_decide (EnvContext _ _ _ _ e = Some "broken")
  then (Some (ErrOther "no trait applies"), e)
  else deploymentCatalog e.

(** The looked-up context "it" and the passed context "it" give the same
    resource; a passed context "other" is used as it is, also when the
    lookup would fail. *)
Lemma Apply_nil_context_witness :
  Apply (TraitID := string) foundPlatform namedContext deploymentCatalog
    (IntegrationV1alpha1.mk "it" "ns") None
  = Ok ["it"]
  /\ Apply (TraitID := string) foundPlatform namedContext deploymentCatalog
       (IntegrationV1alpha1.mk "it" "ns") (Some "it")
     = Ok ["it"]
  /\ Apply (TraitID := string) foundPlatform missingContext deploymentCatalog
       (IntegrationV1alpha1.mk "it" "ns") (Some "other")
     = Ok ["other"].
Proof.
  destruct (Apply_nil_context (TraitID := string) foundPlatform namedContext deploymentCatalog
              (IntegrationV1alpha1.mk "it" "ns") "it") as [Hnil _].
  destruct (Apply_nil_context (TraitID := string) foundPlatform namedContext deploymentCatalog
              (IntegrationV1alpha1.mk "it" "ns") "other") as [_ Hpassed].
  split; [rewrite (Hnil eq_refl); reflexivity|]. split; [reflexivity|].
  rewrite (Hpassed missingContext). reflexivity.
Defined.

(** The three failures and the success, each on a run: a failing context
    lookup with no context passed, a failing catalog, and a passed context
    with a lookup that would fail. *)
Lemma Apply_failures_witness :
  Apply (TraitID := string) foundPlatform missingContext deploymentCatalog
    (IntegrationV1alpha1.mk "it" "ns") None
  = Err (ErrOther "context not found")
  /\ Apply (TraitID := string) foundPlatform namedContext pickyCatalog
       (IntegrationV1alpha1.mk "broken" "ns") None
     = Err (ErrWrapped "error during trait customization before deployment"
              (ErrOther "no trait applies"))
  /\ Apply (TraitID := string) foundPlatform missingContext pickyCatalog
       (IntegrationV1alpha1.mk "it" "ns") (Some "fine")
     = Ok ["fine"].
Proof.
  split; [|split].
  - apply (Apply_failures string string string string foundPlatform missingContext
             deploymentCatalog (IntegrationV1alpha1.mk "it" "ns") None).
    right. left. by exists "platform".
  - apply (Apply_failures string string string string foundPlatform namedContext
             pickyCatalog (IntegrationV1alpha1.mk "broken" "ns") None).
    right. right. eexists "platform", (Some "broken"), _, _.
    split; [reflexivity|]. split; [by right|]. split; [reflexivity|]. split; reflexivity.
  - apply (Apply_failures string string string string foundPlatform missingContext
             pickyCatalog (IntegrationV1alpha1.mk "it" "ns") (Some "fine")).
    eexists "platform", (Some "fine"), _. split; [reflexivity|].
    split; [left; by exists "fine"|]. split; reflexivity.
Defined.

End TraitPackage.
